(** * Luxurium Booking: the alert-derivation engine and its resolution overlay

    A shallow embedding of [src/utils/alertEngine.ts] ([buildAlerts]),
    [src/utils/dateUtils.ts] and [src/state/AlertStore.tsx]
    ([normalizeResolutions], [resolveAlert], [dismissAlert], [reopenAlert]
    and the merge of engine output with stored resolutions), followed by the
    properties of the specification that are settled against it.

    Conventions of the embedding.
    - A JavaScript string is a [string]: the bytes of its UTF-8 encoding.
    - A JavaScript number that the engine reads (ids, guest counts,
      capacities, amounts, time values) is an integer, a [Z]; arithmetic on
      them is exact, as double arithmetic is on safe integers.  [NaN], where
      a built-in can return it, is [None].
    - A [Date] is its time value in milliseconds, [None] for Invalid Date.
    - A [Map] is an association list in insertion order ([JSMap]); a plain
      object used as a string-keyed record store is a [gmap string _].
    - The [Date] built-ins that depend on the host (parsing of a label, the
      local time zone, locale formatting) are the fields of [DateHost]. *)

From stdpp Require Import gmap strings.
From Stdlib Require Import List ZArith String Ascii DecimalString DecimalZ Lia.
From Stdlib Require Import Sorted Permutation.
Import ListNotations.
Open Scope string_scope.
Open Scope Z_scope.

(** ** JavaScript strings *)

(** [String(n)] and [`${n}`] for an integer [n]: its decimal digits, as
    JavaScript prints every integer below 1e21 in size. *)
Definition num_str (n : Z) : string := NilZero.string_of_int (Z.to_int n).

(** [String(x)] for a number that may be [NaN]. *)
Definition js_String (x : option Z) : string :=
  match x with
  | Some n => num_str n
  | None => "NaN"
  end.

Fixpoint zeros (n : nat) : string :=
  match n with
  | O => ""
  | S k => String "0" (zeros k)
  end.

(** [s.padStart(target, "0")]. *)
Definition padStart0 (target : nat) (s : string) : string :=
  zeros (target - String.length s) ++ s.

(** [s.split(sep)] for a one-character separator. *)
Fixpoint split_on (sep : ascii) (s : string) : list string :=
  match s with
  | "" => [""]
  | String c r =>
      if Ascii.eqb c sep then "" :: split_on sep r
      else match split_on sep r with
           | p :: ps => String c p :: ps
           | [] => [String c ""]
           end
  end.

(** [parts.join(sep)]. *)
Definition join (sep : string) (parts : list string) : string :=
  String.concat sep parts.

Definition str_rev (s : string) : string :=
  string_of_list_ascii (rev (list_ascii_of_string s)).

(** The one-byte members of WhiteSpace and LineTerminator: TAB, LF, VT, FF,
    CR and SPACE. *)
Definition is_ws1 (c : ascii) : bool :=
  let n := nat_of_ascii c in
  ((9 <=? n)%nat && (n <=? 13)%nat) || (n =? 32)%nat.

(** The two- and three-byte members, as UTF-8: U+00A0; U+1680;
    U+2000..U+200A, U+2028, U+2029, U+202F; U+205F; U+3000; U+FEFF. *)
Definition is_ws2 (a b : ascii) : bool :=
  (nat_of_ascii a =? 194)%nat && (nat_of_ascii b =? 160)%nat.

Definition is_ws3 (a b c : ascii) : bool :=
  let x := nat_of_ascii a in
  let y := nat_of_ascii b in
  let z := nat_of_ascii c in
  ((x =? 225) && (y =? 154) && (z =? 128))%nat
  || ((x =? 226) && (y =? 128)
      && (((128 <=? z) && (z <=? 138)) || (z =? 168) || (z =? 169) || (z =? 175)))%nat
  || ((x =? 226) && (y =? 129) && (z =? 159))%nat
  || ((x =? 227) && (y =? 128) && (z =? 128))%nat
  || ((x =? 239) && (y =? 187) && (z =? 191))%nat.

(** [s.trimStart()]. *)
Fixpoint trimStart (s : string) : string :=
  match s with
  | "" => ""
  | String a r =>
      if is_ws1 a then trimStart r
      else match r with
           | String b r2 =>
               if is_ws2 a b then trimStart r2
               else match r2 with
                    | String c r3 => if is_ws3 a b c then trimStart r3 else s
                    | "" => s
                    end
           | "" => s
           end
  end.

(** [trimStart] on the reversed string: the multi-byte sequences are met
    last byte first. *)
Fixpoint trimStart_rev (s : string) : string :=
  match s with
  | "" => ""
  | String a r =>
      if is_ws1 a then trimStart_rev r
      else match r with
           | String b r2 =>
               if is_ws2 b a then trimStart_rev r2
               else match r2 with
                    | String c r3 => if is_ws3 c b a then trimStart_rev r3 else s
                    | "" => s
                    end
           | "" => s
           end
  end.

(** [s.trim()]. *)
Definition trim (s : string) : string :=
  str_rev (trimStart_rev (str_rev (trimStart s))).

(** ** JavaScript [Map]: string keys, insertion order *)

Module JSMap.
Section Defs.
Context {V : Type}.

Definition t := list (string * V).

Definition empty : t := [].

(** [m.get(k)]. *)
Fixpoint get (k : string) (m : t) : option V :=
  match m with
  | [] => None
  | (k', v) :: r => if String.eqb k' k then Some v else get k r
  end.

(** [m.set(k, v)]: an existing key keeps its place. *)
Fixpoint set (k : string) (v : V) (m : t) : t :=
  match m with
  | [] => [(k, v)]
  | (k', v') :: r =>
      if String.eqb k' k then (k', v) :: r else (k', v') :: set k v r
  end.

(** [m.entries()]. *)
Definition entries (m : t) : list (string * V) := m.

Definition keys (m : t) : list string := map fst m.
End Defs.
Arguments t : clear implicits.
End JSMap.

(** ** The booking data model ([src/mock/bookingsMockApi.ts])

    Only the fields the engine reads are kept; [halls], which the engine
    reads as [b.halls ?? []], is a list, empty when absent. *)

Inductive Slot := LUNCH | DINNER.

Inductive BookingStatus := INQUIRY | TENTATIVE | CONFIRMED | COMPLETED | CANCELLED.

Inductive HallCode := HallA | HallB.

(** The string each literal type is at run time. *)
Definition Slot_str (s : Slot) : string :=
  match s with LUNCH => "LUNCH" | DINNER => "DINNER" end.

Definition Status_str (s : BookingStatus) : string :=
  match s with
  | INQUIRY => "INQUIRY"
  | TENTATIVE => "TENTATIVE"
  | CONFIRMED => "CONFIRMED"
  | COMPLETED => "COMPLETED"
  | CANCELLED => "CANCELLED"
  end.

Definition HallCode_str (h : HallCode) : string :=
  match h with HallA => "A" | HallB => "B" end.

Module HallAllocation.
Record t := {
  hallCode : HallCode;
  capacity : Z;
  guestsHere : Z
}.
End HallAllocation.

Module AdvanceSummary.
Record t := {
  amount : Z;
  destinationAccount : string
}.
End AdvanceSummary.

Module MockBooking.
Record t := {
  id : Z;
  eventTitle : string;
  eventDateLabel : string;
  slot : Slot;
  totalGuests : Z;
  hallAGuests : option Z;
  hallBGuests : option Z;
  status : BookingStatus;
  customerName : string;
  customerPhone : string;
  customerAddress : option string;
  hasPerformance : bool;
  halls : list HallAllocation.t;
  advance : option AdvanceSummary.t
}.
End MockBooking.

(** ** Alerts ([src/utils/alertEngine.ts], types) *)

Inductive AlertType :=
  | CAPACITY_OVERRIDE
  | PERFORMANCE_HALL_CONFLICT
  | SOFT_BOOKING_FOLLOWUP
  | PAST_NOT_CLOSED
  | MISSING_CONTACT
  | GUEST_SPLIT_MISMATCH
  | COMPLEX_MULTI_HALL_DAY
  | HIGH_GUEST_COUNT
  | HIGH_ADVANCE_VALUE.

Inductive AlertSeverity := info | warning | critical.

Definition AlertType_eqb (a b : AlertType) : bool :=
  match a, b with
  | CAPACITY_OVERRIDE, CAPACITY_OVERRIDE
  | PERFORMANCE_HALL_CONFLICT, PERFORMANCE_HALL_CONFLICT
  | SOFT_BOOKING_FOLLOWUP, SOFT_BOOKING_FOLLOWUP
  | PAST_NOT_CLOSED, PAST_NOT_CLOSED
  | MISSING_CONTACT, MISSING_CONTACT
  | GUEST_SPLIT_MISMATCH, GUEST_SPLIT_MISMATCH
  | COMPLEX_MULTI_HALL_DAY, COMPLEX_MULTI_HALL_DAY
  | HIGH_GUEST_COUNT, HIGH_GUEST_COUNT
  | HIGH_ADVANCE_VALUE, HIGH_ADVANCE_VALUE => true
  | _, _ => false
  end.

(** [slot] holds the [Slot] literal as the string it is at run time: the
    aggregate rules take theirs from [key.split("|")]. *)
Module AlertDefinition.
Record t := {
  id : string;
  type : AlertType;
  severity : AlertSeverity;
  title : string;
  message : string;
  sub : option string;
  bookingId : option Z;
  dateKey : option string;
  slot : option string
}.
End AlertDefinition.

Module HallSlotUsage.
Record t := {
  used : Z;
  capacity : Z;
  eventCount : Z;
  sampleBookingId : option Z;
  sampleDateLabel : option string;
  sampleGuestsHere : Z
}.
End HallSlotUsage.

(** ** Dates ([src/utils/dateUtils.ts]) *)

(** A [Date]: its time value, or [None] for Invalid Date. *)
Definition JSDate := option Z.

(** TimeClip: a time value outside +-8.64e15 ms makes the date invalid. *)
Definition time_clip (t : Z) : JSDate :=
  if Z.abs t <=? 8640000000000000 then Some t else None.

(** What the engine asks of the host's [Date] and [Number]. *)
Class DateHost := {
(** [new Date(label)] *)
date_of_label : string -> JSDate;
(** [getFullYear()], [getMonth()], [getDate()] of a valid date, in the
    local time zone *)
local_year : Z -> Z;
local_month : Z -> Z;
local_day : Z -> Z;
(** [new Date(year, monthIndex, day)], local midnight *)
date_of_local : Z -> Z -> Z -> JSDate;
(** [n.toLocaleString("en-PK")] *)
toLocaleString_enPK : Z -> string
}.

(** [a <= b] on dates compares time values; with Invalid Date it is false. *)
Definition date_le (a b : JSDate) : bool :=
  match a, b with
  | Some x, Some y => x <=? y
  | _, _ => false
  end.

Definition date_lt (a b : JSDate) : bool :=
  match a, b with
  | Some x, Some y => x <? y
  | _, _ => false
  end.

Section Dates.
Context `{DateHost}.

Definition getFullYear (d : JSDate) : option Z := option_map local_year d.
Definition getMonth (d : JSDate) : option Z := option_map local_month d.
Definition getDate (d : JSDate) : option Z := option_map local_day d.

Definition parseEventDateLabel (label : string) : JSDate := date_of_label label.

Definition dateKey (d : JSDate) : string :=
  let y := getFullYear d in
  let m := padStart0 2 (js_String (option_map (fun x => x + 1) (getMonth d))) in
  let day := padStart0 2 (js_String (getDate d)) in
  js_String y ++ "-" ++ m ++ "-" ++ day.

Definition dateKeyFromDate (d : JSDate) : string := dateKey d.

Definition startOfDay (d : JSDate) : JSDate :=
  match d with
  | Some t => date_of_local (local_year t) (local_month t) (local_day t)
  | None => None
  end.

Definition addDays (base : JSDate) (days : Z) : JSDate :=
  match base with
  | Some t => time_clip (t + days * 24 * 60 * 60 * 1000)
  | None => None
  end.
End Dates.

(** ** The engine ([buildAlerts]) *)

Definition humanSlot (slotStr : string) : string :=
  if String.eqb slotStr "LUNCH" then "Lunch" else "Dinner".

(** [const [dk, slotStr, hallCode] = key.split("|")]: a part that is
    missing prints as [undefined] in a template literal.  Every key the
    engine builds has all its parts (see [part_hallKey]). *)
Definition part (i : nat) (key : string) : string :=
  nth i (split_on "|" key) "undefined".

(** The three maps of the indexing pass. *)
Record Index := {
  slotHallBookings : JSMap.t (list MockBooking.t);
  daySlotBookings : JSMap.t (list MockBooking.t);
  hallSlotUsage : JSMap.t HallSlotUsage.t
}.

Definition emptyIndex : Index :=
  {| slotHallBookings := JSMap.empty;
     daySlotBookings := JSMap.empty;
     hallSlotUsage := JSMap.empty |}.

Definition hallKey (dk : string) (slot : Slot) (hallCode : HallCode) : string :=
  dk ++ "|" ++ Slot_str slot ++ "|" ++ HallCode_str hallCode.

Definition daySlotKey (dk : string) (slot : Slot) : string :=
  dk ++ "|" ++ Slot_str slot.

(** The usage record written for one hall allocation, from the previous
    one under the same key. *)
Definition nextUsage (prev : option HallSlotUsage.t) (b : MockBooking.t)
    (hall : HallAllocation.t) : HallSlotUsage.t :=
  let nextUsed :=
    from_option HallSlotUsage.used 0 prev + HallAllocation.guestsHere hall in
  let nextCapacity :=
    Z.max (from_option HallSlotUsage.capacity (HallAllocation.capacity hall) prev)
          (HallAllocation.capacity hall) in
  let nextEventCount := from_option HallSlotUsage.eventCount 0 prev + 1 in
  let sampleBookingId := prev ≫= HallSlotUsage.sampleBookingId in
  let sampleDateLabel := prev ≫= HallSlotUsage.sampleDateLabel in
  let sampleGuestsHere := from_option HallSlotUsage.sampleGuestsHere 0 prev in
  if sampleGuestsHere <=? HallAllocation.guestsHere hall then
    {| HallSlotUsage.used := nextUsed;
       HallSlotUsage.capacity := nextCapacity;
       HallSlotUsage.eventCount := nextEventCount;
       HallSlotUsage.sampleBookingId := Some (MockBooking.id b);
       HallSlotUsage.sampleDateLabel := Some (MockBooking.eventDateLabel b);
       HallSlotUsage.sampleGuestsHere := HallAllocation.guestsHere hall |}
  else
    {| HallSlotUsage.used := nextUsed;
       HallSlotUsage.capacity := nextCapacity;
       HallSlotUsage.eventCount := nextEventCount;
       HallSlotUsage.sampleBookingId := sampleBookingId;
       HallSlotUsage.sampleDateLabel := sampleDateLabel;
       HallSlotUsage.sampleGuestsHere := sampleGuestsHere |}.

(** The body of [for (const hall of b.halls ?? [])]. *)
Definition indexHall (b : MockBooking.t) (dk : string) (ix : Index)
    (hall : HallAllocation.t) : Index :=
  let key := hallKey dk (MockBooking.slot b) (HallAllocation.hallCode hall) in
  let list := (default [] (JSMap.get key (slotHallBookings ix)) ++ [b])%list in
  let prev := JSMap.get key (hallSlotUsage ix) in
  {| slotHallBookings := JSMap.set key list (slotHallBookings ix);
     daySlotBookings := daySlotBookings ix;
     hallSlotUsage := JSMap.set key (nextUsage prev b hall) (hallSlotUsage ix) |}.

Section Engine.
Context `{DateHost}.

(** The body of the first [for (const b of bookings)]. *)
Definition indexBooking (ix : Index) (b : MockBooking.t) : Index :=
  let d := parseEventDateLabel (MockBooking.eventDateLabel b) in
  let dk := dateKeyFromDate d in
  let key := daySlotKey dk (MockBooking.slot b) in
  let daySlotArr :=
    (default [] (JSMap.get key (daySlotBookings ix)) ++ [b])%list in
  let ix1 :=
    {| slotHallBookings := slotHallBookings ix;
       daySlotBookings := JSMap.set key daySlotArr (daySlotBookings ix);
       hallSlotUsage := hallSlotUsage ix |} in
  fold_left (indexHall b dk) (MockBooking.halls b) ix1.

Definition buildIndex (bookings : list MockBooking.t) : Index :=
  fold_left indexBooking bookings emptyIndex.
End Engine.

(** 1) Capacity override: one entry of [hallSlotUsage]. *)
Definition capacityAlert (e : string * HallSlotUsage.t) : list AlertDefinition.t :=
  let (key, usage) := e in
  if HallSlotUsage.used usage <=? HallSlotUsage.capacity usage then []
  else
    let dk := part 0 key in
    let slotStr := part 1 key in
    let hallCode := part 2 key in
    let dateLabel := default dk (HallSlotUsage.sampleDateLabel usage) in
    [ {| AlertDefinition.id := "cap-" ++ dk ++ "-" ++ slotStr ++ "-" ++ hallCode;
         AlertDefinition.type := CAPACITY_OVERRIDE;
         AlertDefinition.severity := critical;
         AlertDefinition.bookingId := HallSlotUsage.sampleBookingId usage;
         AlertDefinition.dateKey := Some dk;
         AlertDefinition.slot := Some slotStr;
         AlertDefinition.title := "Capacity override – Hall " ++ hallCode;
         AlertDefinition.message :=
           dateLabel ++ " (" ++ humanSlot slotStr ++ "): Hall " ++ hallCode
           ++ " has " ++ num_str (HallSlotUsage.used usage)
           ++ " guests across " ++ num_str (HallSlotUsage.eventCount usage)
           ++ " event(s) for " ++ num_str (HallSlotUsage.capacity usage)
           ++ " capacity.";
         AlertDefinition.sub :=
           Some "This indicates the hall is overbooked for the same slot. Review allocations, safety, and get explicit manager approval if this is intentional."
      |} ].

(** 2) Performance conflict: one entry of [slotHallBookings]. *)
Definition performanceAlert (e : string * list MockBooking.t) : list AlertDefinition.t :=
  let (key, list) := e in
  if (List.length list <=? 1)%nat then []
  else if negb (existsb MockBooking.hasPerformance list) then []
  else
    let dk := part 0 key in
    let slotStr := part 1 key in
    let hallCode := part 2 key in
    let anyWithPerf := find MockBooking.hasPerformance list in
    let dateLabel := from_option MockBooking.eventDateLabel dk anyWithPerf in
    [ {| AlertDefinition.id :=
           "perf-conflict-" ++ dk ++ "-" ++ slotStr ++ "-" ++ hallCode;
         AlertDefinition.type := PERFORMANCE_HALL_CONFLICT;
         AlertDefinition.severity := warning;
         AlertDefinition.bookingId := option_map MockBooking.id anyWithPerf;
         AlertDefinition.dateKey := Some dk;
         AlertDefinition.slot := Some slotStr;
         AlertDefinition.title := "Performance + other event in same hall";
         AlertDefinition.message :=
           "There are " ++ num_str (Z.of_nat (List.length list))
           ++ " event(s) in Hall " ++ hallCode ++ " during " ++ humanSlot slotStr
           ++ " on " ++ dateLabel ++ ", and at least one has a performance.";
         AlertDefinition.sub :=
           Some "By rule, a hall with musical performance should usually be exclusive. Review and decide if this is acceptable (or dismiss with manager note)."
      |} ].

(** 9) Complex multi-hall slot: one entry of [daySlotBookings]. *)
Definition complexAlert (e : string * list MockBooking.t) : list AlertDefinition.t :=
  let (key, list) := e in
  if (List.length list <=? 1)%nat then []
  else
    let multiHallEvents :=
      filter (fun b => (1 <? List.length (MockBooking.halls b))%nat) list in
    if (2 <=? List.length multiHallEvents)%nat || (3 <=? List.length list)%nat then
      let dk := part 0 key in
      let slotStr := part 1 key in
      let labelDate :=
        from_option MockBooking.eventDateLabel dk (head multiHallEvents) in
      [ {| AlertDefinition.id := "complex-multihall-" ++ dk ++ "-" ++ slotStr;
           AlertDefinition.type := COMPLEX_MULTI_HALL_DAY;
           AlertDefinition.severity := info;
           AlertDefinition.bookingId := None;
           AlertDefinition.dateKey := Some dk;
           AlertDefinition.slot := Some slotStr;
           AlertDefinition.title := "Complex multi-hall slot";
           AlertDefinition.message :=
             num_str (Z.of_nat (List.length list)) ++ " events in this slot, with "
             ++ num_str (Z.of_nat (List.length multiHallEvents))
             ++ " using multiple halls (" ++ humanSlot slotStr ++ " on "
             ++ labelDate ++ ").";
           AlertDefinition.sub :=
             Some "Worth reviewing allocations, timings, and movement carefully."
        |} ]
    else [].

Definition isSoftStatus (s : BookingStatus) : bool :=
  match s with INQUIRY | TENTATIVE => true | _ => false end.

Definition isOpenStatus (s : BookingStatus) : bool :=
  match s with INQUIRY | TENTATIVE | CONFIRMED => true | _ => false end.

(** [!s || s.trim() === ""] *)
Definition blank (s : string) : bool :=
  String.eqb s "" || String.eqb (trim s) "".

(** [x || 0] for a nullable number. *)
Definition or_zero (x : option Z) : Z :=
  match x with
  | Some n => if n =? 0 then 0 else n
  | None => 0
  end.

Definition is_some {A : Type} (x : option A) : bool :=
  match x with Some _ => true | None => false end.

Section Rules.
Variables (d : JSDate) (dk : string) (b : MockBooking.t).

(** 3) Inquiry / Tentative within 15 days. *)
Definition softFollowup (todayStart in15Days : JSDate) : list AlertDefinition.t :=
  if isSoftStatus (MockBooking.status b) && date_le todayStart d && date_le d in15Days
  then
    [ {| AlertDefinition.id := "soft-follow-" ++ num_str (MockBooking.id b);
         AlertDefinition.type := SOFT_BOOKING_FOLLOWUP;
         AlertDefinition.severity := warning;
         AlertDefinition.bookingId := Some (MockBooking.id b);
         AlertDefinition.dateKey := Some dk;
         AlertDefinition.slot := Some (Slot_str (MockBooking.slot b));
         AlertDefinition.title :=
           match MockBooking.status b with
           | INQUIRY => "Inquiry – follow up"
           | _ => "Tentative – confirm or release"
           end;
         AlertDefinition.message :=
           MockBooking.eventTitle b ++ " on " ++ MockBooking.eventDateLabel b
           ++ " (" ++ humanSlot (Slot_str (MockBooking.slot b)) ++ ").";
         AlertDefinition.sub :=
           Some ("Status: " ++ Status_str (MockBooking.status b) ++ ". Contact: "
                 ++ MockBooking.customerName b
                 ++ (if String.eqb (MockBooking.customerPhone b) "" then ""
                     else " – " ++ MockBooking.customerPhone b)
                 ++ ". Please confirm or free the slot.")
      |} ]
  else [].

(** 4) Past bookings that are not COMPLETED or CANCELLED. *)
Definition pastNotClosed (todayStart : JSDate) : list AlertDefinition.t :=
  let isPast := date_lt d todayStart in
  if isPast && isOpenStatus (MockBooking.status b) then
    [ {| AlertDefinition.id := "past-open-" ++ num_str (MockBooking.id b);
         AlertDefinition.type := PAST_NOT_CLOSED;
         AlertDefinition.severity := warning;
         AlertDefinition.bookingId := Some (MockBooking.id b);
         AlertDefinition.dateKey := Some dk;
         AlertDefinition.slot := Some (Slot_str (MockBooking.slot b));
         AlertDefinition.title := "Past booking not closed";
         AlertDefinition.message :=
           MockBooking.eventTitle b ++ " on " ++ MockBooking.eventDateLabel b
           ++ " is still marked as " ++ Status_str (MockBooking.status b) ++ ".";
         AlertDefinition.sub :=
           Some "Mark this booking as COMPLETED or CANCELLED so reporting and headcount stay accurate."
      |} ]
  else [].

(** 5) Missing critical contact details. *)
Definition missingContact : list AlertDefinition.t :=
  let missingPhone := blank (MockBooking.customerPhone b) in
  let missingAddress :=
    match MockBooking.customerAddress b with
    | Some a => blank a
    | None => true
    end in
  if missingPhone || missingAddress then
    let missingParts :=
      ((if missingPhone then ["phone"] else [])
       ++ (if missingAddress then ["address"] else []))%list in
    [ {| AlertDefinition.id := "missing-contact-" ++ num_str (MockBooking.id b);
         AlertDefinition.type := MISSING_CONTACT;
         AlertDefinition.severity := info;
         AlertDefinition.bookingId := Some (MockBooking.id b);
         AlertDefinition.dateKey := Some dk;
         AlertDefinition.slot := Some (Slot_str (MockBooking.slot b));
         AlertDefinition.title := "Missing contact details";
         AlertDefinition.message :=
           MockBooking.eventTitle b ++ " is missing: "
           ++ join " & " missingParts ++ ".";
         AlertDefinition.sub :=
           Some ("Customer: " ++ MockBooking.customerName b ++ ". Add "
                 ++ join " and " missingParts
                 ++ " so it’s easier to reach them and keep records complete.")
      |} ]
  else [].

(** 6) Guest split mismatch. *)
Definition guestSplitMismatch : list AlertDefinition.t :=
  let a := MockBooking.hallAGuests b in
  let bb := MockBooking.hallBGuests b in
  if is_some a || is_some bb then
    let sum := or_zero a + or_zero bb in
    if negb (MockBooking.totalGuests b =? 0)
       && negb (sum =? MockBooking.totalGuests b) then
      [ {| AlertDefinition.id := "split-mismatch-" ++ num_str (MockBooking.id b);
           AlertDefinition.type := GUEST_SPLIT_MISMATCH;
           AlertDefinition.severity := info;
           AlertDefinition.bookingId := Some (MockBooking.id b);
           AlertDefinition.dateKey := Some dk;
           AlertDefinition.slot := Some (Slot_str (MockBooking.slot b));
           AlertDefinition.title := "Guest split mismatch";
           AlertDefinition.message :=
             MockBooking.eventTitle b ++ ": totalGuests = "
             ++ num_str (MockBooking.totalGuests b)
             ++ ", but Hall A + Hall B = " ++ num_str sum ++ ".";
           AlertDefinition.sub :=
             Some "Check hall splits – this affects capacity logic and guest reporting."
        |} ]
    else []
  else [].

(** 7) High guest count. *)
Definition highGuestCount : list AlertDefinition.t :=
  if 1500 <=? MockBooking.totalGuests b then
    [ {| AlertDefinition.id := "high-guests-" ++ num_str (MockBooking.id b);
         AlertDefinition.type := HIGH_GUEST_COUNT;
         AlertDefinition.severity := info;
         AlertDefinition.bookingId := Some (MockBooking.id b);
         AlertDefinition.dateKey := Some dk;
         AlertDefinition.slot := Some (Slot_str (MockBooking.slot b));
         AlertDefinition.title := "Very large guest count";
         AlertDefinition.message :=
           MockBooking.eventTitle b ++ " has "
           ++ num_str (MockBooking.totalGuests b) ++ " guests planned.";
         AlertDefinition.sub :=
           Some "Large event – double-check staffing, kitchen capacity, parking, and entry/exit flow."
      |} ]
  else [].

(** 8) High advance value. *)
Definition highAdvanceValue `{DateHost} : list AlertDefinition.t :=
  match MockBooking.advance b with
  | Some adv =>
      if 200000 <=? AdvanceSummary.amount adv then
        [ {| AlertDefinition.id := "high-advance-" ++ num_str (MockBooking.id b);
             AlertDefinition.type := HIGH_ADVANCE_VALUE;
             AlertDefinition.severity := info;
             AlertDefinition.bookingId := Some (MockBooking.id b);
             AlertDefinition.dateKey := Some dk;
             AlertDefinition.slot := Some (Slot_str (MockBooking.slot b));
             AlertDefinition.title := "High-value booking (advance)";
             AlertDefinition.message :=
               MockBooking.eventTitle b ++ " has an advance of Rs "
               ++ toLocaleString_enPK (AdvanceSummary.amount adv) ++ ".";
             AlertDefinition.sub :=
               Some ("Destination: " ++ AdvanceSummary.destinationAccount adv
                     ++ ". Keep an eye on finance follow-up and final payment.")
          |} ]
      else []
  | None => []
  end.
End Rules.

Section Build.
Context `{DateHost}.

(** The body of the second [for (const b of bookings)]. *)
Definition bookingAlerts (todayStart in15Days : JSDate) (b : MockBooking.t)
    : list AlertDefinition.t :=
  let d := parseEventDateLabel (MockBooking.eventDateLabel b) in
  let dk := dateKeyFromDate d in
  (softFollowup d dk b todayStart in15Days
   ++ pastNotClosed d dk b todayStart
   ++ missingContact dk b
   ++ guestSplitMismatch dk b
   ++ highGuestCount dk b
   ++ highAdvanceValue dk b)%list.

Definition buildAlerts (bookings : list MockBooking.t) (today : JSDate)
    : list AlertDefinition.t :=
  let todayStart := startOfDay today in
  let in15Days := addDays todayStart 15 in
  let ix := buildIndex bookings in
  (flat_map capacityAlert (JSMap.entries (hallSlotUsage ix))
   ++ flat_map performanceAlert (JSMap.entries (slotHallBookings ix))
   ++ flat_map (bookingAlerts todayStart in15Days) bookings
   ++ flat_map complexAlert (JSMap.entries (daySlotBookings ix)))%list.
End Build.

(** ** The resolution store ([src/state/AlertStore.tsx]) *)

Inductive AlertResolutionStatus := ACTIVE | RESOLVED | DISMISSED.

Module AlertResolution.
Record t := {
  alertId : string;
  status : AlertResolutionStatus;
  note : option string;
  updatedAt : string
}.
End AlertResolution.

(** [{ ...def, resolution, effectiveStatus }] *)
Module AlertWithResolution.
Record t := {
  def : AlertDefinition.t;
  resolution : option AlertResolution.t;
  effectiveStatus : AlertResolutionStatus
}.
End AlertWithResolution.

(** [note?.trim() || undefined] *)
Definition trimmed_note (note : option string) : option string :=
  match note with
  | Some n => let t := trim n in if String.eqb t "" then None else Some t
  | None => None
  end.

(** The store is the plain object held in the [resolutions] state, as the
    finite map of its own properties.  Reading [prev[alertId]] also sees
    what the object inherits; of an inherited value the code only uses
    [?.note] and [?.status], which [Object.prototype] members do not have,
    and no id the engine builds is the name of one (each starts with the
    prefix of its rule, see [id_has_prefix]).

    The three mutations, as the functions handed to [setResolutions];
    [now] is [new Date().toISOString()]. *)
Definition resolveAlert (now : string) (alertId : string) (note : option string)
    (prev : gmap string AlertResolution.t) : gmap string AlertResolution.t :=
  <[ alertId :=
       {| AlertResolution.alertId := alertId;
          AlertResolution.status := RESOLVED;
          AlertResolution.note :=
            match trimmed_note note with
            | Some n => Some n
            | None => prev !! alertId ≫= AlertResolution.note
            end;
          AlertResolution.updatedAt := now |} ]> prev.

Definition dismissAlert (now : string) (alertId : string) (note : option string)
    (prev : gmap string AlertResolution.t) : gmap string AlertResolution.t :=
  <[ alertId :=
       {| AlertResolution.alertId := alertId;
          AlertResolution.status := DISMISSED;
          AlertResolution.note := trimmed_note note;
          AlertResolution.updatedAt := now |} ]> prev.

Definition reopenAlert (alertId : string)
    (prev : gmap string AlertResolution.t) : gmap string AlertResolution.t :=
  delete alertId prev.

(** The [alerts] memo: engine output merged with the stored resolutions. *)
Definition mergeAlerts (baseAlerts : list AlertDefinition.t)
    (resolutions : gmap string AlertResolution.t) : list AlertWithResolution.t :=
  map (fun def =>
         let res := resolutions !! AlertDefinition.id def in
         {| AlertWithResolution.def := def;
            AlertWithResolution.resolution := res;
            AlertWithResolution.effectiveStatus :=
              from_option AlertResolution.status ACTIVE res |})
      baseAlerts.

(** *** Load normalization ([normalizeResolutions])

    A value returned by [JSON.parse].  The properties of an object are
    listed in the order [Object.entries] yields them. *)
#[warnings="-register-all"]
Inductive json :=
  | JNull
  | JBool (b : bool)
  | JNum (n : Z)
  | JStr (s : string)
  | JArr (items : list json)
  | JObj (props : list (string * json)).

(** [value && typeof value === "object"]: arrays are objects too. *)
Definition is_object (v : json) : bool :=
  match v with
  | JArr _ | JObj _ => true
  | _ => false
  end.

Fixpoint indexed (i : nat) (items : list json) : list (string * json) :=
  match items with
  | [] => []
  | v :: r => (num_str (Z.of_nat i), v) :: indexed (S i) r
  end.

(** [Object.entries(obj)] *)
Definition object_entries (v : json) : list (string * json) :=
  match v with
  | JObj props => props
  | JArr items => indexed 0 items
  | _ => []
  end.

Fixpoint assoc (name : string) (props : list (string * json)) : option json :=
  match props with
  | [] => None
  | (k, v) :: r => if String.eqb k name then Some v else assoc name r
  end.

(** [typeof v.name === "string" ? v.name : undefined]; none of the names
    read here is a property of an array. *)
Definition str_prop (name : string) (v : json) : option string :=
  match v with
  | JObj props =>
      match assoc name props with
      | Some (JStr s) => Some s
      | _ => None
      end
  | _ => None
  end.

(** One turn of the loop: the record an entry yields, if any.  [now] is
    [new Date().toISOString()], taken constant over one load. *)
Definition normalizeEntry (now : string) (key : string) (value : json)
    : option AlertResolution.t :=
  if negb (is_object value) then None
  else
    let alertId := default key (str_prop "alertId" value) in
    let statusRaw := default "" (str_prop "status" value) in
    let status :=
      if String.eqb statusRaw "DISMISSED" then DISMISSED
      else if String.eqb statusRaw "RESOLVED" then RESOLVED
      else ACTIVE in
    let note :=
      match str_prop "note" value with
      | Some n => Some n
      | None => str_prop "reason" value
      end in
    let updatedAt :=
      match str_prop "updatedAt" value with
      | Some u => u
      | None =>
          match str_prop "dismissedAt" value with
          | Some u => u
          | None => default now (str_prop "resolvedAt" value)
          end
      end in
    if String.eqb alertId "" then None
    else Some {| AlertResolution.alertId := alertId;
                 AlertResolution.status := status;
                 AlertResolution.note := trimmed_note note;
                 AlertResolution.updatedAt := updatedAt |}.

(** [out[alertId] = r] on a plain object: the name [__proto__] reaches the
    setter of [Object.prototype] and adds no property (the record becomes
    the prototype of [out], which spreading and [JSON.stringify] leave
    behind). *)
Definition object_assign (out : gmap string AlertResolution.t) (alertId : string)
    (r : AlertResolution.t) : gmap string AlertResolution.t :=
  if String.eqb alertId "__proto__" then out else <[ alertId := r ]> out.

Definition normalizeStep (now : string) (out : gmap string AlertResolution.t)
    (e : string * json) : gmap string AlertResolution.t :=
  match normalizeEntry now (fst e) (snd e) with
  | Some r => object_assign out (AlertResolution.alertId r) r
  | None => out
  end.

Definition normalizeResolutions (now : string) (input : json)
    : gmap string AlertResolution.t :=
  if negb (is_object input) then ∅
  else fold_left (normalizeStep now) (object_entries input) ∅.

(** ** A reference host: UTC, labels of the form [27 Nov 2025]

    Used to run the engine on concrete bookings. *)

Definition days_from_civil (y m d : Z) : Z :=
  let y := if m <=? 2 then y - 1 else y in
  let era := y / 400 in
  let yoe := y - era * 400 in
  let doy := (153 * (if 2 <? m then m - 3 else m + 9) + 2) / 5 + d - 1 in
  let doe := yoe * 365 + yoe / 4 - yoe / 100 + doy in
  era * 146097 + doe - 719468.

Definition civil_from_days (z : Z) : Z * Z * Z :=
  let z := z + 719468 in
  let era := z / 146097 in
  let doe := z - era * 146097 in
  let yoe := (doe - doe / 1460 + doe / 36524 - doe / 146096) / 365 in
  let y := yoe + era * 400 in
  let doy := doe - (365 * yoe + yoe / 4 - yoe / 100) in
  let mp := (5 * doy + 2) / 153 in
  let d := doy - (153 * mp + 2) / 5 + 1 in
  let m := if mp <? 10 then mp + 3 else mp - 9 in
  (if m <=? 2 then y + 1 else y, m, d).

Definition ms_per_day : Z := 24 * 60 * 60 * 1000.

Fixpoint lookup_name (name : string) (table : list (string * Z)) : option Z :=
  match table with
  | [] => None
  | (k, v) :: r => if String.eqb k name then Some v else lookup_name name r
  end.

Definition month_index (name : string) : option Z :=
  lookup_name name
    [("Jan", 0); ("Feb", 1); ("Mar", 2); ("Apr", 3); ("May", 4); ("Jun", 5);
     ("Jul", 6); ("Aug", 7); ("Sep", 8); ("Oct", 9); ("Nov", 10); ("Dec", 11)].

Definition digits (s : string) : option Z :=
  option_map Z.of_uint (NilEmpty.uint_of_string s).

Definition utc_parse (label : string) : JSDate :=
  match split_on " " label with
  | [dd; mon; yyyy] =>
      match digits dd, month_index mon, digits yyyy with
      | Some d, Some m, Some y =>
          time_clip (days_from_civil y (m + 1) d * ms_per_day)
      | _, _, _ => None
      end
  | _ => None
  end.

(** Digits in groups of three, as [en-PK] prints an integer. *)
Fixpoint group3 (fuel : nat) (n : Z) : string :=
  match fuel with
  | O => num_str n
  | S k =>
      if n <? 1000 then num_str n
      else group3 k (n / 1000) ++ "," ++ padStart0 3 (num_str (n mod 1000))
  end.

#[local] Instance utcHost : DateHost := {|
  date_of_label := utc_parse;
  local_year := fun t => fst (fst (civil_from_days (t / ms_per_day)));
  local_month := fun t => snd (fst (civil_from_days (t / ms_per_day))) - 1;
  local_day := fun t => snd (civil_from_days (t / ms_per_day));
  date_of_local := fun y m d => time_clip (days_from_civil y (m + 1) d * ms_per_day);
  toLocaleString_enPK := fun n =>
    if n <? 0 then "-" ++ group3 8 (- n) else group3 8 n
|}.

(** One turn of a grouping loop: [m.set(key, upd(m.get(key), x))]. *)
Definition group_step {V X : Type} (kf : X -> string) (upd : option V -> X -> V)
    (m : JSMap.t V) (x : X) : JSMap.t V :=
  JSMap.set (kf x) (upd (JSMap.get (kf x) m) x) m.

(** ** Vocabulary of the specification

    The groups and aggregates the rules are stated over, written from the
    words of the specification rather than from the loops of the engine. *)

Definition Slot_eqb (a b : Slot) : bool :=
  match a, b with
  | LUNCH, LUNCH | DINNER, DINNER => true
  | _, _ => false
  end.

Definition HallCode_eqb (a b : HallCode) : bool :=
  match a, b with
  | HallA, HallA | HallB, HallB => true
  | _, _ => false
  end.

Section Vocabulary.
Context `{DateHost}.

(** The date key of a booking's event date. *)
Definition bookingDateKey (b : MockBooking.t) : string :=
  dateKeyFromDate (parseEventDateLabel (MockBooking.eventDateLabel b)).

Definition bookingDate (b : MockBooking.t) : JSDate :=
  parseEventDateLabel (MockBooking.eventDateLabel b).

(** Every hall allocation of every booking, with the booking it belongs
    to, in booking order. *)
Definition allocations (bookings : list MockBooking.t)
    : list (MockBooking.t * HallAllocation.t) :=
  flat_map (fun b => map (pair b) (MockBooking.halls b)) bookings.

Definition allocKey (x : MockBooking.t * HallAllocation.t) : string :=
  hallKey (bookingDateKey (fst x)) (MockBooking.slot (fst x))
          (HallAllocation.hallCode (snd x)).

Definition bookingKey (b : MockBooking.t) : string :=
  daySlotKey (bookingDateKey b) (MockBooking.slot b).

(** The hall allocations under one (date, slot, hallCode) key. *)
Definition at_key (dk : string) (slot : Slot) (hall : HallCode)
    (x : MockBooking.t * HallAllocation.t) : bool :=
  String.eqb (bookingDateKey (fst x)) dk
  && Slot_eqb (MockBooking.slot (fst x)) slot
  && HallCode_eqb (HallAllocation.hallCode (snd x)) hall.

Definition allocations_at (bookings : list MockBooking.t)
    (dk : string) (slot : Slot) (hall : HallCode)
    : list (MockBooking.t * HallAllocation.t) :=
  filter (at_key dk slot hall) (allocations bookings).

(** The bookings of one (date, slot, hallCode) group: those of that date
    and slot that have an allocation in that hall. *)
Definition uses_hall (hall : HallCode) (b : MockBooking.t) : bool :=
  existsb (fun h => HallCode_eqb (HallAllocation.hallCode h) hall)
          (MockBooking.halls b).

Definition hall_group (bookings : list MockBooking.t)
    (dk : string) (slot : Slot) (hall : HallCode) : list MockBooking.t :=
  filter (fun b => String.eqb (bookingDateKey b) dk
                   && Slot_eqb (MockBooking.slot b) slot
                   && uses_hall hall b)
         bookings.
End Vocabulary.

(** A booking lists each hall at most once. *)
Definition one_allocation_per_hall (b : MockBooking.t) : Prop :=
  List.NoDup (map HallAllocation.hallCode (MockBooking.halls b)).

(** Summed guests-here of a list of allocations. *)
Definition guests_sum (l : list HallAllocation.t) : Z :=
  fold_right (fun h acc => HallAllocation.guestsHere h + acc) 0 l.

(** The maximum capacity observed in a list of allocations. *)
Definition max_capacity (l : list HallAllocation.t) : option Z :=
  match l with
  | [] => None
  | h :: r =>
      Some (fold_right (fun x acc => Z.max (HallAllocation.capacity x) acc)
                       (HallAllocation.capacity h) r)
  end.

(** The ids of the aggregate rules, as the specification writes them:
    [cap-{dateKey}-{slot}-{hallCode}], [perf-conflict-{dateKey}-{slot}-{hallCode}]
    and [complex-multihall-{dateKey}-{slot}]. *)
Definition capacityId (dk : string) (slot : Slot) (hall : HallCode) : string :=
  "cap-" ++ dk ++ "-" ++ Slot_str slot ++ "-" ++ HallCode_str hall.

Definition perfConflictId (dk : string) (slot : Slot) (hall : HallCode) : string :=
  "perf-conflict-" ++ dk ++ "-" ++ Slot_str slot ++ "-" ++ HallCode_str hall.

Definition complexId (dk : string) (slot : Slot) : string :=
  "complex-multihall-" ++ dk ++ "-" ++ Slot_str slot.

Definition has_type (ty : AlertType) (a : AlertDefinition.t) : bool :=
  AlertType_eqb (AlertDefinition.type a) ty.

Definition listStep (b : MockBooking.t) (o : option (list MockBooking.t))
  : list MockBooking.t := (default [] o ++ [b])%list.

(** The six rules of the per-booking pass. *)
Definition is_booking_type (ty : AlertType) : bool :=
  match ty with
  | SOFT_BOOKING_FOLLOWUP | PAST_NOT_CLOSED | MISSING_CONTACT
  | GUEST_SPLIT_MISMATCH | HIGH_GUEST_COUNT | HIGH_ADVANCE_VALUE => true
  | _ => false
  end.

(** No bar in a string: such a string is one part of a key. *)
Fixpoint bar_free (s : string) : bool :=
  match s with
  | "" => true
  | String c r => negb (Ascii.eqb c "|") && bar_free r
  end.

(** The reversed character list of [x ++ s]: the characters of the suffix
    [s] come first. *)
Definition rchars (s : string) : list ascii := rev (list_ascii_of_string s).


(** ** Vocabulary of the per-booking rules *)

(** [d] lies in the closed interval [[lo, hi]] of instants; an invalid date
    is in no interval and bounds none. *)
Definition in_closed_interval (lo hi d : JSDate) : bool :=
  match lo, hi, d with
  | Some a, Some b, Some t => (a <=? t) && (t <=? b)
  | _, _, _ => false
  end.

(** The follow-up window: from the start of the reference day to fifteen
    days later, both ends included. *)
Definition followup_window (todayStart d : JSDate) : bool :=
  in_closed_interval todayStart (addDays todayStart 15) d.

(** A guest split was entered, the total is not zero, and the split, nulls
    counted as 0, does not add up to the total. *)
Definition split_mismatch (b : MockBooking.t) : bool :=
  (is_some (MockBooking.hallAGuests b) || is_some (MockBooking.hallBGuests b))
  && negb (MockBooking.totalGuests b =? 0)
  && negb (default 0 (MockBooking.hallAGuests b) + default 0 (MockBooking.hallBGuests b)
           =? MockBooking.totalGuests b).

(** The ids of the per-booking rules. *)
Definition bookingAlertId (prefix : string) (b : MockBooking.t) : string :=
  prefix ++ num_str (MockBooking.id b).

(** The prefix each rule gives its ids. *)
Definition id_prefix (ty : AlertType) : string :=
  match ty with
  | CAPACITY_OVERRIDE => "cap-"
  | PERFORMANCE_HALL_CONFLICT => "perf-conflict-"
  | SOFT_BOOKING_FOLLOWUP => "soft-follow-"
  | PAST_NOT_CLOSED => "past-open-"
  | MISSING_CONTACT => "missing-contact-"
  | GUEST_SPLIT_MISMATCH => "split-mismatch-"
  | COMPLEX_MULTI_HALL_DAY => "complex-multihall-"
  | HIGH_GUEST_COUNT => "high-guests-"
  | HIGH_ADVANCE_VALUE => "high-advance-"
  end.

(** ** Concrete bookings, for running the engine on the reference host *)

Definition hallAlloc (code : HallCode) (capacity guestsHere : Z) : HallAllocation.t :=
  {| HallAllocation.hallCode := code;
     HallAllocation.capacity := capacity;
     HallAllocation.guestsHere := guestsHere |}.

Definition booking (id : Z) (label : string) (status : BookingStatus)
    (hasPerformance : bool) (totalGuests : Z) (hallAGuests hallBGuests : option Z)
    (halls : list HallAllocation.t) : MockBooking.t :=
  {| MockBooking.id := id;
     MockBooking.eventTitle := "Barat";
     MockBooking.eventDateLabel := label;
     MockBooking.slot := DINNER;
     MockBooking.totalGuests := totalGuests;
     MockBooking.hallAGuests := hallAGuests;
     MockBooking.hallBGuests := hallBGuests;
     MockBooking.status := status;
     MockBooking.customerName := "Hamza Khan";
     MockBooking.customerPhone := "0300-1110001";
     MockBooking.customerAddress := Some "DHA Phase 5, Karachi";
     MockBooking.hasPerformance := hasPerformance;
     MockBooking.halls := halls;
     MockBooking.advance := None |}.

(** 13 Nov 2025, 02:13:20 UTC, and a minute later. *)
Definition ref_today : JSDate := Some 1763000000000.
Definition ref_today_later : JSDate := Some 1763000060000.

(** The scenario of the specification: 400 + 350 + 350 guests in Hall A,
    Dinner, 15 Nov 2025, against a capacity of 1000. *)
Definition overbooked_day : list MockBooking.t :=
  [ booking 1 "15 Nov 2025" CONFIRMED false 400 (Some 400) None [hallAlloc HallA 1000 400];
    booking 2 "15 Nov 2025" CONFIRMED false 350 (Some 350) None [hallAlloc HallA 1000 350];
    booking 3 "15 Nov 2025" CONFIRMED false 350 (Some 350) None [hallAlloc HallA 1000 350] ].

(** A performance sharing Hall A with another event. *)
Definition shared_performance : list MockBooking.t :=
  [ booking 1 "15 Nov 2025" CONFIRMED true 300 (Some 300) None [hallAlloc HallA 1000 300];
    booking 2 "15 Nov 2025" CONFIRMED false 200 (Some 200) None [hallAlloc HallA 1000 200] ].

(** One booking, with a performance, that lists Hall A twice. *)
Definition hall_listed_twice : list MockBooking.t :=
  [ booking 1 "15 Nov 2025" CONFIRMED true 300 (Some 300) None
      [hallAlloc HallA 1000 200; hallAlloc HallA 1000 100] ].

(** A hall whose tracked capacity is 0. *)
Definition zero_capacity : list MockBooking.t :=
  [ booking 1 "15 Nov 2025" CONFIRMED false 1 (Some 1) None [hallAlloc HallA 0 1] ].

(** Soft bookings around the follow-up window of 13 Nov 2025: the day
    before, the day itself, fifteen days on and sixteen days on. *)
Definition soft_bookings : list MockBooking.t :=
  [ booking 1 "12 Nov 2025" TENTATIVE false 100 None None [];
    booking 2 "13 Nov 2025" INQUIRY false 100 None None [];
    booking 3 "28 Nov 2025" TENTATIVE false 100 None None [];
    booking 4 "29 Nov 2025" TENTATIVE false 100 None None [] ].

(** Guest splits: none entered; Hall A only, short of the total; adding up. *)
Definition split_bookings : list MockBooking.t :=
  [ booking 1 "15 Nov 2025" CONFIRMED false 500 None None [];
    booking 2 "15 Nov 2025" CONFIRMED false 500 (Some 200) None [];
    booking 3 "16 Nov 2025" CONFIRMED false 500 (Some 200) (Some 300) [] ].

(** The capacity alert of [overbooked_day]. *)
Definition overbooked_alert : AlertDefinition.t :=
  {| AlertDefinition.id := "cap-2025-11-15-DINNER-A";
     AlertDefinition.type := CAPACITY_OVERRIDE;
     AlertDefinition.severity := critical;
     AlertDefinition.title := "Capacity override – Hall A";
     AlertDefinition.message :=
       "15 Nov 2025 (Dinner): Hall A has 1100 guests across 3 event(s) for 1000 capacity.";
     AlertDefinition.sub :=
       Some "This indicates the hall is overbooked for the same slot. Review allocations, safety, and get explicit manager approval if this is intentional.";
     AlertDefinition.bookingId := Some 1;
     AlertDefinition.dateKey := Some "2025-11-15";
     AlertDefinition.slot := Some "DINNER" |}.

(** A persisted store in a legacy shape, with entries that cannot load. *)
Definition legacy_store : json :=
  JObj [ ("cap-2025-11-15-DINNER-A",
          JObj [ ("status", JStr "DISMISSED");
                 ("reason", JStr " owner approved ");
                 ("dismissedAt", JStr "2025-11-01T10:00:00.000Z") ]);
         ("junk", JNum 7);
         ("soft-follow-3",
          JObj [ ("alertId", JStr "soft-follow-3");
                 ("status", JStr "SNOOZED");
                 ("note", JStr "call back");
                 ("updatedAt", JStr "2025-11-02T09:00:00.000Z") ]);
         ("", JObj []) ].

(** ** The rest of the utilities around the engine *)

(** *** [src/utils/slotUtils.ts] *)

Definition formatSlotHuman (slot : Slot) : string :=
  match slot with
  | LUNCH => "Lunch (1–5 pm)"
  | DINNER => "Dinner (7–10 pm)"
  end.

Definition formatSlotShort (slot : Slot) : string :=
  match slot with
  | LUNCH => "Lunch"
  | DINNER => "Dinner"
  end.

Definition compareSlots (a b : Slot) : Z :=
  if Slot_eqb a b then 0
  else match a with
       | LUNCH => -1
       | DINNER => 1
       end.

Definition slotCode (slot : Slot) : string :=
  match slot with
  | LUNCH => "L"
  | DINNER => "D"
  end.

(** *** [src/utils/dateUtils.ts], the other date-key helper *)

Section MoreDates.
Context `{DateHost}.

Definition toISODateString (d : JSDate) : string :=
  let y := getFullYear d in
  let m := padStart0 2 (js_String (option_map (fun x => x + 1) (getMonth d))) in
  let day := padStart0 2 (js_String (getDate d)) in
  js_String y ++ "-" ++ m ++ "-" ++ day.
End MoreDates.

(** *** [src/utils/hallUtils.ts] *)

Module HallStats.
Record t := {
  guestsHere : Z;
  capacity : Z;
  otherGuests : Z;
  otherLabel : string;
  remaining : Z;
  isOverCapacity : bool
}.
End HallStats.

Definition getHallsUsedText (b : MockBooking.t) : string :=
  let a := default 0 (MockBooking.hallAGuests b) in
  let bGuests := default 0 (MockBooking.hallBGuests b) in
  if (0 <? a) && (0 <? bGuests) then "Hall A & Hall B"
  else if (0 <? a) && (bGuests =? 0) then "Hall A only"
  else if (0 <? bGuests) && (a =? 0) then "Hall B only"
  else "No halls recorded (data missing)".

Definition getGuestSplitText (b : MockBooking.t) : option string :=
  let parts :=
    ((match MockBooking.hallAGuests b with
      | Some a => [("Hall A " ++ num_str a)%string]
      | None => []
      end)
     ++ (match MockBooking.hallBGuests b with
         | Some bGuests => [("Hall B " ++ num_str bGuests)%string]
         | None => []
         end))%list in
  match parts with
  | [] => None
  | _ => Some (num_str (MockBooking.totalGuests b) ++ " total · " ++ join " · " parts)
  end.

Definition getHallStatsForBooking (b : MockBooking.t) (hallCode : HallCode)
    : HallStats.t :=
  let hallAlloc :=
    find (fun h => HallCode_eqb (HallAllocation.hallCode h) hallCode)
         (MockBooking.halls b) in
  let fromAlloc := from_option HallAllocation.guestsHere 0 hallAlloc in
  let guestsHere :=
    match hallCode with
    | HallA => default fromAlloc (MockBooking.hallAGuests b)
    | HallB => default fromAlloc (MockBooking.hallBGuests b)
    end in
  let capacity := from_option HallAllocation.capacity 1000 hallAlloc in
  let otherGuests :=
    match hallCode with
    | HallA => default 0 (MockBooking.hallBGuests b)
    | HallB => default 0 (MockBooking.hallAGuests b)
    end in
  let otherLabel :=
    match hallCode with
    | HallA => num_str otherGuests ++ " in Hall B"
    | HallB => num_str otherGuests ++ " in Hall A"
    end in
  {| HallStats.guestsHere := guestsHere;
     HallStats.capacity := capacity;
     HallStats.otherGuests := otherGuests;
     HallStats.otherLabel := otherLabel;
     HallStats.remaining := capacity - guestsHere;
     HallStats.isOverCapacity := capacity <? guestsHere |}.

(** *** [src/state/AlertStore.tsx], the query helpers *)

(** On the three values of [AlertSeverity]; the lower-casing in the source
    only matters for strings outside the type. *)
Definition alertSeverityRank (severity : AlertSeverity) : Z :=
  match severity with
  | critical => 3
  | warning => 2
  | info => 1
  end.

Definition is_active (m : AlertWithResolution.t) : bool :=
  match AlertWithResolution.effectiveStatus m with
  | ACTIVE => true
  | _ => false
  end.

(** [a.bookingId === bookingId]: false for an alert with no booking id. *)
Definition linked_to (bookingId : Z) (m : AlertWithResolution.t) : bool :=
  match AlertDefinition.bookingId (AlertWithResolution.def m) with
  | Some i => i =? bookingId
  | None => false
  end.

Definition getAlertsForBooking (alerts : list AlertWithResolution.t) (bookingId : Z)
    : list AlertWithResolution.t :=
  filter (fun a => linked_to bookingId a && is_active a) alerts.

(** *** What is persisted: [JSON.stringify(resolutions)], read back by
    [JSON.parse]

    A record is written with its properties in the order the store creates
    them; a note that is [undefined] is left out. *)
Definition AlertResolutionStatus_str (s : AlertResolutionStatus) : string :=
  match s with
  | ACTIVE => "ACTIVE"
  | RESOLVED => "RESOLVED"
  | DISMISSED => "DISMISSED"
  end.

Definition resolution_json (r : AlertResolution.t) : json :=
  JObj ([ ("alertId", JStr (AlertResolution.alertId r));
          ("status", JStr (AlertResolutionStatus_str (AlertResolution.status r))) ]
        ++ match AlertResolution.note r with
           | Some n => [ ("note", JStr n) ]
           | None => []
           end
        ++ [ ("updatedAt", JStr (AlertResolution.updatedAt r)) ])%list.

(** The persisted value of a store whose own properties are [entries], in
    the order [Object.entries] lists them after the parse. *)
Definition persisted (entries : list (string * AlertResolution.t)) : json :=
  JObj (map (fun e => (fst e, resolution_json (snd e))) entries).

(** *** [src/pages/DashboardPage/DashboardPage.tsx]: the alerts shown *)

(** [l.slice(-n)] *)
Definition slice_last {A : Type} (n : nat) (l : list A) : list A :=
  skipn (List.length l - n) l.

(** [l.sort((a, b) => alertSeverityRank(b.severity) - alertSeverityRank(a.severity))]:
    [Array.prototype.sort] is a stable sort, here by decreasing rank. *)
Definition severityOf (m : AlertWithResolution.t) : AlertSeverity :=
  AlertDefinition.severity (AlertWithResolution.def m).

Fixpoint insertBySeverity (x : AlertWithResolution.t) (l : list AlertWithResolution.t)
    : list AlertWithResolution.t :=
  match l with
  | [] => [x]
  | y :: r =>
      if alertSeverityRank (severityOf y) <=? alertSeverityRank (severityOf x)
      then x :: y :: r
      else y :: insertBySeverity x r
  end.

Definition sortBySeverity (l : list AlertWithResolution.t) : list AlertWithResolution.t :=
  fold_right insertBySeverity [] l.

Definition dashboardAlerts (alerts : list AlertWithResolution.t)
    : list AlertWithResolution.t :=
  let active := filter is_active alerts in
  let lastFive := slice_last 5 active in
  sortBySeverity lastFive.

(** *** [src/pages/CalendarPage/CalendarPage.tsx]: [computeHallUsage] *)

Record HallUsage := {
  hallAUsed : Z;
  hallBUsed : Z;
  hallACapacity : Z;
  hallBCapacity : Z;
  hallAEventCount : Z;
  hallBEventCount : Z
}.

(** The running totals, with the two flags of the booking at hand. *)
Record UsageLoop := {
  accAUsed : Z;
  accBUsed : Z;
  accACap : Z;
  accBCap : Z;
  accAEvents : Z;
  accBEvents : Z;
  usedA : bool;
  usedB : bool
}.

(** The body of [for (const hall of b.halls ?? [])]. *)
Definition usageHall (st : UsageLoop) (hall : HallAllocation.t) : UsageLoop :=
  match HallAllocation.hallCode hall with
  | HallA =>
      {| accAUsed := accAUsed st + HallAllocation.guestsHere hall;
         accBUsed := accBUsed st;
         accACap := Z.max (accACap st) (HallAllocation.capacity hall);
         accBCap := accBCap st;
         accAEvents := accAEvents st;
         accBEvents := accBEvents st;
         usedA := true;
         usedB := usedB st |}
  | HallB =>
      {| accAUsed := accAUsed st;
         accBUsed := accBUsed st + HallAllocation.guestsHere hall;
         accACap := accACap st;
         accBCap := Z.max (accBCap st) (HallAllocation.capacity hall);
         accAEvents := accAEvents st;
         accBEvents := accBEvents st;
         usedA := usedA st;
         usedB := true |}
  end.

(** The body of [for (const b of events)]. *)
Definition usageBooking (st : UsageLoop) (b : MockBooking.t) : UsageLoop :=
  let st0 :=
    {| accAUsed := accAUsed st; accBUsed := accBUsed st;
       accACap := accACap st; accBCap := accBCap st;
       accAEvents := accAEvents st; accBEvents := accBEvents st;
       usedA := false; usedB := false |} in
  let st1 := fold_left usageHall (MockBooking.halls b) st0 in
  {| accAUsed := accAUsed st1; accBUsed := accBUsed st1;
     accACap := accACap st1; accBCap := accBCap st1;
     accAEvents := if usedA st1 then accAEvents st1 + 1 else accAEvents st1;
     accBEvents := if usedB st1 then accBEvents st1 + 1 else accBEvents st1;
     usedA := usedA st1; usedB := usedB st1 |}.

Definition computeHallUsage (events : list MockBooking.t) : HallUsage :=
  let st :=
    fold_left usageBooking events
      {| accAUsed := 0; accBUsed := 0; accACap := 0; accBCap := 0;
         accAEvents := 0; accBEvents := 0; usedA := false; usedB := false |} in
  {| hallAUsed := accAUsed st;
     hallBUsed := accBUsed st;
     hallACapacity := if accACap st =? 0 then 1000 else accACap st;
     hallBCapacity := if accBCap st =? 0 then 1000 else accBCap st;
     hallAEventCount := accAEvents st;
     hallBEventCount := accBEvents st |}.

(** *** [src/state/BookingStore.tsx]: hall allocations from a guest split *)

(** A hall allocation with all the fields of the interface. *)
Module HallRecord.
Record t := {
  hallCode : HallCode;
  hallName : string;
  capacity : Z;
  guestsHere : Z;
  guestsInOtherHallsText : option string
}.
End HallRecord.

(** The part of a hall allocation the engine reads. *)
Definition engineAllocation (h : HallRecord.t) : HallAllocation.t :=
  {| HallAllocation.hallCode := HallRecord.hallCode h;
     HallAllocation.capacity := HallRecord.capacity h;
     HallAllocation.guestsHere := HallRecord.guestsHere h |}.

(** [x != null && x > 0 ? `${x} in ${name}` : undefined] *)
Definition otherHallsText (x : option Z) (name : string) : option string :=
  match x with
  | Some n => if 0 <? n then Some (num_str n ++ " in " ++ name) else None
  | None => None
  end.

Definition buildHallsFromSplit (hallAGuests hallBGuests : option Z) : list HallRecord.t :=
  ((match hallAGuests with
    | Some a =>
        if 0 <? a then
          [ {| HallRecord.hallCode := HallA;
               HallRecord.hallName := "Hall A";
               HallRecord.capacity := 1000;
               HallRecord.guestsHere := a;
               HallRecord.guestsInOtherHallsText := otherHallsText hallBGuests "Hall B" |} ]
        else []
    | None => []
    end)
   ++ (match hallBGuests with
       | Some bGuests =>
           if 0 <? bGuests then
             [ {| HallRecord.hallCode := HallB;
                  HallRecord.hallName := "Hall B";
                  HallRecord.capacity := 1000;
                  HallRecord.guestsHere := bGuests;
                  HallRecord.guestsInOtherHallsText := otherHallsText hallAGuests "Hall A" |} ]
           else []
       | None => []
       end))%list.

(** [{ ...existing, hallAGuests, hallBGuests, halls }] with the halls of
    [buildHallsFromSplit], on the fields the engine reads. *)
Definition withHallSplit (existing : MockBooking.t) (hallAGuests hallBGuests : option Z)
    : MockBooking.t :=
  {| MockBooking.id := MockBooking.id existing;
     MockBooking.eventTitle := MockBooking.eventTitle existing;
     MockBooking.eventDateLabel := MockBooking.eventDateLabel existing;
     MockBooking.slot := MockBooking.slot existing;
     MockBooking.totalGuests := MockBooking.totalGuests existing;
     MockBooking.hallAGuests := hallAGuests;
     MockBooking.hallBGuests := hallBGuests;
     MockBooking.status := MockBooking.status existing;
     MockBooking.customerName := MockBooking.customerName existing;
     MockBooking.customerPhone := MockBooking.customerPhone existing;
     MockBooking.customerAddress := MockBooking.customerAddress existing;
     MockBooking.hasPerformance := MockBooking.hasPerformance existing;
     MockBooking.halls := map engineAllocation (buildHallsFromSplit hallAGuests hallBGuests);
     MockBooking.advance := MockBooking.advance existing |}.

(** [updateBookingHallSplit(id, hallAGuests, hallBGuests)], as it changes
    the bookings the engine reads.  [allBookings] is the state the call
    sees, [prev] the state its update is applied to: the booking built
    from [existing] takes the place of every booking of [prev] with that
    id, [existing] being the first such booking of [allBookings]; with no
    such booking nothing is changed.  (The audit entry the call appends is
    not part of this.) *)
Definition updateBookingHallSplit (allBookings prev : list MockBooking.t) (id : Z)
    (hallAGuests hallBGuests : option Z) : list MockBooking.t :=
  match find (fun b => MockBooking.id b =? id) allBookings with
  | None => prev
  | Some existing =>
      let updated := withHallSplit existing hallAGuests hallBGuests in
      map (fun b => if MockBooking.id b =? id then updated else b) prev
  end.

(** ** More vocabulary for the rules *)

Section MoreVocabulary.
Context `{DateHost}.

(** The bookings of one (date, slot) group. *)
Definition day_group (bookings : list MockBooking.t) (dk : string) (slot : Slot)
    : list MockBooking.t :=
  filter (fun b => String.eqb (bookingDateKey b) dk
                   && Slot_eqb (MockBooking.slot b) slot)
         bookings.
End MoreVocabulary.

(** A booking that uses more than one hall. *)
Definition multi_hall (b : MockBooking.t) : bool :=
  (1 <? List.length (MockBooking.halls b))%nat.

(** Phone or address empty, blank or absent. *)
Definition phone_missing (b : MockBooking.t) : bool :=
  String.eqb (trim (MockBooking.customerPhone b)) "".

Definition address_missing (b : MockBooking.t) : bool :=
  match MockBooking.customerAddress b with
  | Some a => String.eqb (trim a) ""
  | None => true
  end.

(** The place of each rule in the output. *)
Definition stage (ty : AlertType) : nat :=
  match ty with
  | CAPACITY_OVERRIDE => 0
  | PERFORMANCE_HALL_CONFLICT => 1
  | COMPLEX_MULTI_HALL_DAY => 3
  | _ => 2
  end.

(** The parts a booking's contact details lack, as the alert names them. *)
Definition lacking_text (b : MockBooking.t) : string :=
  if phone_missing b
  then if address_missing b then "phone & address" else "phone"
  else "address".

(** An advance of at least the high-value amount. *)
Definition high_advance (b : MockBooking.t) : bool :=
  match MockBooking.advance b with
  | Some adv => 200000 <=? AdvanceSummary.amount adv
  | None => false
  end.

(** The numbers a two-digit field of a date key can hold. *)
Definition two_digit_values : list Z := map Z.of_nat (seq 0 100).

Definition pad2 (n : Z) : string := padStart0 2 (num_str n).

(** ** Vocabulary of the resolution store *)

(** A string that [trimStart] would shorten: it starts with a white-space
    or line-terminator character. *)
Definition starts_ws (s : string) : bool :=
  match s with
  | String a r =>
      is_ws1 a
      || match r with
         | String b r2 =>
             is_ws2 a b
             || match r2 with
                | String c _ => is_ws3 a b c
                | "" => false
                end
         | "" => false
         end
  | "" => false
  end.

(** The same for a reversed string, whose multi-byte characters come last
    byte first. *)
Definition starts_ws_rev (s : string) : bool :=
  match s with
  | String a r =>
      is_ws1 a
      || match r with
         | String b r2 =>
             is_ws2 b a
             || match r2 with
                | String c _ => is_ws3 c b a
                | "" => false
                end
         | "" => false
         end
  | "" => false
  end.

(** A record is filed under its own alert id, and its note is as the store
    writes notes: trimmed, and absent rather than empty. *)
Definition well_formed (k : string) (r : AlertResolution.t) : Prop :=
  AlertResolution.alertId r = k
  /\ AlertResolution.note r = trimmed_note (AlertResolution.note r).

(** A record that [normalizeResolutions] can file: besides, its id is not
    empty and is not the name [__proto__]. *)
Definition loadable (k : string) (r : AlertResolution.t) : Prop :=
  well_formed k r /\ k <> "" /\ k <> "__proto__".

(** The alert of a merged entry is not the one with this id. *)
Definition other_than (alertId : string) (m : AlertWithResolution.t) : bool :=
  negb (String.eqb (AlertDefinition.id (AlertWithResolution.def m)) alertId).

(** A stored record, for examples. *)
Definition called_back : AlertResolution.t :=
  {| AlertResolution.alertId := "soft-follow-3";
     AlertResolution.status := RESOLVED;
     AlertResolution.note := Some "called back";
     AlertResolution.updatedAt := "2025-11-12T09:00:00.000Z" |}.

Definition one_record_store : gmap string AlertResolution.t :=
  <[ "soft-follow-3" := called_back ]> ∅.

(** ** Vocabulary of the hall views *)

(** The hall allocations of a list of bookings in one hall. *)
Definition hallsOf (events : list MockBooking.t) (hall : HallCode)
    : list HallAllocation.t :=
  filter (fun h => HallCode_eqb (HallAllocation.hallCode h) hall)
         (flat_map MockBooking.halls events).

(** The figures of one hall in a [HallUsage]. *)
Definition usedIn (hall : HallCode) (u : HallUsage) : Z :=
  match hall with HallA => hallAUsed u | HallB => hallBUsed u end.

Definition capacityIn (hall : HallCode) (u : HallUsage) : Z :=
  match hall with HallA => hallACapacity u | HallB => hallBCapacity u end.

Definition eventsIn (hall : HallCode) (u : HallUsage) : Z :=
  match hall with HallA => hallAEventCount u | HallB => hallBEventCount u end.

(** The same for the running totals of the loop. *)
Definition accUsed (hall : HallCode) (st : UsageLoop) : Z :=
  match hall with HallA => accAUsed st | HallB => accBUsed st end.

Definition accCap (hall : HallCode) (st : UsageLoop) : Z :=
  match hall with HallA => accACap st | HallB => accBCap st end.

Definition accEvents (hall : HallCode) (st : UsageLoop) : Z :=
  match hall with HallA => accAEvents st | HallB => accBEvents st end.

Definition usedFlag (hall : HallCode) (st : UsageLoop) : bool :=
  match hall with HallA => usedA st | HallB => usedB st end.

(** The split field of a hall, and of the other hall. *)
Definition splitOf (hall : HallCode) (hallAGuests hallBGuests : option Z) : option Z :=
  match hall with HallA => hallAGuests | HallB => hallBGuests end.

Definition otherHall (hall : HallCode) : HallCode :=
  match hall with HallA => HallB | HallB => HallA end.

(** The text [getHallsUsedText] gives for a list of hall codes. *)
Definition hallsText (codes : list HallCode) : string :=
  match codes with
  | [HallA; HallB] => "Hall A & Hall B"
  | [HallA] => "Hall A only"
  | [HallB] => "Hall B only"
  | _ => "No halls recorded (data missing)"
  end.

Definition AlertSeverity_eqb (a b : AlertSeverity) : bool :=
  match a, b with
  | info, info | warning, warning | critical, critical => true
  | _, _ => false
  end.

(** Merged alerts for examples: active ones of the three severities. *)
Definition active_alert (id : string) (severity : AlertSeverity) : AlertWithResolution.t :=
  {| AlertWithResolution.def :=
       {| AlertDefinition.id := id;
          AlertDefinition.type := MISSING_CONTACT;
          AlertDefinition.severity := severity;
          AlertDefinition.title := "";
          AlertDefinition.message := "";
          AlertDefinition.sub := None;
          AlertDefinition.bookingId := None;
          AlertDefinition.dateKey := None;
          AlertDefinition.slot := None |};
     AlertWithResolution.resolution := None;
     AlertWithResolution.effectiveStatus := ACTIVE |}.

Definition six_active : list AlertWithResolution.t :=
  [ active_alert "a" critical; active_alert "b" info; active_alert "c" warning;
    active_alert "d" info; active_alert "e" critical; active_alert "f" warning ].

(** Three large bookings in Hall A, Dinner, 15 Nov 2025, whose splits fall
    short of their totals. *)
Definition crowded_day : list MockBooking.t :=
  [ booking 1 "15 Nov 2025" CONFIRMED false 1500 (Some 400) None [hallAlloc HallA 1000 400];
    booking 2 "15 Nov 2025" CONFIRMED false 1600 (Some 400) None [hallAlloc HallA 1000 400];
    booking 3 "15 Nov 2025" CONFIRMED false 1700 (Some 400) None [hallAlloc HallA 1000 400] ].

(** *** [src/pages/BookingFormPage/BookingFormPage.tsx]: the id of a new
    booking, and [addBooking] of the booking store *)

(** [maxId + 1], [maxId] being 0 for no booking and otherwise
    [bookings.reduce((max, b) => (b.id > max ? b.id : max), 0)]. *)
Definition newBookingId (bookings : list MockBooking.t) : Z :=
  let maxId :=
    match bookings with
    | [] => 0
    | _ => fold_left (fun max b => if max <? MockBooking.id b then MockBooking.id b else max)
                     bookings 0
    end in
  maxId + 1.

(** [setAllBookings((prev) => [...prev, booking])] *)
Definition addBooking (prev : list MockBooking.t) (booking : MockBooking.t)
    : list MockBooking.t :=
  (prev ++ [booking])%list.

(** *** [src/pages/AlertsPage/AlertsPage.tsx]: the counters

    The page counts over [enhanced], which lists the merged alerts one for
    one with their fields kept. *)

Definition totalActive (alerts : list AlertWithResolution.t) : nat :=
  List.length (filter is_active alerts).

Definition totalCriticalActive (alerts : list AlertWithResolution.t) : nat :=
  List.length
    (filter (fun a => is_active a && AlertSeverity_eqb (severityOf a) critical) alerts).

(** The status the merge gives an alert id. *)
Definition statusOf (resolutions : gmap string AlertResolution.t) (alertId : string)
    : AlertResolutionStatus :=
  from_option AlertResolution.status ACTIVE (resolutions !! alertId).

(** *** [src/state/BookingStore.tsx]: soft delete and restore

    A booking as the store holds it: the fields the engine reads, and the
    optional fields of the soft delete. *)
Module StoredBooking.
Record t := {
  booking : MockBooking.t;
  isDeleted : option bool;
  deletedAt : option string;
  deletedBy : option string;
  deletedReason : option string
}.
End StoredBooking.

Definition storedId (b : StoredBooking.t) : Z := MockBooking.id (StoredBooking.booking b).

(** [b.isDeleted] as a condition: [undefined] is falsy. *)
Definition deleted (b : StoredBooking.t) : bool := default false (StoredBooking.isDeleted b).

(** [allBookings.filter((b) => !b.isDeleted)], the bookings the pages and
    the alert store read. *)
Definition bookings (allBookings : list StoredBooking.t) : list StoredBooking.t :=
  filter (fun b => negb (deleted b)) allBookings.

(** [allBookings.filter((b) => b.isDeleted)] *)
Definition deletedBookings (allBookings : list StoredBooking.t) : list StoredBooking.t :=
  filter deleted allBookings.

(** The list handed to [buildAlerts]. *)
Definition engineBookings (allBookings : list StoredBooking.t) : list MockBooking.t :=
  map StoredBooking.booking (bookings allBookings).

(** [deleteBooking(id, reason)] and [restoreBooking(id)], as they change
    the list: [allBookings] is the state the call sees, [prev] the state
    its update is applied to, [now] is [new Date().toISOString()].  (The
    audit entries the calls append are not part of this.) *)
Definition deleteBooking (now : string) (allBookings prev : list StoredBooking.t)
    (id : Z) (reason : option string) : list StoredBooking.t :=
  match find (fun b => storedId b =? id) allBookings with
  | None => prev
  | Some existing =>
      let updated :=
        {| StoredBooking.booking := StoredBooking.booking existing;
           StoredBooking.isDeleted := Some true;
           StoredBooking.deletedAt := Some now;
           StoredBooking.deletedBy := Some "System";
           StoredBooking.deletedReason := Some (default "" reason) |} in
      map (fun b => if storedId b =? id then updated else b) prev
  end.

Definition restoreBooking (allBookings prev : list StoredBooking.t) (id : Z)
    : list StoredBooking.t :=
  match find (fun b => storedId b =? id) allBookings with
  | None => prev
  | Some existing =>
      let updated :=
        {| StoredBooking.booking := StoredBooking.booking existing;
           StoredBooking.isDeleted := Some false;
           StoredBooking.deletedAt := None;
           StoredBooking.deletedBy := None;
           StoredBooking.deletedReason := None |} in
      map (fun b => if storedId b =? id then updated else b) prev
  end.

(** Store entries for examples: the bookings of a list, none deleted. *)
Definition stored (b : MockBooking.t) : StoredBooking.t :=
  {| StoredBooking.booking := b;
     StoredBooking.isDeleted := None;
     StoredBooking.deletedAt := None;
     StoredBooking.deletedBy := None;
     StoredBooking.deletedReason := None |}.

(** *** [src/pages/BookingDetailPage/BookingDetailPage.tsx]: the page's own
    [getHallStatsForBooking] *)
Module BookingDetailPage.
Definition getHallStatsForBooking (b : MockBooking.t) (hallCode : HallCode)
    : HallStats.t :=
  let hallAllocA :=
    find (fun h => HallCode_eqb (HallAllocation.hallCode h) HallA)
         (MockBooking.halls b) in
  let hallAllocB :=
    find (fun h => HallCode_eqb (HallAllocation.hallCode h) HallB)
         (MockBooking.halls b) in
  let guestsA :=
    default (from_option HallAllocation.guestsHere 0 hallAllocA)
            (MockBooking.hallAGuests b) in
  let guestsB :=
    default (from_option HallAllocation.guestsHere 0 hallAllocB)
            (MockBooking.hallBGuests b) in
  let hallAlloc := match hallCode with HallA => hallAllocA | HallB => hallAllocB end in
  let guestsHere := match hallCode with HallA => guestsA | HallB => guestsB end in
  let capacity := from_option HallAllocation.capacity 1000 hallAlloc in
  let otherGuests := match hallCode with HallA => guestsB | HallB => guestsA end in
  let otherLabel :=
    match hallCode with
    | HallA => num_str otherGuests ++ " in Hall B"
    | HallB => num_str otherGuests ++ " in Hall A"
    end in
  {| HallStats.guestsHere := guestsHere;
     HallStats.capacity := capacity;
     HallStats.otherGuests := otherGuests;
     HallStats.otherLabel := otherLabel;
     HallStats.remaining := capacity - guestsHere;
     HallStats.isOverCapacity := capacity <? guestsHere |}.
End BookingDetailPage.

(** ** The date rules in time values *)

(** [n] days of 24 hours, in milliseconds. *)
Definition days (n : Z) : Z := n * 24 * 60 * 60 * 1000.

Section DateRuleVocabulary.
Context `{DateHost}.

(** A soft booking whose date, as the host parses its label, lies between
    the instant [t0] and 15 times 24 hours later, both included. *)
Definition soft_due (t0 : Z) (b : MockBooking.t) : bool :=
  isSoftStatus (MockBooking.status b)
  && match date_of_label (MockBooking.eventDateLabel b) with
     | Some t => (t0 <=? t) && (t <=? t0 + days 15)
     | None => false
     end.

(** An open booking dated before the instant [t0]. *)
Definition past_open (t0 : Z) (b : MockBooking.t) : bool :=
  isOpenStatus (MockBooking.status b)
  && match date_of_label (MockBooking.eventDateLabel b) with
     | Some t => t <? t0
     | None => false
     end.
End DateRuleVocabulary.

(** ** A host whose clock changes: New York in the autumn of 2025

    Local time is UTC-4 until 2 Nov 2025, 06:00 UTC, and UTC-5 from then
    on (the model covers the months around that change); labels of the
    form [04 Nov 2025] parse to the local midnight of the day. *)
Definition eastern_switch : Z := 1762063200000.

Definition eastern_offset (t : Z) : Z :=
  if t <? eastern_switch then 4 * 60 * 60 * 1000 else 5 * 60 * 60 * 1000.

(** Local midnight of a calendar day ([monthIndex] from 0). *)
Definition eastern_midnight (y monthIndex d : Z) : JSDate :=
  let clock := days_from_civil y (monthIndex + 1) d * ms_per_day in
  time_clip (if clock + 4 * 60 * 60 * 1000 <? eastern_switch
             then clock + 4 * 60 * 60 * 1000
             else clock + 5 * 60 * 60 * 1000).

Definition eastern_parse (label : string) : JSDate :=
  match split_on " " label with
  | [dd; mon; yyyy] =>
      match digits dd, month_index mon, digits yyyy with
      | Some d, Some m, Some y => eastern_midnight y m d
      | _, _, _ => None
      end
  | _ => None
  end.

Definition easternHost : DateHost := {|
  date_of_label := eastern_parse;
  local_year := fun t =>
    fst (fst (civil_from_days ((t - eastern_offset t) / ms_per_day)));
  local_month := fun t =>
    snd (fst (civil_from_days ((t - eastern_offset t) / ms_per_day))) - 1;
  local_day := fun t => snd (civil_from_days ((t - eastern_offset t) / ms_per_day));
  date_of_local := eastern_midnight;
  toLocaleString_enPK := fun n =>
    if n <? 0 then "-" ++ group3 8 (- n) else group3 8 n
|}.

(** 20 Oct 2025, noon in New York (16:00 UTC), and a tentative booking
    dated fifteen calendar days later. *)
Definition eastern_today : JSDate := Some 1760976000000.

Definition fifteen_days_on : MockBooking.t :=
  booking 1 "04 Nov 2025" TENTATIVE false 100 None None [].

(** ** What a persisted value says

    A parsed JSON object has one value per property name.  Property
    [name] of the object is the string [s], or it is no string (absent, or
    a value of another type). *)
Definition string_property (props : list (string * json)) (name : string)
    (o : option string) : Prop :=
  match o with
  | Some s => In (name, JStr s) props
  | None => forall s, ~ In (name, JStr s) props
  end.

(** The status a value states: DISMISSED or RESOLVED when its status is
    that string, ACTIVE for any other string and for none. *)
Definition stated_status (o : option string) : AlertResolutionStatus :=
  match o with
  | Some s =>
      if String.eqb s "DISMISSED" then DISMISSED
      else if String.eqb s "RESOLVED" then RESOLVED
      else ACTIVE
  | None => ACTIVE
  end.

(** Entries of a persisted store in older shapes. *)
Definition legacy_dismissal : list (string * json) :=
  [ ("status", JStr "DISMISSED");
    ("reason", JStr " owner approved ");
    ("dismissedAt", JStr "2025-11-01T10:00:00.000Z") ].

Definition snoozed_entry : list (string * json) :=
  [ ("alertId", JStr "soft-follow-3");
    ("status", JStr "SNOOZED");
    ("note", JStr "call back");
    ("updatedAt", JStr "2025-11-02T09:00:00.000Z") ].

(** ** Strings: characters, suffixes, and the printing of numbers *)

Lemma list_ascii_app (a b : string) :
  list_ascii_of_string (a ++ b)
  = (list_ascii_of_string a ++ list_ascii_of_string b)%list.
Proof. induction a as [|c a IH]; simpl; [reflexivity | now rewrite IH]. Qed.

Lemma list_ascii_inj (a b : string) :
  list_ascii_of_string a = list_ascii_of_string b -> a = b.
Proof.
  intros E. rewrite <- (string_of_list_ascii_of_string a),
    <- (string_of_list_ascii_of_string b). now rewrite E.
Qed.

Lemma rchars_app (a b : string) : rchars (a ++ b) = (rchars b ++ rchars a)%list.
Proof. unfold rchars. now rewrite list_ascii_app, rev_app_distr. Qed.

Lemma rchars_inj (a b : string) : rchars a = rchars b -> a = b.
Proof.
  unfold rchars. intros E. apply list_ascii_inj.
  rewrite <- (rev_involutive (list_ascii_of_string a)), E.
  apply rev_involutive.
Qed.

Lemma append_inv_head (p a b : string) : p ++ a = p ++ b -> a = b.
Proof. induction p as [|c p IH]; simpl; intros E; [assumption|]. injection E. auto. Qed.

Lemma bar_free_app (a b : string) :
  bar_free (a ++ b) = bar_free a && bar_free b.
Proof.
  induction a as [|c a IH]; simpl; [reflexivity|].
  rewrite IH. now rewrite andb_assoc.
Qed.

Lemma bar_free_uint (d : Decimal.uint) : bar_free (NilEmpty.string_of_uint d) = true.
Proof. induction d; simpl; auto. Qed.

Lemma bar_free_num_str (n : Z) : bar_free (num_str n) = true.
Proof.
  unfold num_str. destruct (Z.to_int n) as [d|d]; simpl;
    destruct d; simpl; auto using bar_free_uint.
Qed.

Lemma bar_free_zeros (n : nat) : bar_free (zeros n) = true.
Proof. induction n; simpl; auto. Qed.

Lemma bar_free_js_String (x : option Z) : bar_free (js_String x) = true.
Proof. destruct x; simpl; auto using bar_free_num_str. Qed.

Lemma bar_free_padStart0 (n : nat) (s : string) :
  bar_free s = true -> bar_free (padStart0 n s) = true.
Proof. intros Hs. unfold padStart0. now rewrite bar_free_app, bar_free_zeros, Hs. Qed.

Lemma to_int_normal (n : Z) : Z.to_int n = Decimal.norm (Z.to_int n).
Proof. rewrite <- DecimalZ.to_of. now rewrite DecimalZ.of_to. Qed.

Lemma to_int_not_nil (n : Z) :
  Z.to_int n <> Decimal.Pos Decimal.Nil /\ Z.to_int n <> Decimal.Neg Decimal.Nil.
Proof.
  rewrite to_int_normal. destruct (Z.to_int n) as [d|d]; simpl.
  - split; [|discriminate]. intros E. injection E. apply DecimalFacts.unorm_nonnil.
  - destruct (Decimal.nzhead d); split; discriminate.
Qed.

Lemma num_str_inj (a b : Z) : num_str a = num_str b -> a = b.
Proof.
  unfold num_str. intros E. apply DecimalZ.to_int_inj.
  destruct (to_int_not_nil a) as [Ha1 Ha2], (to_int_not_nil b) as [Hb1 Hb2].
  pose proof (NilZero.isi _ Ha1 Ha2) as Ia.
  pose proof (NilZero.isi _ Hb1 Hb2) as Ib.
  rewrite E in Ia. rewrite Ia in Ib. now injection Ib.
Qed.

(** Splitting at bars. *)
Lemma split_on_bar_free (s : string) : bar_free s = true -> split_on "|" s = [s].
Proof.
  induction s as [|c s IH]; simpl; [reflexivity|].
  intros Hb. apply andb_prop in Hb as [Hc Hs].
  apply negb_true_iff in Hc. rewrite Hc, (IH Hs). reflexivity.
Qed.

Lemma split_on_bar_app (a r : string) :
  bar_free a = true -> split_on "|" (a ++ String "|" r) = a :: split_on "|" r.
Proof.
  induction a as [|c a IH]; simpl; [reflexivity|].
  intros Hb. apply andb_prop in Hb as [Hc Ha].
  apply negb_true_iff in Hc. rewrite Hc, (IH Ha). reflexivity.
Qed.

Lemma bar_free_Slot_str (s : Slot) : bar_free (Slot_str s) = true.
Proof. now destruct s. Qed.

Lemma bar_free_HallCode_str (h : HallCode) : bar_free (HallCode_str h) = true.
Proof. now destruct h. Qed.

Lemma parts_hallKey (dk : string) (s : Slot) (h : HallCode) :
  bar_free dk = true ->
  split_on "|" (hallKey dk s h) = [dk; Slot_str s; HallCode_str h].
Proof.
  intros Hdk.
  change (hallKey dk s h)
    with (dk ++ String "|" (Slot_str s ++ String "|" (HallCode_str h))).
  rewrite (split_on_bar_app _ _ Hdk).
  rewrite (split_on_bar_app _ _ (bar_free_Slot_str s)).
  now rewrite (split_on_bar_free _ (bar_free_HallCode_str h)).
Qed.

Lemma parts_daySlotKey (dk : string) (s : Slot) :
  bar_free dk = true -> split_on "|" (daySlotKey dk s) = [dk; Slot_str s].
Proof.
  intros Hdk.
  change (daySlotKey dk s) with (dk ++ String "|" (Slot_str s)).
  rewrite (split_on_bar_app _ _ Hdk).
  now rewrite (split_on_bar_free _ (bar_free_Slot_str s)).
Qed.

(** Two strings that end in different literal suffixes differ; with the
    same suffix, the parts before it agree. *)
Lemma suffix_slot_hall_inj (sep : ascii) (x y : string) (s s' : Slot) (h h' : HallCode) :
  x ++ String sep (Slot_str s ++ String sep (HallCode_str h))
  = y ++ String sep (Slot_str s' ++ String sep (HallCode_str h')) ->
  x = y /\ s = s' /\ h = h'.
Proof.
  intros E.
  destruct s, s', h, h'; simpl in E;
    apply (f_equal rchars) in E; rewrite !rchars_app in E;
    unfold rchars at 1 3 in E; simpl in E;
    try discriminate E.
  all: injection E as E; apply rchars_inj in E; auto.
Qed.

(** ** Insertion-ordered maps *)

Section JSMapFacts.
Context {V : Type}.
Implicit Types (m : JSMap.t V) (k : string) (v : V).

Lemma get_set_eq m k v : JSMap.get k (JSMap.set k v m) = Some v.
Proof.
  induction m as [|[k' v'] m IH]; simpl.
  - now rewrite String.eqb_refl.
  - destruct (String.eqb k' k) eqn:E; simpl; rewrite E; auto.
Qed.

Lemma get_set_ne m k k' v :
  k <> k' -> JSMap.get k' (JSMap.set k v m) = JSMap.get k' m.
Proof.
  intros Hne. induction m as [|[k0 v0] m IH]; simpl.
  - destruct (String.eqb k k') eqn:E; [|reflexivity].
    apply String.eqb_eq in E. contradiction.
  - destruct (String.eqb k0 k) eqn:E; simpl.
    + apply String.eqb_eq in E. subst k0.
      destruct (String.eqb k k') eqn:E'; [|reflexivity].
      apply String.eqb_eq in E'. contradiction.
    + now rewrite IH.
Qed.

Lemma keys_set m k v :
  JSMap.keys (JSMap.set k v m)
  = if is_some (JSMap.get k m) then JSMap.keys m
    else (JSMap.keys m ++ [k])%list.
Proof.
  induction m as [|[k0 v0] m IH]; simpl; [reflexivity|].
  destruct (String.eqb k0 k) eqn:E; simpl; [reflexivity|].
  rewrite IH. now destruct (is_some (JSMap.get k m)).
Qed.

Lemma get_None_keys m k : JSMap.get k m = None <-> ~ In k (JSMap.keys m).
Proof.
  induction m as [|[k0 v0] m IH]; simpl; [tauto|].
  destruct (String.eqb k0 k) eqn:E.
  - apply String.eqb_eq in E. split; [discriminate | tauto].
  - apply String.eqb_neq in E. rewrite IH. tauto.
Qed.

Lemma keys_set_NoDup m k v :
  List.NoDup (JSMap.keys m) -> List.NoDup (JSMap.keys (JSMap.set k v m)).
Proof.
  intros Hnd. rewrite keys_set.
  destruct (JSMap.get k m) eqn:E; simpl; [assumption|].
  apply get_None_keys in E.
  apply NoDup_app; [assumption | repeat constructor; simpl; tauto |].
  intros x Hx [<-|[]]. contradiction.
Qed.

(** With distinct keys, the entries under one key are the one [get]
    returns. *)
Lemma filter_key_get m k :
  List.NoDup (JSMap.keys m) ->
  filter (fun e => String.eqb (fst e) k) (JSMap.entries m)
  = match JSMap.get k m with
    | Some v => [(k, v)]
    | None => []
    end.
Proof.
  unfold JSMap.entries.
  induction m as [|[k0 v0] m IH]; simpl; [reflexivity|].
  intros Hnd. inversion Hnd as [|? ? Hnotin Hnd']; subst.
  destruct (String.eqb k0 k) eqn:E.
  - apply String.eqb_eq in E. subst k0.
    apply get_None_keys in Hnotin. rewrite (IH Hnd'), Hnotin. reflexivity.
  - auto.
Qed.

Lemma In_entries_get m k v :
  In (k, v) (JSMap.entries m) -> List.NoDup (JSMap.keys m) -> JSMap.get k m = Some v.
Proof.
  unfold JSMap.entries.
  induction m as [|[k0 v0] m IH]; simpl; [tauto|].
  intros [E|Hin] Hnd; inversion Hnd as [|? ? Hnotin Hnd']; subst.
  - injection E as -> ->. now rewrite String.eqb_refl.
  - destruct (String.eqb k0 k) eqn:E; [|auto].
    apply String.eqb_eq in E. subst k0. exfalso. apply Hnotin.
    apply (in_map fst) in Hin. exact Hin.
Qed.

(** *** Grouping folds: every element updates the value under its key. *)
Section Grouping.
Context {X : Type} (kf : X -> string) (upd : option V -> X -> V).

Lemma get_group_fold (l : list X) m k :
  JSMap.get k (fold_left (group_step kf upd) l m)
  = fold_left (fun o x => Some (upd o x))
      (filter (fun x => String.eqb (kf x) k) l) (JSMap.get k m).
Proof.
  revert m. induction l as [|x l IH]; intros m; simpl; [reflexivity|].
  rewrite IH. unfold group_step.
  destruct (String.eqb (kf x) k) eqn:E; simpl.
  - apply String.eqb_eq in E. subst k. now rewrite get_set_eq.
  - apply String.eqb_neq in E. now rewrite get_set_ne.
Qed.

Lemma keys_group_fold_NoDup (l : list X) m :
  List.NoDup (JSMap.keys m) -> List.NoDup (JSMap.keys (fold_left (group_step kf upd) l m)).
Proof.
  revert m. induction l as [|x l IH]; intros m Hnd; simpl; [assumption|].
  apply IH. now apply keys_set_NoDup.
Qed.

Lemma keys_group_fold_In (l : list X) m k :
  In k (JSMap.keys (fold_left (group_step kf upd) l m)) ->
  In k (JSMap.keys m) \/ exists x, In x l /\ kf x = k.
Proof.
  revert m. induction l as [|x l IH]; intros m; simpl; [tauto|].
  intros Hin. apply IH in Hin as [Hin|(y & Hy & Ek)].
  - unfold group_step in Hin. rewrite keys_set in Hin.
    destruct (is_some _); [tauto|].
    apply in_app_or in Hin as [Hin|[<-|[]]]; [tauto|].
    right. exists x. tauto.
  - right. exists y. tauto.
Qed.
End Grouping.
End JSMapFacts.

(** ** The indexing pass, map by map *)

Section IndexFacts.
Context `{DateHost}.

Lemma bar_free_dateKey (d : JSDate) : bar_free (dateKey d) = true.
Proof.
  unfold dateKey.
  rewrite !bar_free_app, bar_free_js_String, !bar_free_padStart0;
    auto using bar_free_js_String.
Qed.

Lemma bar_free_bookingDateKey (b : MockBooking.t) :
  bar_free (bookingDateKey b) = true.
Proof. apply bar_free_dateKey. Qed.

Lemma fold_indexHall (b : MockBooking.t) (dk : string)
    (hs : list HallAllocation.t) (ix : Index) :
  fold_left (indexHall b dk) hs ix
  = {| slotHallBookings :=
         fold_left
           (group_step
              (fun h => hallKey dk (MockBooking.slot b) (HallAllocation.hallCode h))
              (fun o _ => listStep b o))
           hs (slotHallBookings ix);
       daySlotBookings := daySlotBookings ix;
       hallSlotUsage :=
         fold_left
           (group_step
              (fun h => hallKey dk (MockBooking.slot b) (HallAllocation.hallCode h))
              (fun o h => nextUsage o b h))
           hs (hallSlotUsage ix) |}.
Proof.
  revert ix. induction hs as [|h hs IH]; intros ix; simpl.
  - now destruct ix.
  - rewrite IH. reflexivity.
Qed.

Lemma fold_group_pairs {V : Type} (upd : option V -> MockBooking.t * HallAllocation.t -> V)
    (b : MockBooking.t) (hs : list HallAllocation.t) (m : JSMap.t V) :
  fold_left (group_step allocKey upd) (map (pair b) hs) m
  = fold_left
      (group_step
         (fun h => hallKey (bookingDateKey b) (MockBooking.slot b)
                           (HallAllocation.hallCode h))
         (fun o h => upd o (b, h)))
      hs m.
Proof.
  revert m. induction hs as [|h hs IH]; intros m; simpl; [reflexivity|].
  rewrite <- IH. reflexivity.
Qed.

Lemma index_fold (bs : list MockBooking.t) (ix : Index) :
  fold_left indexBooking bs ix
  = {| slotHallBookings :=
         fold_left (group_step allocKey (fun o x => listStep (fst x) o))
                   (allocations bs) (slotHallBookings ix);
       daySlotBookings :=
         fold_left (group_step bookingKey (fun o b => listStep b o))
                   bs (daySlotBookings ix);
       hallSlotUsage :=
         fold_left (group_step allocKey (fun o x => nextUsage o (fst x) (snd x)))
                   (allocations bs) (hallSlotUsage ix) |}.
Proof.
  revert ix. induction bs as [|b bs IH]; intros ix; simpl.
  - now destruct ix.
  - rewrite IH. unfold indexBooking at 1 2 3. rewrite fold_indexHall. simpl.
    unfold allocations. simpl. rewrite !fold_left_app, !fold_group_pairs.
    reflexivity.
Qed.

Lemma hallSlotUsage_buildIndex (bs : list MockBooking.t) :
  hallSlotUsage (buildIndex bs)
  = fold_left (group_step allocKey (fun o x => nextUsage o (fst x) (snd x)))
              (allocations bs) JSMap.empty.
Proof. unfold buildIndex. now rewrite index_fold. Qed.

Lemma slotHallBookings_buildIndex (bs : list MockBooking.t) :
  slotHallBookings (buildIndex bs)
  = fold_left (group_step allocKey (fun o x => listStep (fst x) o))
              (allocations bs) JSMap.empty.
Proof. unfold buildIndex. now rewrite index_fold. Qed.

Lemma daySlotBookings_buildIndex (bs : list MockBooking.t) :
  daySlotBookings (buildIndex bs)
  = fold_left (group_step bookingKey (fun o b => listStep b o)) bs JSMap.empty.
Proof. unfold buildIndex. now rewrite index_fold. Qed.
End IndexFacts.

(** ** What the aggregates hold *)

Lemma fold_max_shift (l : list HallAllocation.t) (a b : Z) :
  fold_right (fun x acc => Z.max (HallAllocation.capacity x) acc) (Z.max a b) l
  = Z.max b (fold_right (fun x acc => Z.max (HallAllocation.capacity x) acc) a l).
Proof. induction l as [|h l IH]; simpl; [lia | rewrite IH; lia]. Qed.

Lemma fold_max_bounds (l : list HallAllocation.t) (c : Z) :
  let m := fold_right (fun x acc => Z.max (HallAllocation.capacity x) acc) c l in
  (m = c \/ In m (map HallAllocation.capacity l))
  /\ c <= m /\ Forall (fun h => HallAllocation.capacity h <= m) l.
Proof.
  induction l as [|h l IH]; cbn [fold_right map].
  - repeat split; [now left | lia | constructor].
  - destruct IH as ([E|Hin] & Hc & Hall); repeat split; try lia.
    + destruct (Z.max_spec (HallAllocation.capacity h)
                  (fold_right (fun x acc => Z.max (HallAllocation.capacity x) acc) c l))
        as [[_ ->]|[_ ->]]; [now left | right; now left].
    + constructor; [lia|]. eapply Forall_impl; [|exact Hall]. cbv beta. intros; lia.
    + destruct (Z.max_spec (HallAllocation.capacity h)
                  (fold_right (fun x acc => Z.max (HallAllocation.capacity x) acc) c l))
        as [[_ ->]|[_ ->]]; right; [now right | now left].
    + constructor; [lia|]. eapply Forall_impl; [|exact Hall]. cbv beta. intros; lia.
Qed.

(** [max_capacity] is the largest capacity of the list. *)
Lemma max_capacity_is_max (l : list HallAllocation.t) (c : Z) :
  max_capacity l = Some c ->
  In c (map HallAllocation.capacity l)
  /\ Forall (fun h => HallAllocation.capacity h <= c) l.
Proof.
  destruct l as [|h l]; [discriminate|]. cbn [max_capacity]. intros [= <-].
  destruct (fold_max_bounds l (HallAllocation.capacity h)) as ([E|Hin] & Hc & Hall).
  - split; [left; now rewrite E | constructor; [lia | assumption]].
  - split; [right; assumption | constructor; [lia | assumption]].
Qed.

Section UsageFold.
Context {X : Type} (bk : X -> MockBooking.t) (al : X -> HallAllocation.t).

Lemma usage_fold_Some (l : list X) (u : HallSlotUsage.t) :
  exists u',
    fold_left (fun o x => Some (nextUsage o (bk x) (al x))) l (Some u) = Some u'
    /\ HallSlotUsage.used u' = HallSlotUsage.used u + guests_sum (map al l)
    /\ HallSlotUsage.capacity u'
       = fold_right (fun x acc => Z.max (HallAllocation.capacity x) acc)
                    (HallSlotUsage.capacity u) (map al l)
    /\ HallSlotUsage.eventCount u'
       = HallSlotUsage.eventCount u + Z.of_nat (List.length l).
Proof.
  revert u. induction l as [|x l IH]; intros u.
  - exists u. simpl. repeat split; lia.
  - cbn [fold_left].
    destruct (IH (nextUsage (Some u) (bk x) (al x))) as (u' & E & Hu & Hc & He).
    exists u'. split; [exact E|].
    rewrite Hu, Hc, He. cbn [map guests_sum fold_right List.length].
    unfold nextUsage. cbn [from_option].
    destruct (_ <=? _); cbn [HallSlotUsage.used HallSlotUsage.capacity HallSlotUsage.eventCount];
      rewrite fold_max_shift; repeat split; unfold guests_sum; lia.
Qed.

Lemma usage_fold_None (l : list X) :
  match l with
  | [] => fold_left (fun o x => Some (nextUsage o (bk x) (al x))) l None = None
  | _ :: _ =>
      exists u,
        fold_left (fun o x => Some (nextUsage o (bk x) (al x))) l None = Some u
        /\ HallSlotUsage.used u = guests_sum (map al l)
        /\ Some (HallSlotUsage.capacity u) = max_capacity (map al l)
        /\ HallSlotUsage.eventCount u = Z.of_nat (List.length l)
  end.
Proof.
  destruct l as [|x l]; [reflexivity|].
  cbn [fold_left].
  destruct (usage_fold_Some l (nextUsage None (bk x) (al x))) as (u & E & Hu & Hc & He).
  exists u. split; [exact E|].
  rewrite Hu, Hc, He. cbn [map guests_sum fold_right List.length max_capacity].
  unfold nextUsage. cbn [from_option].
  destruct (_ <=? _); cbn [HallSlotUsage.used HallSlotUsage.capacity HallSlotUsage.eventCount];
    rewrite Z.max_id; repeat split; unfold guests_sum; lia.
Qed.
End UsageFold.

Lemma list_fold_group {X : Type} (bk : X -> MockBooking.t) (l : list X)
    (o : option (list MockBooking.t)) :
  fold_left (fun o x => Some (listStep (bk x) o)) l o
  = match l with
    | [] => o
    | _ :: _ => Some (default [] o ++ map bk l)%list
    end.
Proof.
  revert o. induction l as [|x l IH]; intros o; [reflexivity|].
  cbn [fold_left]. rewrite IH. unfold listStep.
  destruct l; simpl; [reflexivity|].
  now rewrite <- app_assoc.
Qed.

(** ** Keys and ids determine their parts *)

Lemma hallKey_inj (dk dk' : string) (s s' : Slot) (h h' : HallCode) :
  hallKey dk s h = hallKey dk' s' h' -> dk = dk' /\ s = s' /\ h = h'.
Proof. apply (suffix_slot_hall_inj "|"). Qed.

Lemma suffix_slot_inj (sep : ascii) (x y : string) (s s' : Slot) :
  x ++ String sep (Slot_str s) = y ++ String sep (Slot_str s') -> x = y /\ s = s'.
Proof.
  intros E.
  destruct s, s'; simpl in E;
    apply (f_equal rchars) in E; rewrite !rchars_app in E;
    unfold rchars at 1 3 in E; simpl in E;
    try discriminate E.
  all: injection E as E; apply rchars_inj in E; auto.
Qed.

Lemma daySlotKey_inj (dk dk' : string) (s s' : Slot) :
  daySlotKey dk s = daySlotKey dk' s' -> dk = dk' /\ s = s'.
Proof. apply (suffix_slot_inj "|"). Qed.

Lemma capacityId_inj (dk dk' : string) (s s' : Slot) (h h' : HallCode) :
  capacityId dk s h = capacityId dk' s' h' -> dk = dk' /\ s = s' /\ h = h'.
Proof.
  unfold capacityId. intros E. apply append_inv_head in E.
  now apply (suffix_slot_hall_inj "-") in E.
Qed.

Lemma perfConflictId_inj (dk dk' : string) (s s' : Slot) (h h' : HallCode) :
  perfConflictId dk s h = perfConflictId dk' s' h' -> dk = dk' /\ s = s' /\ h = h'.
Proof.
  unfold perfConflictId. intros E. apply append_inv_head in E.
  now apply (suffix_slot_hall_inj "-") in E.
Qed.

Lemma complexId_inj (dk dk' : string) (s s' : Slot) :
  complexId dk s = complexId dk' s' -> dk = dk' /\ s = s'.
Proof.
  unfold complexId. intros E. apply append_inv_head in E.
  now apply (suffix_slot_inj "-") in E.
Qed.

Lemma part_hallKey (dk : string) (s : Slot) (h : HallCode) :
  bar_free dk = true ->
  part 0 (hallKey dk s h) = dk
  /\ part 1 (hallKey dk s h) = Slot_str s
  /\ part 2 (hallKey dk s h) = HallCode_str h.
Proof. intros Hdk. unfold part. now rewrite (parts_hallKey _ _ _ Hdk). Qed.

Lemma part_daySlotKey (dk : string) (s : Slot) :
  bar_free dk = true ->
  part 0 (daySlotKey dk s) = dk /\ part 1 (daySlotKey dk s) = Slot_str s.
Proof. intros Hdk. unfold part. now rewrite (parts_daySlotKey _ _ Hdk). Qed.

(** ** The four stages of the output and the types they emit *)

Lemma filter_all {A : Type} (f : A -> bool) (l : list A) :
  Forall (fun x => f x = true) l -> filter f l = l.
Proof. induction 1 as [|x l Hx _ IH]; simpl; [reflexivity|]. now rewrite Hx, IH. Qed.

Lemma filter_none {A : Type} (f : A -> bool) (l : list A) :
  Forall (fun x => f x = false) l -> filter f l = [].
Proof. induction 1 as [|x l Hx _ IH]; simpl; [reflexivity|]. now rewrite Hx. Qed.

Lemma filter_flat_map {A B : Type} (f : B -> bool) (g : A -> list B) (l : list A) :
  filter f (flat_map g l) = flat_map (fun x => filter f (g x)) l.
Proof.
  induction l as [|x l IH]; simpl; [reflexivity|].
  now rewrite filter_app, IH.
Qed.

Lemma flat_map_ext_in {A B : Type} (f g : A -> list B) (l : list A) :
  (forall x, In x l -> f x = g x) -> flat_map f l = flat_map g l.
Proof.
  induction l as [|x l IH]; simpl; intros E; [reflexivity|].
  rewrite (E x), IH; auto.
Qed.

Lemma flat_map_filter {A B : Type} (q : A -> bool) (g : A -> list B) (l : list A) :
  flat_map (fun x => if q x then g x else []) l = flat_map g (filter q l).
Proof.
  induction l as [|x l IH]; simpl; [reflexivity|].
  rewrite IH. now destruct (q x).
Qed.

Lemma Forall_flat_map {A B : Type} (P : B -> Prop) (g : A -> list B) (l : list A) :
  (forall x, In x l -> Forall P (g x)) -> Forall P (flat_map g l).
Proof.
  induction l as [|x l IH]; simpl; intros Hg; [constructor|].
  apply Forall_app. split; [apply Hg | apply IH]; auto.
Qed.

Ltac rule_cases :=
  repeat match goal with
         | |- context [if ?c then _ else _] => destruct c
         | |- context [match ?c with Some _ => _ | None => _ end] => destruct c
         end.

Lemma capacityAlert_type (e : string * HallSlotUsage.t) :
  Forall (fun a => AlertDefinition.type a = CAPACITY_OVERRIDE) (capacityAlert e).
Proof. destruct e as [key u]. unfold capacityAlert. destruct (_ <=? _); repeat constructor. Qed.

Lemma performanceAlert_type (e : string * list MockBooking.t) :
  Forall (fun a => AlertDefinition.type a = PERFORMANCE_HALL_CONFLICT) (performanceAlert e).
Proof.
  destruct e as [key l]. unfold performanceAlert.
  destruct (_ <=? _)%nat; [constructor|].
  destruct (negb _); repeat constructor.
Qed.

Lemma complexAlert_type (e : string * list MockBooking.t) :
  Forall (fun a => AlertDefinition.type a = COMPLEX_MULTI_HALL_DAY) (complexAlert e).
Proof.
  destruct e as [key l]. unfold complexAlert.
  destruct (_ <=? _)%nat; [constructor|].
  destruct (_ || _); repeat constructor.
Qed.

Section StageFacts.
Context `{DateHost}.

Lemma bookingAlerts_type (t0 t15 : JSDate) (b : MockBooking.t) :
  Forall (fun a => is_booking_type (AlertDefinition.type a) = true)
         (bookingAlerts t0 t15 b).
Proof.
  unfold bookingAlerts, softFollowup, pastNotClosed, missingContact,
    guestSplitMismatch, highGuestCount, highAdvanceValue.
  repeat (apply Forall_app; split); rule_cases; repeat constructor.
Qed.

Lemma filter_buildAlerts (P : AlertDefinition.t -> bool)
    (bs : list MockBooking.t) (today : JSDate) :
  filter P (buildAlerts bs today)
  = (filter P (flat_map capacityAlert (JSMap.entries (hallSlotUsage (buildIndex bs))))
     ++ filter P (flat_map performanceAlert
                    (JSMap.entries (slotHallBookings (buildIndex bs))))
     ++ filter P (flat_map (bookingAlerts (startOfDay today)
                              (addDays (startOfDay today) 15)) bs)
     ++ filter P (flat_map complexAlert
                    (JSMap.entries (daySlotBookings (buildIndex bs)))))%list.
Proof. unfold buildAlerts. now rewrite !filter_app. Qed.
End StageFacts.

Lemma filter_type_clash (ty ty' : AlertType) (Q : AlertDefinition.t -> bool)
    (l : list AlertDefinition.t) :
  Forall (fun a => AlertDefinition.type a = ty) l ->
  AlertType_eqb ty ty' = false ->
  filter (fun a => has_type ty' a && Q a) l = [].
Proof.
  intros Hl Hne. apply filter_none. eapply Forall_impl; [|exact Hl].
  intros a Ha. unfold has_type. cbv beta in Ha. now rewrite Ha, Hne.
Qed.

Lemma filter_booking_type_clash (ty' : AlertType) (Q : AlertDefinition.t -> bool)
    (l : list AlertDefinition.t) :
  Forall (fun a => is_booking_type (AlertDefinition.type a) = true) l ->
  is_booking_type ty' = false ->
  filter (fun a => has_type ty' a && Q a) l = [].
Proof.
  intros Hl Hne. apply filter_none. eapply Forall_impl; [|exact Hl].
  intros a Ha. unfold has_type. cbv beta in Ha.
  destruct (AlertDefinition.type a), ty'; simpl in *; congruence.
Qed.

(** ** Keys of the maps of the index *)

Section KeyFacts.
Context `{DateHost}.

Lemma usage_keys_NoDup (bs : list MockBooking.t) :
  List.NoDup (JSMap.keys (hallSlotUsage (buildIndex bs))).
Proof. rewrite hallSlotUsage_buildIndex. apply keys_group_fold_NoDup. constructor. Qed.

Lemma slotHall_keys_NoDup (bs : list MockBooking.t) :
  List.NoDup (JSMap.keys (slotHallBookings (buildIndex bs))).
Proof. rewrite slotHallBookings_buildIndex. apply keys_group_fold_NoDup. constructor. Qed.

Lemma daySlot_keys_NoDup (bs : list MockBooking.t) :
  List.NoDup (JSMap.keys (daySlotBookings (buildIndex bs))).
Proof. rewrite daySlotBookings_buildIndex. apply keys_group_fold_NoDup. constructor. Qed.

Lemma usage_key_form (bs : list MockBooking.t) (e : string * HallSlotUsage.t) :
  In e (JSMap.entries (hallSlotUsage (buildIndex bs))) ->
  exists x, In x (allocations bs) /\ fst e = allocKey x.
Proof.
  intros Hin. apply (in_map fst) in Hin.
  change (In (fst e) (JSMap.keys (hallSlotUsage (buildIndex bs)))) in Hin.
  rewrite hallSlotUsage_buildIndex in Hin.
  apply keys_group_fold_In in Hin as [[]|(x & Hx & E)]. eauto.
Qed.

Lemma slotHall_key_form (bs : list MockBooking.t) (e : string * list MockBooking.t) :
  In e (JSMap.entries (slotHallBookings (buildIndex bs))) ->
  exists x, In x (allocations bs) /\ fst e = allocKey x.
Proof.
  intros Hin. apply (in_map fst) in Hin.
  change (In (fst e) (JSMap.keys (slotHallBookings (buildIndex bs)))) in Hin.
  rewrite slotHallBookings_buildIndex in Hin.
  apply keys_group_fold_In in Hin as [[]|(x & Hx & E)]. eauto.
Qed.

Lemma daySlot_key_form (bs : list MockBooking.t) (e : string * list MockBooking.t) :
  In e (JSMap.entries (daySlotBookings (buildIndex bs))) ->
  exists b, In b bs /\ fst e = bookingKey b.
Proof.
  intros Hin. apply (in_map fst) in Hin.
  change (In (fst e) (JSMap.keys (daySlotBookings (buildIndex bs)))) in Hin.
  rewrite daySlotBookings_buildIndex in Hin.
  apply keys_group_fold_In in Hin as [[]|(x & Hx & E)]. eauto.
Qed.

(** The alerts of an entry carry the id of its key. *)
Lemma capacityAlert_id (x : MockBooking.t * HallAllocation.t) (u : HallSlotUsage.t) :
  Forall (fun a =>
            AlertDefinition.id a
            = capacityId (bookingDateKey (fst x)) (MockBooking.slot (fst x))
                         (HallAllocation.hallCode (snd x)))
         (capacityAlert (allocKey x, u)).
Proof.
  unfold capacityAlert. destruct (_ <=? _); [constructor|].
  destruct (part_hallKey (bookingDateKey (fst x)) (MockBooking.slot (fst x))
              (HallAllocation.hallCode (snd x)) (bar_free_bookingDateKey _))
    as (E0 & E1 & E2).
  unfold allocKey. rewrite E0, E1, E2. repeat constructor.
Qed.

Lemma performanceAlert_id (x : MockBooking.t * HallAllocation.t) (l : list MockBooking.t) :
  Forall (fun a =>
            AlertDefinition.id a
            = perfConflictId (bookingDateKey (fst x)) (MockBooking.slot (fst x))
                             (HallAllocation.hallCode (snd x)))
         (performanceAlert (allocKey x, l)).
Proof.
  unfold performanceAlert.
  destruct (_ <=? _)%nat; [constructor|]. destruct (negb _); [constructor|].
  destruct (part_hallKey (bookingDateKey (fst x)) (MockBooking.slot (fst x))
              (HallAllocation.hallCode (snd x)) (bar_free_bookingDateKey _))
    as (E0 & E1 & E2).
  unfold allocKey. rewrite E0, E1, E2. repeat constructor.
Qed.

Lemma complexAlert_id (b : MockBooking.t) (l : list MockBooking.t) :
  Forall (fun a =>
            AlertDefinition.id a = complexId (bookingDateKey b) (MockBooking.slot b))
         (complexAlert (bookingKey b, l)).
Proof.
  unfold complexAlert.
  destruct (_ <=? _)%nat; [constructor|]. destruct (_ || _); [|constructor].
  destruct (part_daySlotKey (bookingDateKey b) (MockBooking.slot b)
              (bar_free_bookingDateKey _)) as (E0 & E1).
  unfold bookingKey. rewrite E0, E1. repeat constructor.
Qed.
End KeyFacts.

(** ** C1: the capacity-override rule *)

Section Capacity.
Context `{DateHost}.

Lemma Slot_eqb_eq (a b : Slot) : Slot_eqb a b = true <-> a = b.
Proof. destruct a, b; simpl; split; congruence. Qed.

Lemma HallCode_eqb_eq (a b : HallCode) : HallCode_eqb a b = true <-> a = b.
Proof. destruct a, b; simpl; split; congruence. Qed.

Lemma at_key_spec (dk : string) (slot : Slot) (hall : HallCode)
    (x : MockBooking.t * HallAllocation.t) :
  at_key dk slot hall x = true
  <-> bookingDateKey (fst x) = dk /\ MockBooking.slot (fst x) = slot
      /\ HallAllocation.hallCode (snd x) = hall.
Proof.
  unfold at_key. rewrite !andb_true_iff, String.eqb_eq, Slot_eqb_eq, HallCode_eqb_eq.
  tauto.
Qed.

Lemma at_key_allocKey (dk : string) (slot : Slot) (hall : HallCode)
    (x : MockBooking.t * HallAllocation.t) :
  String.eqb (allocKey x) (hallKey dk slot hall) = at_key dk slot hall x.
Proof.
  apply eq_true_iff_eq. rewrite String.eqb_eq, at_key_spec. split.
  - apply hallKey_inj.
  - intros (E1 & E2 & E3). unfold allocKey. now rewrite E1, E2, E3.
Qed.

Lemma filter_allocKey (bs : list MockBooking.t) (dk : string) (slot : Slot)
    (hall : HallCode) :
  filter (fun x => String.eqb (allocKey x) (hallKey dk slot hall)) (allocations bs)
  = allocations_at bs dk slot hall.
Proof. apply filter_ext. intros x. apply at_key_allocKey. Qed.

Lemma get_usage (bs : list MockBooking.t) (dk : string) (slot : Slot) (hall : HallCode) :
  JSMap.get (hallKey dk slot hall) (hallSlotUsage (buildIndex bs))
  = fold_left (fun o x => Some (nextUsage o (fst x) (snd x)))
              (allocations_at bs dk slot hall) None.
Proof.
  rewrite hallSlotUsage_buildIndex, get_group_fold. now rewrite filter_allocKey.
Qed.

Lemma get_slotHall (bs : list MockBooking.t) (dk : string) (slot : Slot) (hall : HallCode) :
  JSMap.get (hallKey dk slot hall) (slotHallBookings (buildIndex bs))
  = match allocations_at bs dk slot hall with
    | [] => None
    | l => Some (map fst l)
    end.
Proof.
  rewrite slotHallBookings_buildIndex, get_group_fold, filter_allocKey.
  rewrite (list_fold_group fst). now destruct (allocations_at bs dk slot hall).
Qed.

Lemma capacity_hits_entry (bs : list MockBooking.t) (dk : string) (slot : Slot)
    (hall : HallCode) (e : string * HallSlotUsage.t) :
  In e (JSMap.entries (hallSlotUsage (buildIndex bs))) ->
  filter (fun a => has_type CAPACITY_OVERRIDE a
                   && String.eqb (AlertDefinition.id a) (capacityId dk slot hall))
         (capacityAlert e)
  = if String.eqb (fst e) (hallKey dk slot hall) then capacityAlert e else [].
Proof.
  intros Hin. destruct (usage_key_form bs e Hin) as (x & _ & Ek).
  destruct e as [key u]. simpl in Ek. subst key. cbn [fst].
  pose proof (capacityAlert_type (allocKey x, u)) as Hty.
  pose proof (capacityAlert_id x u) as Hid.
  destruct (String.eqb (allocKey x) (hallKey dk slot hall)) eqn:E.
  - apply String.eqb_eq in E. apply hallKey_inj in E as (E1 & E2 & E3).
    apply filter_all. rewrite Forall_forall in *. intros a Ha.
    unfold has_type. rewrite (Hty a Ha), (Hid a Ha), E1, E2, E3.
    simpl. apply String.eqb_refl.
  - apply String.eqb_neq in E.
    apply filter_none. rewrite Forall_forall in *. intros a Ha.
    rewrite (Hid a Ha). apply andb_false_intro2. apply String.eqb_neq.
    intros Eid. apply capacityId_inj in Eid as (E1 & E2 & E3).
    apply E. unfold allocKey. now rewrite E1, E2, E3.
Qed.

Lemma capacity_hits (bs : list MockBooking.t) (today : JSDate)
    (dk : string) (slot : Slot) (hall : HallCode) :
  filter (fun a => has_type CAPACITY_OVERRIDE a
                   && String.eqb (AlertDefinition.id a) (capacityId dk slot hall))
         (buildAlerts bs today)
  = match JSMap.get (hallKey dk slot hall) (hallSlotUsage (buildIndex bs)) with
    | Some u => capacityAlert (hallKey dk slot hall, u)
    | None => []
    end.
Proof.
  rewrite filter_buildAlerts.
  rewrite (filter_type_clash PERFORMANCE_HALL_CONFLICT CAPACITY_OVERRIDE _
             (flat_map performanceAlert _));
    [| apply Forall_flat_map; intros; apply performanceAlert_type | reflexivity].
  rewrite (filter_booking_type_clash CAPACITY_OVERRIDE _
             (flat_map (bookingAlerts _ _) _));
    [| apply Forall_flat_map; intros; apply bookingAlerts_type | reflexivity].
  rewrite (filter_type_clash COMPLEX_MULTI_HALL_DAY CAPACITY_OVERRIDE _
             (flat_map complexAlert _));
    [| apply Forall_flat_map; intros; apply complexAlert_type | reflexivity].
  rewrite !app_nil_r, filter_flat_map.
  rewrite (flat_map_ext_in _ _ _ (capacity_hits_entry bs dk slot hall)).
  rewrite flat_map_filter, (filter_key_get _ _ (usage_keys_NoDup bs)).
  destruct (JSMap.get _ _); simpl; [apply app_nil_r | reflexivity].
Qed.
End Capacity.


(** ** C2: the performance-conflict rule *)

Section Performance.
Context `{DateHost}.

Lemma performance_hits_entry (bs : list MockBooking.t) (dk : string) (slot : Slot)
    (hall : HallCode) (e : string * list MockBooking.t) :
  In e (JSMap.entries (slotHallBookings (buildIndex bs))) ->
  filter (fun a => has_type PERFORMANCE_HALL_CONFLICT a
                   && String.eqb (AlertDefinition.id a) (perfConflictId dk slot hall))
         (performanceAlert e)
  = if String.eqb (fst e) (hallKey dk slot hall) then performanceAlert e else [].
Proof.
  intros Hin. destruct (slotHall_key_form bs e Hin) as (x & _ & Ek).
  destruct e as [key u]. simpl in Ek. subst key. cbn [fst].
  pose proof (performanceAlert_type (allocKey x, u)) as Hty.
  pose proof (performanceAlert_id x u) as Hid.
  destruct (String.eqb (allocKey x) (hallKey dk slot hall)) eqn:E.
  - apply String.eqb_eq in E. apply hallKey_inj in E as (E1 & E2 & E3).
    apply filter_all. rewrite Forall_forall in *. intros a Ha.
    unfold has_type. rewrite (Hty a Ha), (Hid a Ha), E1, E2, E3.
    simpl. apply String.eqb_refl.
  - apply String.eqb_neq in E.
    apply filter_none. rewrite Forall_forall in *. intros a Ha.
    rewrite (Hid a Ha). apply andb_false_intro2. apply String.eqb_neq.
    intros Eid. apply perfConflictId_inj in Eid as (E1 & E2 & E3).
    apply E. unfold allocKey. now rewrite E1, E2, E3.
Qed.

(** The alerts of a key come from the list under it: the bookings of the
    key, one entry per hall allocation. *)
Lemma performance_hits (bs : list MockBooking.t) (today : JSDate)
    (dk : string) (slot : Slot) (hall : HallCode) :
  filter (fun a => has_type PERFORMANCE_HALL_CONFLICT a
                   && String.eqb (AlertDefinition.id a) (perfConflictId dk slot hall))
         (buildAlerts bs today)
  = match allocations_at bs dk slot hall with
    | [] => []
    | l => performanceAlert (hallKey dk slot hall, map fst l)
    end.
Proof.
  rewrite filter_buildAlerts.
  rewrite (filter_type_clash CAPACITY_OVERRIDE PERFORMANCE_HALL_CONFLICT _
             (flat_map capacityAlert _));
    [| apply Forall_flat_map; intros; apply capacityAlert_type | reflexivity].
  rewrite (filter_booking_type_clash PERFORMANCE_HALL_CONFLICT _
             (flat_map (bookingAlerts _ _) _));
    [| apply Forall_flat_map; intros; apply bookingAlerts_type | reflexivity].
  rewrite (filter_type_clash COMPLEX_MULTI_HALL_DAY PERFORMANCE_HALL_CONFLICT _
             (flat_map complexAlert _));
    [| apply Forall_flat_map; intros; apply complexAlert_type | reflexivity].
  rewrite !app_nil_r, app_nil_l, filter_flat_map.
  rewrite (flat_map_ext_in _ _ _ (performance_hits_entry bs dk slot hall)).
  rewrite flat_map_filter, (filter_key_get _ _ (slotHall_keys_NoDup bs)).
  rewrite get_slotHall.
  destruct (allocations_at bs dk slot hall); simpl; [reflexivity | apply app_nil_r].
Qed.

Lemma group_of_booking (dk : string) (slot : Slot) (hall : HallCode)
    (b : MockBooking.t) (hs : list HallAllocation.t) :
  List.NoDup (map HallAllocation.hallCode hs) ->
  map fst (filter (at_key dk slot hall) (map (pair b) hs))
  = if String.eqb (bookingDateKey b) dk && Slot_eqb (MockBooking.slot b) slot
       && existsb (fun h => HallCode_eqb (HallAllocation.hallCode h) hall) hs
    then [b] else [].
Proof.
  induction hs as [|h hs IH]; intros Hnd.
  - simpl. now rewrite andb_false_r.
  - inversion Hnd as [|? ? Hnotin Hnd']; subst. specialize (IH Hnd').
    cbn [map filter existsb]. unfold at_key at 1. cbn [fst snd].
    destruct (String.eqb (bookingDateKey b) dk && Slot_eqb (MockBooking.slot b) slot)
      eqn:E; cbn [andb] in *; [|exact IH].
    destruct (HallCode_eqb (HallAllocation.hallCode h) hall) eqn:Eh;
      cbn [orb map fst]; [|exact IH].
    rewrite IH. apply HallCode_eqb_eq in Eh.
    destruct (existsb _ hs) eqn:Ex; [|reflexivity].
    exfalso. apply Hnotin. apply existsb_exists in Ex as (h' & Hin & Eh').
    apply HallCode_eqb_eq in Eh'. rewrite Eh, <- Eh'. now apply in_map.
Qed.

Lemma group_one_allocation (bs : list MockBooking.t) (dk : string) (slot : Slot)
    (hall : HallCode) :
  Forall one_allocation_per_hall bs ->
  map fst (allocations_at bs dk slot hall) = hall_group bs dk slot hall.
Proof.
  unfold allocations_at, hall_group, allocations.
  induction 1 as [|b bs Hb _ IH]; [reflexivity|].
  cbn [flat_map filter]. rewrite filter_app, map_app, IH.
  rewrite (group_of_booking _ _ _ _ _ Hb). unfold uses_hall.
  now destruct (_ && _ && _).
Qed.
End Performance.


(** ** The per-booking pass, rule by rule *)

Lemma filter_type_clash0 (ty ty' : AlertType) (l : list AlertDefinition.t) :
  Forall (fun a => AlertDefinition.type a = ty) l ->
  AlertType_eqb ty ty' = false ->
  filter (has_type ty') l = [].
Proof.
  intros Hl Hne. apply filter_none. eapply Forall_impl; [|exact Hl].
  intros a Ha. unfold has_type. cbv beta in Ha. now rewrite Ha, Hne.
Qed.

Lemma filter_rule (ty ty' : AlertType) (l : list AlertDefinition.t) :
  Forall (fun a => AlertDefinition.type a = ty) l ->
  filter (has_type ty') l = if AlertType_eqb ty ty' then l else [].
Proof.
  intros Hl. destruct (AlertType_eqb ty ty') eqn:E.
  - apply filter_all. eapply Forall_impl; [|exact Hl].
    intros a Ha. unfold has_type. cbv beta in Ha. now rewrite Ha.
  - now apply (filter_type_clash0 ty).
Qed.

Section RuleTypes.
Context `{DateHost}.
Variables (d : JSDate) (dk : string) (b : MockBooking.t) (t0 t15 : JSDate).

Lemma softFollowup_type :
  Forall (fun a => AlertDefinition.type a = SOFT_BOOKING_FOLLOWUP)
         (softFollowup d dk b t0 t15).
Proof. unfold softFollowup. rule_cases; repeat constructor. Qed.

Lemma pastNotClosed_type :
  Forall (fun a => AlertDefinition.type a = PAST_NOT_CLOSED) (pastNotClosed d dk b t0).
Proof. unfold pastNotClosed. rule_cases; repeat constructor. Qed.

Lemma missingContact_type :
  Forall (fun a => AlertDefinition.type a = MISSING_CONTACT) (missingContact dk b).
Proof. unfold missingContact. rule_cases; repeat constructor. Qed.

Lemma guestSplitMismatch_type :
  Forall (fun a => AlertDefinition.type a = GUEST_SPLIT_MISMATCH)
         (guestSplitMismatch dk b).
Proof. unfold guestSplitMismatch. rule_cases; repeat constructor. Qed.

Lemma highGuestCount_type :
  Forall (fun a => AlertDefinition.type a = HIGH_GUEST_COUNT) (highGuestCount dk b).
Proof. unfold highGuestCount. rule_cases; repeat constructor. Qed.

Lemma highAdvanceValue_type :
  Forall (fun a => AlertDefinition.type a = HIGH_ADVANCE_VALUE) (highAdvanceValue dk b).
Proof. unfold highAdvanceValue. rule_cases; repeat constructor. Qed.
End RuleTypes.

Section BookingPass.
Context `{DateHost}.

Lemma filter_bookingAlerts (ty : AlertType) (t0 t15 : JSDate) (b : MockBooking.t) :
  filter (has_type ty) (bookingAlerts t0 t15 b)
  = match ty with
    | SOFT_BOOKING_FOLLOWUP => softFollowup (bookingDate b) (bookingDateKey b) b t0 t15
    | PAST_NOT_CLOSED => pastNotClosed (bookingDate b) (bookingDateKey b) b t0
    | MISSING_CONTACT => missingContact (bookingDateKey b) b
    | GUEST_SPLIT_MISMATCH => guestSplitMismatch (bookingDateKey b) b
    | HIGH_GUEST_COUNT => highGuestCount (bookingDateKey b) b
    | HIGH_ADVANCE_VALUE => highAdvanceValue (bookingDateKey b) b
    | _ => []
    end.
Proof.
  unfold bookingAlerts. rewrite !filter_app.
  rewrite (filter_rule _ ty _ (softFollowup_type _ _ _ _ _)),
    (filter_rule _ ty _ (pastNotClosed_type _ _ _ _)),
    (filter_rule _ ty _ (missingContact_type _ _)),
    (filter_rule _ ty _ (guestSplitMismatch_type _ _)),
    (filter_rule _ ty _ (highGuestCount_type _ _)),
    (filter_rule _ ty _ (highAdvanceValue_type _ _)).
  destruct ty; cbn [AlertType_eqb app]; rewrite ?app_nil_r; reflexivity.
Qed.

(** The alerts of a per-booking type are those of the booking pass. *)
Lemma filter_type_booking (ty : AlertType) (bs : list MockBooking.t) (today : JSDate) :
  is_booking_type ty = true ->
  filter (has_type ty) (buildAlerts bs today)
  = flat_map (fun b => filter (has_type ty)
                         (bookingAlerts (startOfDay today)
                            (addDays (startOfDay today) 15) b)) bs.
Proof.
  intros Hty. rewrite filter_buildAlerts.
  rewrite (filter_type_clash0 CAPACITY_OVERRIDE ty (flat_map capacityAlert _));
    [| apply Forall_flat_map; intros; apply capacityAlert_type
     | destruct ty; try reflexivity; discriminate].
  rewrite (filter_type_clash0 PERFORMANCE_HALL_CONFLICT ty (flat_map performanceAlert _));
    [| apply Forall_flat_map; intros; apply performanceAlert_type
     | destruct ty; try reflexivity; discriminate].
  rewrite (filter_type_clash0 COMPLEX_MULTI_HALL_DAY ty (flat_map complexAlert _));
    [| apply Forall_flat_map; intros; apply complexAlert_type
     | destruct ty; try reflexivity; discriminate].
  rewrite app_nil_r. simpl. apply filter_flat_map.
Qed.

(** What one booking adds under one per-booking type: at most one alert,
    whose id is the rule's prefix followed by the booking id. *)
Lemma booking_rule_shape (ty : AlertType) (t0 t15 : JSDate) (b : MockBooking.t) :
  let l := filter (has_type ty) (bookingAlerts t0 t15 b) in
  (List.length l <= 1)%nat
  /\ Forall (fun a => AlertDefinition.id a = bookingAlertId (id_prefix ty) b
                      /\ AlertDefinition.bookingId a = Some (MockBooking.id b)) l.
Proof.
  cbv zeta. rewrite filter_bookingAlerts.
  destruct ty; cbn [id_prefix]; try (split; [simpl; lia | constructor]).
  - unfold softFollowup. rule_cases; split; simpl; try lia; repeat constructor.
  - unfold pastNotClosed. rule_cases; split; simpl; try lia; repeat constructor.
  - unfold missingContact. rule_cases; split; simpl; try lia; repeat constructor.
  - unfold guestSplitMismatch. rule_cases; split; simpl; try lia; repeat constructor.
  - unfold highGuestCount. rule_cases; split; simpl; try lia; repeat constructor.
  - unfold highAdvanceValue. rule_cases; split; simpl; try lia; repeat constructor.
Qed.

Lemma map_flat_map_if {A B C : Type} (f : B -> C) (q : A -> bool) (g : A -> B)
    (l : list A) :
  map f (flat_map (fun x => if q x then [g x] else []) l)
  = map (fun x => f (g x)) (filter q l).
Proof.
  induction l as [|x l IH]; simpl; [reflexivity|].
  destruct (q x); simpl; now rewrite IH.
Qed.
End BookingPass.

Lemma window_code (t0 d : JSDate) :
  date_le t0 d && date_le d (addDays t0 15) = followup_window t0 d.
Proof.
  unfold followup_window, in_closed_interval.
  destruct t0 as [a|], d as [t|]; simpl; try reflexivity.
  all: destruct (time_clip _); simpl; rewrite ?andb_false_r; reflexivity.
Qed.

(** Inside the range of valid dates the window is the interval of time
    values from the start of the day to 15 * 24 hours later. *)
Lemma followup_window_arith (t0 t : Z) :
  Z.abs (t0 + 1296000000) <= 8640000000000000 ->
  followup_window (Some t0) (Some t) = (t0 <=? t) && (t <=? t0 + 1296000000).
Proof.
  intros Hr. unfold followup_window, in_closed_interval, addDays, time_clip.
  replace (t0 + 15 * 24 * 60 * 60 * 1000) with (t0 + 1296000000) by lia.
  destruct (Z.leb_spec (Z.abs (t0 + 1296000000)) 8640000000000000); [reflexivity | lia].
Qed.

Lemma or_zero_default (x : option Z) : or_zero x = default 0 x.
Proof. destruct x as [n|]; simpl; [|reflexivity]. destruct (Z.eqb_spec n 0); congruence. Qed.

Section DateRuleIds.
Context `{DateHost}.

(** The two date rules, relative to the start of the reference day as
    the code computes it. *)
Lemma date_rules_by_window (bs : list MockBooking.t) (today : JSDate) :
  map AlertDefinition.id
      (filter (has_type SOFT_BOOKING_FOLLOWUP) (buildAlerts bs today))
  = map (bookingAlertId "soft-follow-")
        (filter (fun b => isSoftStatus (MockBooking.status b)
                          && followup_window (startOfDay today) (bookingDate b)) bs)
  /\ map AlertDefinition.id (filter (has_type PAST_NOT_CLOSED) (buildAlerts bs today))
     = map (bookingAlertId "past-open-")
           (filter (fun b => date_lt (bookingDate b) (startOfDay today)
                             && isOpenStatus (MockBooking.status b)) bs).
Proof.
  split.
  - rewrite (filter_type_booking SOFT_BOOKING_FOLLOWUP) by reflexivity.
    erewrite flat_map_ext_in by (intros; apply filter_bookingAlerts).
    unfold softFollowup.
    erewrite flat_map_ext_in
      by (intros b _; rewrite <- andb_assoc, window_code; reflexivity).
    now rewrite map_flat_map_if.
  - rewrite (filter_type_booking PAST_NOT_CLOSED) by reflexivity.
    erewrite flat_map_ext_in by (intros; apply filter_bookingAlerts).
    unfold pastNotClosed.
    now rewrite map_flat_map_if.
Qed.

(** The same in time values: the start of the reference day is the local
    midnight [t0] of its calendar day, and the window ends 15 times 24
    hours later. *)
Lemma date_rule_ids (bs : list MockBooking.t) (now t0 : Z) :
  date_of_local (local_year now) (local_month now) (local_day now) = Some t0 ->
  Z.abs (t0 + days 15) <= 8640000000000000 ->
  map AlertDefinition.id
      (filter (has_type SOFT_BOOKING_FOLLOWUP) (buildAlerts bs (Some now)))
  = map (bookingAlertId "soft-follow-") (filter (soft_due t0) bs)
  /\ map AlertDefinition.id
       (filter (has_type PAST_NOT_CLOSED) (buildAlerts bs (Some now)))
     = map (bookingAlertId "past-open-") (filter (past_open t0) bs).
Proof.
  intros Hlocal Hr.
  assert (Hstart : startOfDay (Some now) = Some t0) by exact Hlocal.
  destruct (date_rules_by_window bs (Some now)) as [E1 E2].
  rewrite E1, E2, Hstart. split; f_equal; apply filter_ext; intros b.
  - unfold soft_due, bookingDate, parseEventDateLabel.
    destruct (date_of_label (MockBooking.eventDateLabel b)) as [t|].
    + rewrite followup_window_arith by exact Hr. reflexivity.
    + unfold followup_window, in_closed_interval.
      now destruct (addDays (Some t0) 15).
  - unfold past_open, bookingDate, parseEventDateLabel, date_lt.
    destruct (date_of_label (MockBooking.eventDateLabel b)) as [t|];
      [apply andb_comm | now rewrite andb_false_r].
Qed.
End DateRuleIds.


Lemma split_alerts `{DateHost} (bs : list MockBooking.t) (today : JSDate) :
  filter (has_type GUEST_SPLIT_MISMATCH) (buildAlerts bs today)
  = flat_map (fun b => if split_mismatch b
                       then guestSplitMismatch (bookingDateKey b) b
                       else []) bs.
Proof.
  rewrite (filter_type_booking GUEST_SPLIT_MISMATCH) by reflexivity.
  apply flat_map_ext_in. intros b _. rewrite filter_bookingAlerts.
  unfold guestSplitMismatch, split_mismatch. rewrite !or_zero_default.
  destruct (_ || _); simpl; [|reflexivity]. now destruct (_ && _).
Qed.

Lemma split_alert_of `{DateHost} (b : MockBooking.t) :
  split_mismatch b = true ->
  exists a, guestSplitMismatch (bookingDateKey b) b = [a]
            /\ AlertDefinition.id a = bookingAlertId "split-mismatch-" b
            /\ AlertDefinition.bookingId a = Some (MockBooking.id b).
Proof.
  intros Eb. unfold guestSplitMismatch, split_mismatch in *.
  rewrite !or_zero_default.
  destruct (_ || _); simpl in *; [|discriminate]. rewrite Eb. eauto.
Qed.

(** C4.  The [GUEST_SPLIT_MISMATCH] alerts of the output are, in booking
    order, one for each booking for which at least one of hallAGuests and
    hallBGuests is non-null, totalGuests is not zero, and hallAGuests plus
    hallBGuests, nulls counted as 0, differs from totalGuests.  Bookings
    with both hall guest fields null add none, whatever their totalGuests:
    leaving them out of the list leaves these alerts as they are. *)
Theorem guest_split_mismatch_rule `{DateHost} (bs : list MockBooking.t) (today : JSDate) :
  let hits := filter (has_type GUEST_SPLIT_MISMATCH) (buildAlerts bs today) in
  map AlertDefinition.id hits
  = map (bookingAlertId "split-mismatch-") (filter split_mismatch bs)
  /\ map AlertDefinition.bookingId hits
     = map (fun b => Some (MockBooking.id b)) (filter split_mismatch bs)
  /\ hits
     = filter (has_type GUEST_SPLIT_MISMATCH)
         (buildAlerts
            (filter (fun b => is_some (MockBooking.hallAGuests b)
                              || is_some (MockBooking.hallBGuests b)) bs)
            today).
Proof.
  intros hits. subst hits. rewrite !split_alerts. repeat split.
  - induction bs as [|b bs IH]; simpl; [reflexivity|].
    rewrite map_app, IH.
    destruct (split_mismatch b) eqn:Eb; simpl; [|reflexivity].
    destruct (split_alert_of b Eb) as (a & Ea & Eid & _).
    rewrite Ea. simpl. now rewrite Eid.
  - induction bs as [|b bs IH]; simpl; [reflexivity|].
    rewrite map_app, IH.
    destruct (split_mismatch b) eqn:Eb; simpl; [|reflexivity].
    destruct (split_alert_of b Eb) as (a & Ea & _ & Eid).
    rewrite Ea. simpl. now rewrite Eid.
  - induction bs as [|b bs IH]; [reflexivity|].
    cbn [flat_map filter]. rewrite IH.
    destruct (is_some (MockBooking.hallAGuests b) || is_some (MockBooking.hallBGuests b))
      eqn:E; [reflexivity|].
    unfold split_mismatch at 1. now rewrite E.
Qed.

(** ** The resolution store *)

(** C5.  [resolveAlert(id)] with no note stores status RESOLVED under the
    id and keeps the note stored before for that id (none if there was
    none); [dismissAlert(id)] with no note stores status DISMISSED and no
    note.  Both write the id and the time of the call into the record and
    leave the records of other ids alone.  In particular a note given to an
    earlier dismiss survives a resolve without a note and is cleared by a
    dismiss without a note. *)
Theorem resolve_keeps_note_dismiss_clears (now : string) (alertId : string)
    (prev : gmap string AlertResolution.t) :
  resolveAlert now alertId None prev !! alertId
  = Some {| AlertResolution.alertId := alertId;
            AlertResolution.status := RESOLVED;
            AlertResolution.note := prev !! alertId ≫= AlertResolution.note;
            AlertResolution.updatedAt := now |}
  /\ dismissAlert now alertId None prev !! alertId
     = Some {| AlertResolution.alertId := alertId;
               AlertResolution.status := DISMISSED;
               AlertResolution.note := None;
               AlertResolution.updatedAt := now |}
  /\ delete alertId (resolveAlert now alertId None prev) = delete alertId prev
  /\ delete alertId (dismissAlert now alertId None prev) = delete alertId prev
  /\ (forall earlier note,
        resolveAlert now alertId None (dismissAlert earlier alertId note prev) !! alertId
        = Some {| AlertResolution.alertId := alertId;
                  AlertResolution.status := RESOLVED;
                  AlertResolution.note := trimmed_note note;
                  AlertResolution.updatedAt := now |})
  /\ (forall earlier note,
        dismissAlert now alertId None (dismissAlert earlier alertId note prev) !! alertId
        = Some {| AlertResolution.alertId := alertId;
                  AlertResolution.status := DISMISSED;
                  AlertResolution.note := None;
                  AlertResolution.updatedAt := now |}).
Proof.
  unfold resolveAlert, dismissAlert. cbn [trimmed_note].
  repeat split; intros; rewrite ?lookup_insert_eq, ?delete_insert_eq; reflexivity.
Qed.

Lemma mergeAlerts_Forall (P : AlertWithResolution.t -> Prop)
    (l : list AlertDefinition.t) (res : gmap string AlertResolution.t) :
  (forall d, In d l ->
     P {| AlertWithResolution.def := d;
          AlertWithResolution.resolution := res !! AlertDefinition.id d;
          AlertWithResolution.effectiveStatus :=
            from_option AlertResolution.status ACTIVE (res !! AlertDefinition.id d) |}) ->
  Forall P (mergeAlerts l res).
Proof.
  intros HP. unfold mergeAlerts. apply Forall_forall. intros m Hm.
  apply in_map_iff in Hm as (d & <- & Hd). now apply HP.
Qed.

(** C6, as the store has it.  For an alert of the engine output, after
    [dismissAlert(id, note)] the merged list shows that alert with
    effectiveStatus DISMISSED and the note trimmed of surrounding white
    space (no note when nothing is left, or none was given); after a
    following [reopenAlert(id)] it shows it with effectiveStatus ACTIVE and
    no resolution record.  The merge takes the stored status when a record
    exists and ACTIVE otherwise. *)
Theorem dismiss_reopen_round_trip `{DateHost} (bs : list MockBooking.t) (today : JSDate)
    (a : AlertDefinition.t) (now : string) (note : option string)
    (res : gmap string AlertResolution.t) :
  In a (buildAlerts bs today) ->
  let dismissed := dismissAlert now (AlertDefinition.id a) note res in
  let reopened := reopenAlert (AlertDefinition.id a) dismissed in
  Exists (fun m => AlertWithResolution.def m = a)
         (mergeAlerts (buildAlerts bs today) dismissed)
  /\ Forall (fun m =>
              AlertDefinition.id (AlertWithResolution.def m) = AlertDefinition.id a ->
              AlertWithResolution.effectiveStatus m = DISMISSED
              /\ AlertWithResolution.resolution m ≫= AlertResolution.note
                 = trimmed_note note)
           (mergeAlerts (buildAlerts bs today) dismissed)
  /\ Forall (fun m =>
              AlertDefinition.id (AlertWithResolution.def m) = AlertDefinition.id a ->
              AlertWithResolution.effectiveStatus m = ACTIVE
              /\ AlertWithResolution.resolution m = None)
           (mergeAlerts (buildAlerts bs today) reopened)
  /\ map AlertWithResolution.effectiveStatus (mergeAlerts (buildAlerts bs today) res)
     = map (fun d => match res !! AlertDefinition.id d with
                     | Some r => AlertResolution.status r
                     | None => ACTIVE
                     end)
           (buildAlerts bs today).
Proof.
  intros Hin dismissed reopened. repeat split.
  - apply Exists_exists. eexists. split.
    + unfold mergeAlerts. apply in_map_iff. exists a. split; [reflexivity | exact Hin].
    + reflexivity.
  - apply mergeAlerts_Forall. intros d _ Eid. cbn in Eid |- *.
    subst dismissed. unfold dismissAlert. rewrite Eid, lookup_insert_eq. now split.
  - apply mergeAlerts_Forall. intros d _ Eid. cbn in Eid |- *.
    subst reopened. unfold reopenAlert. rewrite Eid, lookup_delete_eq. now split.
  - unfold mergeAlerts. rewrite map_map. apply map_ext. intros d. cbn.
    now destruct (res !! AlertDefinition.id d).
Qed.
(** ** C7: determinism *)

(** C7.  [buildAlerts] is a function of the booking list and of the start
    of the reference day alone: two calls on the same list with reference
    times of the same day, and so two calls on the same list and the same
    reference time, return the same array, with the same length, the same
    alert at every index and the same ids in the same order. *)
Theorem buildAlerts_deterministic `{DateHost} (bs bs' : list MockBooking.t)
    (today today' : JSDate) :
  bs = bs' ->
  startOfDay today = startOfDay today' ->
  buildAlerts bs today = buildAlerts bs' today'
  /\ List.length (buildAlerts bs today) = List.length (buildAlerts bs' today')
  /\ (forall i, nth_error (buildAlerts bs today) i = nth_error (buildAlerts bs' today') i)
  /\ map AlertDefinition.id (buildAlerts bs today)
     = map AlertDefinition.id (buildAlerts bs' today').
Proof.
  intros <- Hday.
  assert (E : buildAlerts bs today = buildAlerts bs today')
    by (unfold buildAlerts; now rewrite Hday).
  rewrite E. repeat split.
Qed.

(** ** C8: which alerts carry a booking id *)

Section SampleFold.
Context {X : Type} (bk : X -> MockBooking.t) (al : X -> HallAllocation.t).
Variable Q : Z -> Prop.

Lemma sample_fold_Some (l : list X) (u : HallSlotUsage.t) :
  (exists i, HallSlotUsage.sampleBookingId u = Some i /\ Q i) ->
  (forall x, In x l -> Q (MockBooking.id (bk x))) ->
  exists u' i,
    fold_left (fun o x => Some (nextUsage o (bk x) (al x))) l (Some u) = Some u'
    /\ HallSlotUsage.sampleBookingId u' = Some i /\ Q i.
Proof.
  revert u. induction l as [|x l IH]; intros u (i & Ei & Qi) Hl.
  - exists u, i. auto.
  - cbn [fold_left]. apply IH; [|intros; apply Hl; now right].
    unfold nextUsage. cbn [from_option mbind option_bind].
    destruct (_ <=? _); cbn [HallSlotUsage.sampleBookingId].
    + eexists. split; [reflexivity|]. apply Hl. now left.
    + rewrite Ei. eauto.
Qed.

Lemma sample_fold_None (l : list X) :
  l <> [] ->
  (forall x, In x l -> 0 <= HallAllocation.guestsHere (al x)) ->
  (forall x, In x l -> Q (MockBooking.id (bk x))) ->
  exists u' i,
    fold_left (fun o x => Some (nextUsage o (bk x) (al x))) l None = Some u'
    /\ HallSlotUsage.sampleBookingId u' = Some i /\ Q i.
Proof.
  destruct l as [|x l]; [congruence|]. intros _ Hpos Hl.
  cbn [fold_left]. apply sample_fold_Some; [|intros; apply Hl; now right].
  unfold nextUsage. cbn [from_option].
  pose proof (Hpos x (or_introl eq_refl)) as Hx.
  destruct (Z.leb_spec 0 (HallAllocation.guestsHere (al x))); [|lia].
  cbn [HallSlotUsage.sampleBookingId]. eexists. split; [reflexivity|].
  apply Hl. now left.
Qed.
End SampleFold.

Section Linkage.
Context `{DateHost}.

Lemma allocations_In (bs : list MockBooking.t) (x : MockBooking.t * HallAllocation.t) :
  In x (allocations bs) ->
  In (fst x) bs /\ In (snd x) (MockBooking.halls (fst x)).
Proof.
  unfold allocations. intros Hx. apply in_flat_map in Hx as (b & Hb & Hx).
  apply in_map_iff in Hx as (h & <- & Hh). auto.
Qed.

Lemma slotHall_entry_members (bs : list MockBooking.t) (e : string * list MockBooking.t) :
  In e (JSMap.entries (slotHallBookings (buildIndex bs))) ->
  forall b, In b (snd e) -> In b bs.
Proof.
  intros He. destruct (slotHall_key_form bs e He) as (x & _ & Ek).
  destruct e as [k l]. cbn [fst snd] in *. subst k.
  apply In_entries_get in He; [|apply slotHall_keys_NoDup].
  unfold allocKey in He. rewrite get_slotHall in He.
  destruct (allocations_at _ _ _ _) as [|y l'] eqn:El; [discriminate|].
  injection He as <-. intros b Hb.
  change (In b (map fst (y :: l'))) in Hb.
  apply in_map_iff in Hb as (z & <- & Hz). rewrite <- El in Hz.
  apply filter_In in Hz as [Hz _]. now apply allocations_In in Hz.
Qed.

Lemma usage_entry_sample (bs : list MockBooking.t) (e : string * HallSlotUsage.t) :
  Forall (fun b => Forall (fun h => 0 <= HallAllocation.guestsHere h)
                          (MockBooking.halls b)) bs ->
  In e (JSMap.entries (hallSlotUsage (buildIndex bs))) ->
  exists b, In b bs
            /\ HallSlotUsage.sampleBookingId (snd e) = Some (MockBooking.id b).
Proof.
  intros Hpos He. destruct (usage_key_form bs e He) as (x & Hx & Ek).
  destruct e as [k u]. cbn [fst snd] in *. subst k.
  apply In_entries_get in He; [|apply usage_keys_NoDup].
  unfold allocKey in He. rewrite get_usage in He.
  destruct (sample_fold_None fst snd
              (fun i => exists b, In b bs /\ i = MockBooking.id b)
              (allocations_at bs (bookingDateKey (fst x)) (MockBooking.slot (fst x))
                 (HallAllocation.hallCode (snd x))))
    as (u' & i & Eu & Ei & (b & Hb & ->)).
  - intros E. assert (Hin : In x (allocations_at bs (bookingDateKey (fst x))
                                    (MockBooking.slot (fst x))
                                    (HallAllocation.hallCode (snd x)))).
    { apply filter_In. split; [assumption|]. now apply at_key_spec. }
    rewrite E in Hin. destruct Hin.
  - intros y Hy. apply filter_In in Hy as [Hy _].
    apply allocations_In in Hy as [Hb Hh].
    rewrite Forall_forall in Hpos. specialize (Hpos _ Hb).
    rewrite Forall_forall in Hpos. now apply Hpos.
  - intros y Hy. apply filter_In in Hy as [Hy _].
    apply allocations_In in Hy as [Hb _]. eauto.
  - rewrite Eu in He. injection He as <-. eauto.
Qed.
End Linkage.

(** C8, as the engine has it.  Every [COMPLEX_MULTI_HALL_DAY] alert has an
    absent booking id.  A [PERFORMANCE_HALL_CONFLICT] alert carries the id
    of a booking of the list that has a performance, and, guest counts
    being non-negative, a [CAPACITY_OVERRIDE] alert carries the id of a
    booking of the list (the sample booking of its aggregate); every
    per-booking alert carries the id of a booking of the list. *)
Theorem aggregate_alert_linkage `{DateHost} (bs : list MockBooking.t) (today : JSDate) :
  Forall (fun a =>
            (AlertDefinition.type a = COMPLEX_MULTI_HALL_DAY ->
             AlertDefinition.bookingId a = None)
            /\ (AlertDefinition.type a = PERFORMANCE_HALL_CONFLICT ->
                exists b, In b bs /\ MockBooking.hasPerformance b = true
                          /\ AlertDefinition.bookingId a = Some (MockBooking.id b))
            /\ (is_booking_type (AlertDefinition.type a) = true ->
                exists b, In b bs
                          /\ AlertDefinition.bookingId a = Some (MockBooking.id b)))
         (buildAlerts bs today)
  /\ (Forall (fun b => Forall (fun h => 0 <= HallAllocation.guestsHere h)
                              (MockBooking.halls b)) bs ->
      Forall (fun a =>
                AlertDefinition.type a = CAPACITY_OVERRIDE ->
                exists b, In b bs
                          /\ AlertDefinition.bookingId a = Some (MockBooking.id b))
             (buildAlerts bs today)).
Proof.
  split.
  - unfold buildAlerts. rewrite !Forall_app. repeat split.
    + apply Forall_flat_map. intros e _.
      eapply Forall_impl; [|apply capacityAlert_type]. intros a Ha.
      cbv beta in Ha. rewrite Ha. repeat split; discriminate.
    + apply Forall_flat_map. intros e He.
      pose proof (slotHall_entry_members bs e He) as Hmem.
      destruct e as [k l]. cbn [snd] in Hmem. unfold performanceAlert.
      destruct (_ <=? _)%nat; [constructor|].
      destruct (existsb MockBooking.hasPerformance l) eqn:Ex; [|constructor].
      cbn [negb]. repeat constructor; cbn; try discriminate.
      intros _. destruct (find MockBooking.hasPerformance l) as [b|] eqn:Ef.
      * apply find_some in Ef as [Hb Hp]. exists b. cbn. auto.
      * apply existsb_exists in Ex as (b & Hb & Hp).
        now rewrite (find_none _ _ Ef b Hb) in Hp.
    + apply Forall_flat_map. intros b Hb. apply Forall_forall. intros a Ha.
      pose proof (bookingAlerts_type (startOfDay today)
                    (addDays (startOfDay today) 15) b) as Hbt.
      rewrite Forall_forall in Hbt. specialize (Hbt a Ha).
      destruct (booking_rule_shape (AlertDefinition.type a) (startOfDay today)
                  (addDays (startOfDay today) 15) b) as [_ Hsh].
      rewrite Forall_forall in Hsh.
      destruct (Hsh a) as [_ Ebid].
      { apply filter_In. split; [assumption|].
        unfold has_type. now destruct (AlertDefinition.type a). }
      repeat split; try (intros E; rewrite E in Hbt; discriminate). eauto.
    + apply Forall_flat_map. intros e _. destruct e as [k l]. unfold complexAlert.
      destruct (_ <=? _)%nat; [constructor|].
      destruct (_ || _); repeat constructor; cbn; discriminate.
  - intros Hpos. unfold buildAlerts. rewrite !Forall_app. repeat split.
    + apply Forall_flat_map. intros e He.
      destruct (usage_entry_sample bs e Hpos He) as (b & Hb & Eb).
      destruct e as [k u]. cbn [snd] in Eb. unfold capacityAlert.
      destruct (_ <=? _); repeat constructor. cbn. eauto.
    + apply Forall_flat_map. intros e _.
      eapply Forall_impl; [|apply performanceAlert_type]. intros a Ha.
      cbv beta in Ha. rewrite Ha. discriminate.
    + apply Forall_flat_map. intros b _.
      eapply Forall_impl; [|apply bookingAlerts_type]. intros a Ha E.
      cbv beta in Ha. rewrite E in Ha. discriminate.
    + apply Forall_flat_map. intros e _.
      eapply Forall_impl; [|apply complexAlert_type]. intros a Ha.
      cbv beta in Ha. rewrite Ha. discriminate.
Qed.

(** ** C9: load normalization *)

Lemma normalize_snoc (now : string) (l : list (string * json)) (e : string * json) :
  normalizeResolutions now (JObj (l ++ [e]))
  = normalizeStep now (normalizeResolutions now (JObj l)) e.
Proof. unfold normalizeResolutions. simpl. now rewrite fold_left_app. Qed.

Lemma normalize_drop (now : string) (before after : list (string * json))
    (e : string * json) :
  normalizeEntry now (fst e) (snd e) = None ->
  normalizeResolutions now (JObj (before ++ e :: after))
  = normalizeResolutions now (JObj (before ++ after)).
Proof.
  intros He. unfold normalizeResolutions. simpl.
  rewrite !fold_left_app. simpl. unfold normalizeStep at 2. now rewrite He.
Qed.

Lemma assoc_In (name : string) (v : json) (props : list (string * json)) :
  List.NoDup (map fst props) -> In (name, v) props -> assoc name props = Some v.
Proof.
  induction props as [|[k w] props IH]; cbn [map fst assoc In]; [tauto|].
  intros Hnd Hin. inversion Hnd as [|? ? Hnotin Hnd']; subst.
  destruct (String.eqb_spec k name) as [->|Hne].
  - destruct Hin as [E|Hin]; [congruence|].
    exfalso. apply Hnotin. apply (in_map fst) in Hin. exact Hin.
  - destruct Hin as [E|Hin]; [congruence | auto].
Qed.

Lemma assoc_Some_In (name : string) (v : json) (props : list (string * json)) :
  assoc name props = Some v -> In (name, v) props.
Proof.
  induction props as [|[k w] props IH]; cbn [assoc In]; [discriminate|].
  destruct (String.eqb_spec k name) as [->|Hne]; [intros [= ->]; now left | auto].
Qed.

(** What the code reads of an object is what the object says. *)
Lemma str_prop_of_object (name : string) (props : list (string * json))
    (o : option string) :
  List.NoDup (map fst props) ->
  string_property props name o ->
  str_prop name (JObj props) = o.
Proof.
  intros Hnd Ho. unfold str_prop. destruct o as [s|]; cbn [string_property] in Ho.
  - now rewrite (assoc_In _ _ _ Hnd Ho).
  - destruct (assoc name props) as [v|] eqn:E; [|reflexivity].
    destruct v; try reflexivity. apply assoc_Some_In in E. now apply Ho in E.
Qed.


(** ** C10: alert ids are pairwise distinct *)

Lemma id_prefix_inj (ty ty' : AlertType) (r r' : string) :
  id_prefix ty ++ r = id_prefix ty' ++ r' -> ty = ty'.
Proof. destruct ty, ty'; simpl; intros E; try reflexivity; discriminate E. Qed.

Lemma NoDup_flat_map_keyed {A B K C : Type} (key : A -> K) (f : B -> C)
    (g : A -> list B) (l : list A) :
  List.NoDup (map key l) ->
  (forall x, In x l -> List.NoDup (map f (g x))) ->
  (forall x y a b, In x l -> In y l -> In a (g x) -> In b (g y) ->
                   f a = f b -> key x = key y) ->
  List.NoDup (map f (flat_map g l)).
Proof.
  induction l as [|x l IH]; intros Hk Hg Hsep; [constructor|].
  cbn [flat_map map]. rewrite map_app.
  inversion Hk as [|? ? Hnotin Hk']; subst.
  apply NoDup_app.
  - apply Hg. now left.
  - apply IH; [assumption | intros; apply Hg; now right |].
    intros y z a b Hy Hz. apply Hsep; now right.
  - intros c Hc Hc'. apply in_map_iff in Hc as (a & <- & Ha).
    apply in_map_iff in Hc' as (b & Eb & Hb).
    apply in_flat_map in Hb as (y & Hy & Hb).
    apply Hnotin. apply in_map_iff. exists y. split; [|assumption].
    symmetry. apply (Hsep x y a b); auto; [now left | now right].
Qed.

(** Ids that fix the type, and distinct ids within each type, give
    distinct ids. *)
Lemma NoDup_ids_by_type (l : list AlertDefinition.t) :
  (forall a b, In a l -> In b l -> AlertDefinition.id a = AlertDefinition.id b ->
               AlertDefinition.type a = AlertDefinition.type b) ->
  (forall ty, List.NoDup (map AlertDefinition.id (filter (has_type ty) l))) ->
  List.NoDup (map AlertDefinition.id l).
Proof.
  induction l as [|a l IH]; intros Hty Hnd; [constructor|].
  cbn [map]. constructor.
  - intros Hin. apply in_map_iff in Hin as (b & Eb & Hb).
    assert (Et : AlertDefinition.type b = AlertDefinition.type a)
      by (apply Hty; [now right | now left | assumption]).
    specialize (Hnd (AlertDefinition.type a)). cbn [filter] in Hnd.
    assert (Ha : has_type (AlertDefinition.type a) a = true)
      by (unfold has_type; now destruct (AlertDefinition.type a)).
    rewrite Ha in Hnd. cbn [map] in Hnd. inversion Hnd as [|? ? Hnotin _]; subst.
    apply Hnotin. apply in_map_iff. exists b. split; [assumption|].
    apply filter_In. split; [assumption|].
    unfold has_type. rewrite Et. now destruct (AlertDefinition.type a).
  - apply IH.
    + intros x y Hx Hy. apply Hty; now right.
    + intros ty. specialize (Hnd ty). cbn [filter] in Hnd.
      destruct (has_type ty a); [|assumption].
      cbn [map] in Hnd. now inversion Hnd.
Qed.

Lemma NoDup_map_le1 {A B : Type} (f : A -> B) (l : list A) :
  (List.length l <= 1)%nat -> List.NoDup (map f l).
Proof.
  destruct l as [|x [|y l]]; simpl; intros Hl;
    [constructor | repeat constructor; simpl; tauto | lia].
Qed.

Section Distinct.
Context `{DateHost}.

Lemma capacityAlert_le1 (e : string * HallSlotUsage.t) :
  (List.length (capacityAlert e) <= 1)%nat.
Proof. destruct e. unfold capacityAlert. destruct (_ <=? _); simpl; lia. Qed.

Lemma performanceAlert_le1 (e : string * list MockBooking.t) :
  (List.length (performanceAlert e) <= 1)%nat.
Proof.
  destruct e. unfold performanceAlert.
  destruct (_ <=? _)%nat; [simpl; lia|]. destruct (negb _); simpl; lia.
Qed.

Lemma complexAlert_le1 (e : string * list MockBooking.t) :
  (List.length (complexAlert e) <= 1)%nat.
Proof.
  destruct e. unfold complexAlert.
  destruct (_ <=? _)%nat; [simpl; lia|]. destruct (_ || _); simpl; lia.
Qed.

(** Every alert id starts with the prefix of its type. *)
Lemma id_has_prefix (bs : list MockBooking.t) (today : JSDate) :
  Forall (fun a => exists rest,
              AlertDefinition.id a = id_prefix (AlertDefinition.type a) ++ rest)
         (buildAlerts bs today).
Proof.
  unfold buildAlerts. rewrite !Forall_app. repeat split.
  - apply Forall_flat_map. intros e He.
    destruct (usage_key_form bs e He) as (x & _ & Ek).
    destruct e as [key u]. simpl in Ek. subst key.
    pose proof (capacityAlert_id x u) as Hid.
    pose proof (capacityAlert_type (allocKey x, u)) as Hty.
    rewrite Forall_forall in *. intros a Ha.
    rewrite (Hid a Ha), (Hty a Ha). unfold capacityId. simpl. eauto.
  - apply Forall_flat_map. intros e He.
    destruct (slotHall_key_form bs e He) as (x & _ & Ek).
    destruct e as [key u]. simpl in Ek. subst key.
    pose proof (performanceAlert_id x u) as Hid.
    pose proof (performanceAlert_type (allocKey x, u)) as Hty.
    rewrite Forall_forall in *. intros a Ha.
    rewrite (Hid a Ha), (Hty a Ha). unfold perfConflictId. simpl. eauto.
  - apply Forall_flat_map. intros b _. apply Forall_forall. intros a Ha.
    pose proof (bookingAlerts_type (startOfDay today)
                  (addDays (startOfDay today) 15) b) as Hbt.
    rewrite Forall_forall in Hbt. specialize (Hbt a Ha).
    destruct (booking_rule_shape (AlertDefinition.type a) (startOfDay today)
                (addDays (startOfDay today) 15) b) as [_ Hsh].
    rewrite Forall_forall in Hsh.
    destruct (Hsh a) as [Eid _].
    + apply filter_In. split; [assumption|].
      unfold has_type. now destruct (AlertDefinition.type a).
    + rewrite Eid. unfold bookingAlertId. eauto.
  - apply Forall_flat_map. intros e He.
    destruct (daySlot_key_form bs e He) as (b & _ & Ek).
    destruct e as [key u]. simpl in Ek. subst key.
    pose proof (complexAlert_id b u) as Hid.
    pose proof (complexAlert_type (bookingKey b, u)) as Hty.
    rewrite Forall_forall in *. intros a Ha.
    rewrite (Hid a Ha), (Hty a Ha). unfold complexId. simpl. eauto.
Qed.
End Distinct.

Lemma filter_booking_clash0 (ty' : AlertType) (l : list AlertDefinition.t) :
  Forall (fun a => is_booking_type (AlertDefinition.type a) = true) l ->
  is_booking_type ty' = false ->
  filter (has_type ty') l = [].
Proof.
  intros Hl Hne. apply filter_none. eapply Forall_impl; [|exact Hl].
  intros a Ha. unfold has_type. cbv beta in Ha.
  destruct (AlertDefinition.type a), ty'; simpl in *; congruence.
Qed.

Section Stages.
Context `{DateHost}.

Lemma filter_type_capacity (bs : list MockBooking.t) (today : JSDate) :
  filter (has_type CAPACITY_OVERRIDE) (buildAlerts bs today)
  = flat_map capacityAlert (JSMap.entries (hallSlotUsage (buildIndex bs))).
Proof.
  rewrite filter_buildAlerts.
  rewrite (filter_rule CAPACITY_OVERRIDE _ (flat_map capacityAlert _))
    by (apply Forall_flat_map; intros; apply capacityAlert_type).
  rewrite (filter_rule PERFORMANCE_HALL_CONFLICT _ (flat_map performanceAlert _))
    by (apply Forall_flat_map; intros; apply performanceAlert_type).
  rewrite (filter_rule COMPLEX_MULTI_HALL_DAY _ (flat_map complexAlert _))
    by (apply Forall_flat_map; intros; apply complexAlert_type).
  rewrite (filter_booking_clash0 _ (flat_map (bookingAlerts _ _) _))
    by (try reflexivity; apply Forall_flat_map; intros; apply bookingAlerts_type).
  cbn [AlertType_eqb]. now rewrite !app_nil_r.
Qed.

Lemma filter_type_performance (bs : list MockBooking.t) (today : JSDate) :
  filter (has_type PERFORMANCE_HALL_CONFLICT) (buildAlerts bs today)
  = flat_map performanceAlert (JSMap.entries (slotHallBookings (buildIndex bs))).
Proof.
  rewrite filter_buildAlerts.
  rewrite (filter_rule CAPACITY_OVERRIDE _ (flat_map capacityAlert _))
    by (apply Forall_flat_map; intros; apply capacityAlert_type).
  rewrite (filter_rule PERFORMANCE_HALL_CONFLICT _ (flat_map performanceAlert _))
    by (apply Forall_flat_map; intros; apply performanceAlert_type).
  rewrite (filter_rule COMPLEX_MULTI_HALL_DAY _ (flat_map complexAlert _))
    by (apply Forall_flat_map; intros; apply complexAlert_type).
  rewrite (filter_booking_clash0 _ (flat_map (bookingAlerts _ _) _))
    by (try reflexivity; apply Forall_flat_map; intros; apply bookingAlerts_type).
  cbn [AlertType_eqb]. now rewrite !app_nil_r.
Qed.

Lemma filter_type_complex (bs : list MockBooking.t) (today : JSDate) :
  filter (has_type COMPLEX_MULTI_HALL_DAY) (buildAlerts bs today)
  = flat_map complexAlert (JSMap.entries (daySlotBookings (buildIndex bs))).
Proof.
  rewrite filter_buildAlerts.
  rewrite (filter_rule CAPACITY_OVERRIDE _ (flat_map capacityAlert _))
    by (apply Forall_flat_map; intros; apply capacityAlert_type).
  rewrite (filter_rule PERFORMANCE_HALL_CONFLICT _ (flat_map performanceAlert _))
    by (apply Forall_flat_map; intros; apply performanceAlert_type).
  rewrite (filter_rule COMPLEX_MULTI_HALL_DAY _ (flat_map complexAlert _))
    by (apply Forall_flat_map; intros; apply complexAlert_type).
  rewrite (filter_booking_clash0 _ (flat_map (bookingAlerts _ _) _))
    by (try reflexivity; apply Forall_flat_map; intros; apply bookingAlerts_type).
  reflexivity.
Qed.
End Stages.

(** C10.  For every booking list whose bookings have pairwise distinct
    ids, the ids of the alerts [buildAlerts] returns are pairwise distinct;
    every id starts with the prefix of its rule, and the nine prefixes tell
    the nine rules apart.  So the merged list never holds two alerts that
    look up the same resolution record. *)
Theorem alert_ids_distinct `{DateHost} (bs : list MockBooking.t) (today : JSDate) :
  List.NoDup (map MockBooking.id bs) ->
  List.NoDup (map AlertDefinition.id (buildAlerts bs today))
  /\ Forall (fun a => exists rest,
                AlertDefinition.id a = id_prefix (AlertDefinition.type a) ++ rest)
            (buildAlerts bs today)
  /\ (forall ty ty' rest rest',
        id_prefix ty ++ rest = id_prefix ty' ++ rest' -> ty = ty')
  /\ (forall resolutions,
        List.NoDup (map (fun m => AlertDefinition.id (AlertWithResolution.def m))
                        (mergeAlerts (buildAlerts bs today) resolutions))).
Proof.
  intros Hids.
  assert (Hnd : List.NoDup (map AlertDefinition.id (buildAlerts bs today)));
    [| split; [exact Hnd|];
       split; [apply id_has_prefix|];
       split; [apply id_prefix_inj|];
       intros resolutions; unfold mergeAlerts; rewrite map_map; exact Hnd ].
  apply NoDup_ids_by_type.
  - pose proof (id_has_prefix bs today) as Hp. rewrite Forall_forall in Hp.
    intros a b Ha Hb E.
    destruct (Hp a Ha) as (r & Ea), (Hp b Hb) as (r' & Eb).
    rewrite Ea, Eb in E. exact (id_prefix_inj _ _ _ _ E).
  - intros ty. destruct (is_booking_type ty) eqn:Ety.
    + rewrite (filter_type_booking ty) by assumption.
      apply (NoDup_flat_map_keyed MockBooking.id); [assumption | |].
      * intros b _. apply NoDup_map_le1. apply booking_rule_shape.
      * intros x y a b _ _ Ha Hb E.
        destruct (booking_rule_shape ty (startOfDay today)
                    (addDays (startOfDay today) 15) x) as [_ Hx].
        destruct (booking_rule_shape ty (startOfDay today)
                    (addDays (startOfDay today) 15) y) as [_ Hy].
        rewrite Forall_forall in Hx, Hy.
        destruct (Hx a Ha) as [Ea _], (Hy b Hb) as [Eb _].
        rewrite Ea, Eb in E. unfold bookingAlertId in E.
        apply append_inv_head in E. now apply num_str_inj.
    + destruct ty; try discriminate Ety.
      * rewrite filter_type_capacity.
        apply (NoDup_flat_map_keyed fst); [apply usage_keys_NoDup | |].
        -- intros e _. apply NoDup_map_le1. apply capacityAlert_le1.
        -- intros e e' a b He He' Ha Hb E.
           destruct (usage_key_form bs e He) as (x & _ & Ek).
           destruct (usage_key_form bs e' He') as (x' & _ & Ek').
           destruct e as [k u], e' as [k' u']. simpl in *. subst k k'.
           pose proof (capacityAlert_id x u) as Hx.
           pose proof (capacityAlert_id x' u') as Hx'.
           rewrite Forall_forall in Hx, Hx'.
           rewrite (Hx a Ha), (Hx' b Hb) in E.
           apply capacityId_inj in E as (E1 & E2 & E3).
           unfold allocKey. now rewrite E1, E2, E3.
      * rewrite filter_type_performance.
        apply (NoDup_flat_map_keyed fst); [apply slotHall_keys_NoDup | |].
        -- intros e _. apply NoDup_map_le1. apply performanceAlert_le1.
        -- intros e e' a b He He' Ha Hb E.
           destruct (slotHall_key_form bs e He) as (x & _ & Ek).
           destruct (slotHall_key_form bs e' He') as (x' & _ & Ek').
           destruct e as [k u], e' as [k' u']. simpl in *. subst k k'.
           pose proof (performanceAlert_id x u) as Hx.
           pose proof (performanceAlert_id x' u') as Hx'.
           rewrite Forall_forall in Hx, Hx'.
           rewrite (Hx a Ha), (Hx' b Hb) in E.
           apply perfConflictId_inj in E as (E1 & E2 & E3).
           unfold allocKey. now rewrite E1, E2, E3.
      * rewrite filter_type_complex.
        apply (NoDup_flat_map_keyed fst); [apply daySlot_keys_NoDup | |].
        -- intros e _. apply NoDup_map_le1. apply complexAlert_le1.
        -- intros e e' a b He He' Ha Hb E.
           destruct (daySlot_key_form bs e He) as (x & _ & Ek).
           destruct (daySlot_key_form bs e' He') as (x' & _ & Ek').
           destruct e as [k u], e' as [k' u']. simpl in *. subst k k'.
           pose proof (complexAlert_id x u) as Hx.
           pose proof (complexAlert_id x' u') as Hx'.
           rewrite Forall_forall in Hx, Hx'.
           rewrite (Hx a Ha), (Hx' b Hb) in E.
           apply complexId_inj in E as (E1 & E2).
           unfold bookingKey. now rewrite E1, E2.
Qed.

(** ** The engine on concrete bookings

    All on the reference host. *)

(** The scenario of the specification: one critical alert for the three
    bookings together, reporting 1100, 1000 and 3. *)
Example overbooked_day_alerts :
  buildAlerts overbooked_day ref_today
  = [ overbooked_alert;
      {| AlertDefinition.id := "complex-multihall-2025-11-15-DINNER";
         AlertDefinition.type := COMPLEX_MULTI_HALL_DAY;
         AlertDefinition.severity := info;
         AlertDefinition.title := "Complex multi-hall slot";
         AlertDefinition.message :=
           "3 events in this slot, with 0 using multiple halls (Dinner on 2025-11-15).";
         AlertDefinition.sub :=
           Some "Worth reviewing allocations, timings, and movement carefully.";
         AlertDefinition.bookingId := None;
         AlertDefinition.dateKey := Some "2025-11-15";
         AlertDefinition.slot := Some "DINNER" |} ].
Proof. vm_compute. reflexivity. Qed.

(** [used > capacity] is taken literally for a capacity of 0. *)
Example zero_capacity_alerts :
  map AlertDefinition.id (buildAlerts zero_capacity ref_today)
  = ["cap-2025-11-15-DINNER-A"].
Proof. vm_compute. reflexivity. Qed.

(** Reference day 13 Nov 2025: the 12th is past, the 13th and the 28th are
    in the window, the 29th is not. *)
Example soft_bookings_alerts :
  map AlertDefinition.id (buildAlerts soft_bookings ref_today)
  = ["past-open-1"; "soft-follow-2"; "soft-follow-3"].
Proof. vm_compute. reflexivity. Qed.

Example split_bookings_alerts :
  map AlertDefinition.id (buildAlerts split_bookings ref_today)
  = ["split-mismatch-2"].
Proof. vm_compute. reflexivity. Qed.

Example legacy_store_loads :
  map_to_list (normalizeResolutions "2025-11-13T02:13:20.000Z" legacy_store)
  = [ ("soft-follow-3",
       {| AlertResolution.alertId := "soft-follow-3";
          AlertResolution.status := ACTIVE;
          AlertResolution.note := Some "call back";
          AlertResolution.updatedAt := "2025-11-02T09:00:00.000Z" |});
      ("cap-2025-11-15-DINNER-A",
       {| AlertResolution.alertId := "cap-2025-11-15-DINNER-A";
          AlertResolution.status := DISMISSED;
          AlertResolution.note := Some "owner approved";
          AlertResolution.updatedAt := "2025-11-01T10:00:00.000Z" |}) ].
Proof. vm_compute. reflexivity. Qed.

(** *** Where the specification and the engine part *)



(** C6 as stated fails: the note read back after a dismiss is the trimmed
    note, not the note as given. *)
Lemma dismiss_note_is_trimmed :
  let dismissed :=
    dismissAlert "2025-11-13T02:13:20.000Z" "cap-2025-11-15-DINNER-A"
      (Some " approved") ∅ in
  let merged := mergeAlerts (buildAlerts overbooked_day ref_today) dismissed in
  map (fun m => (AlertDefinition.id (AlertWithResolution.def m),
                 AlertWithResolution.effectiveStatus m,
                 AlertWithResolution.resolution m ≫= AlertResolution.note))
      merged
  = [ ("cap-2025-11-15-DINNER-A", DISMISSED, Some "approved");
      ("complex-multihall-2025-11-15-DINNER", ACTIVE, None) ]
  /\ Some "approved" <> Some " approved".
Proof. vm_compute. split; [reflexivity | discriminate]. Qed.

(** C8 as stated fails: the capacity alert of the scenario and the
    conflict alert of a shared performance both carry a booking id. *)
Lemma aggregate_alerts_carry_booking_id :
  map (fun a => (AlertDefinition.type a, AlertDefinition.bookingId a))
      (buildAlerts overbooked_day ref_today)
  = [ (CAPACITY_OVERRIDE, Some 1); (COMPLEX_MULTI_HALL_DAY, None) ]
  /\ map (fun a => (AlertDefinition.type a, AlertDefinition.bookingId a))
         (buildAlerts shared_performance ref_today)
     = [ (PERFORMANCE_HALL_CONFLICT, Some 1) ]
  /\ Some 1 <> @None Z.
Proof. vm_compute. repeat split; discriminate. Qed.

(** *** The theorems at concrete bookings *)

Lemma shared_performance_one_per_hall : Forall one_allocation_per_hall shared_performance.
Proof.
  repeat constructor; unfold one_allocation_per_hall; simpl;
    repeat constructor; simpl; tauto.
Qed.



Lemma overbooked_alert_emitted : In overbooked_alert (buildAlerts overbooked_day ref_today).
Proof. rewrite overbooked_day_alerts. now left. Qed.

Lemma dismiss_reopen_round_trip_witness :
  In overbooked_alert (buildAlerts overbooked_day ref_today)
  /\ Forall (fun m =>
              AlertDefinition.id (AlertWithResolution.def m)
              = AlertDefinition.id overbooked_alert ->
              AlertWithResolution.effectiveStatus m = DISMISSED
              /\ AlertWithResolution.resolution m ≫= AlertResolution.note
                 = Some "approved")
           (mergeAlerts (buildAlerts overbooked_day ref_today)
              (dismissAlert "2025-11-13T02:13:20.000Z"
                 (AlertDefinition.id overbooked_alert) (Some "approved") ∅)).
Proof.
  split; [exact overbooked_alert_emitted|].
  exact (proj1 (proj2 (dismiss_reopen_round_trip overbooked_day ref_today
                         overbooked_alert "2025-11-13T02:13:20.000Z"
                         (Some "approved") ∅ overbooked_alert_emitted))).
Defined.

Lemma same_reference_day : startOfDay ref_today = startOfDay ref_today_later.
Proof. reflexivity. Qed.

Lemma buildAlerts_deterministic_witness :
  overbooked_day = overbooked_day
  /\ startOfDay ref_today = startOfDay ref_today_later
  /\ buildAlerts overbooked_day ref_today = buildAlerts overbooked_day ref_today_later.
Proof.
  split; [reflexivity|]. split; [exact same_reference_day|].
  exact (proj1 (buildAlerts_deterministic overbooked_day overbooked_day
                  ref_today ref_today_later eq_refl same_reference_day)).
Defined.

Lemma overbooked_day_guests_nonneg :
  Forall (fun b => Forall (fun h => 0 <= HallAllocation.guestsHere h)
                          (MockBooking.halls b)) overbooked_day.
Proof. repeat constructor; simpl; lia. Qed.

Lemma aggregate_alert_linkage_witness :
  Forall (fun b => Forall (fun h => 0 <= HallAllocation.guestsHere h)
                          (MockBooking.halls b)) overbooked_day
  /\ Forall (fun a =>
               AlertDefinition.type a = CAPACITY_OVERRIDE ->
               exists b, In b overbooked_day
                         /\ AlertDefinition.bookingId a = Some (MockBooking.id b))
            (buildAlerts overbooked_day ref_today).
Proof.
  split; [exact overbooked_day_guests_nonneg|].
  exact (proj2 (aggregate_alert_linkage overbooked_day ref_today)
               overbooked_day_guests_nonneg).
Defined.

Ltac no_string_property :=
  let s := fresh "s" in
  let E := fresh "E" in
  intros s E; simpl in E;
  repeat (destruct E as [E|E]; [discriminate E|]);
  exact E.


Lemma overbooked_day_ids_distinct : List.NoDup (map MockBooking.id overbooked_day).
Proof. repeat constructor; simpl; intuition discriminate. Qed.

Lemma alert_ids_distinct_witness :
  List.NoDup (map MockBooking.id overbooked_day)
  /\ List.NoDup (map AlertDefinition.id (buildAlerts overbooked_day ref_today)).
Proof.
  split; [exact overbooked_day_ids_distinct|].
  exact (proj1 (alert_ids_distinct overbooked_day ref_today overbooked_day_ids_distinct)).
Defined.

(** * Further properties of the engine *)

Lemma filter_andb {A : Type} (p q : A -> bool) (l : list A) :
  filter (fun a => p a && q a) l = filter q (filter p l).
Proof.
  induction l as [|x l IH]; simpl; [reflexivity|].
  destruct (p x); simpl; [destruct (q x)|]; now rewrite IH.
Qed.

(** ** The complex multi-hall rule, per (date, slot) key *)

Section Complex.
Context `{DateHost}.

Lemma filter_bookingKey (bs : list MockBooking.t) (dk : string) (slot : Slot) :
  filter (fun b => String.eqb (bookingKey b) (daySlotKey dk slot)) bs
  = day_group bs dk slot.
Proof.
  apply filter_ext. intros b. apply eq_true_iff_eq.
  rewrite String.eqb_eq, andb_true_iff, String.eqb_eq, Slot_eqb_eq. split.
  - apply daySlotKey_inj.
  - intros (E1 & E2). unfold bookingKey. now rewrite E1, E2.
Qed.

Lemma get_daySlot (bs : list MockBooking.t) (dk : string) (slot : Slot) :
  JSMap.get (daySlotKey dk slot) (daySlotBookings (buildIndex bs))
  = match day_group bs dk slot with
    | [] => None
    | l => Some l
    end.
Proof.
  rewrite daySlotBookings_buildIndex, get_group_fold, filter_bookingKey.
  rewrite (list_fold_group (fun b => b)), map_id.
  now destruct (day_group bs dk slot).
Qed.

Lemma complex_hits_entry (bs : list MockBooking.t) (dk : string) (slot : Slot)
    (e : string * list MockBooking.t) :
  In e (JSMap.entries (daySlotBookings (buildIndex bs))) ->
  filter (fun a => String.eqb (AlertDefinition.id a) (complexId dk slot))
         (complexAlert e)
  = if String.eqb (fst e) (daySlotKey dk slot) then complexAlert e else [].
Proof.
  intros Hin. destruct (daySlot_key_form bs e Hin) as (b & _ & Ek).
  destruct e as [key l]. simpl in Ek. subst key. cbn [fst].
  pose proof (complexAlert_id b l) as Hid.
  destruct (String.eqb (bookingKey b) (daySlotKey dk slot)) eqn:E.
  - apply String.eqb_eq in E. apply daySlotKey_inj in E as (E1 & E2).
    apply filter_all. rewrite Forall_forall in *. intros a Ha.
    rewrite (Hid a Ha), E1, E2. apply String.eqb_refl.
  - apply String.eqb_neq in E.
    apply filter_none. rewrite Forall_forall in *. intros a Ha.
    rewrite (Hid a Ha). apply String.eqb_neq.
    intros Eid. apply complexId_inj in Eid as (E1 & E2).
    apply E. unfold bookingKey. now rewrite E1, E2.
Qed.

(** The alerts of a (date, slot) key come from the bookings of that date
    and slot. *)
Lemma complex_hits (bs : list MockBooking.t) (today : JSDate)
    (dk : string) (slot : Slot) :
  filter (fun a => has_type COMPLEX_MULTI_HALL_DAY a
                   && String.eqb (AlertDefinition.id a) (complexId dk slot))
         (buildAlerts bs today)
  = match day_group bs dk slot with
    | [] => []
    | l => complexAlert (daySlotKey dk slot, l)
    end.
Proof.
  rewrite filter_andb, filter_type_complex, filter_flat_map.
  rewrite (flat_map_ext_in _ _ _ (complex_hits_entry bs dk slot)).
  rewrite flat_map_filter, (filter_key_get _ _ (daySlot_keys_NoDup bs)).
  rewrite get_daySlot.
  destruct (day_group bs dk slot); simpl; [reflexivity | apply app_nil_r].
Qed.

Lemma day_group_dateKey (bs : list MockBooking.t) (dk : string) (slot : Slot)
    (b : MockBooking.t) :
  In b (day_group bs dk slot) -> bar_free dk = true.
Proof.
  intros Hb. apply filter_In in Hb as [_ Hb].
  apply andb_true_iff in Hb as [E _]. apply String.eqb_eq in E.
  rewrite <- E. apply bar_free_bookingDateKey.
Qed.
End Complex.

(** X1.  For every booking list, reference time and (date, slot) pair,
    [buildAlerts] emits exactly one [COMPLEX_MULTI_HALL_DAY] alert with the
    id [complex-multihall-{dateKey}-{slot}] when the bookings of that date
    and slot number more than one and either at least two of them use more
    than one hall or they number at least three, and none otherwise.  The
    alert is informational, linked to no booking, carries the date key and
    the slot, and its message counts the bookings of the group and those
    using several halls, dated by the label of the first of the latter
    (the date key when there is none). *)
Theorem complex_multi_hall_per_slot `{DateHost} (bs : list MockBooking.t)
    (today : JSDate) (dk : string) (slot : Slot) :
  let group := day_group bs dk slot in
  let multi := filter multi_hall group in
  let hits :=
    filter (fun a => has_type COMPLEX_MULTI_HALL_DAY a
                     && String.eqb (AlertDefinition.id a) (complexId dk slot))
           (buildAlerts bs today) in
  List.length hits
  = (if (1 <? List.length group)%nat
        && ((2 <=? List.length multi)%nat || (3 <=? List.length group)%nat)
     then 1%nat else 0%nat)
  /\ Forall (fun a =>
               AlertDefinition.severity a = info
               /\ AlertDefinition.bookingId a = None
               /\ AlertDefinition.dateKey a = Some dk
               /\ AlertDefinition.slot a = Some (Slot_str slot)
               /\ AlertDefinition.message a
                  = num_str (Z.of_nat (List.length group))
                    ++ " events in this slot, with "
                    ++ num_str (Z.of_nat (List.length multi))
                    ++ " using multiple halls ("
                    ++ formatSlotShort slot ++ " on "
                    ++ from_option MockBooking.eventDateLabel dk (head multi)
                    ++ ").")
            hits.
Proof.
  cbv zeta. rewrite complex_hits.
  destruct (day_group bs dk slot) as [|b l] eqn:Eg.
  - split; [reflexivity | constructor].
  - assert (Hdk : bar_free dk = true).
    { apply (day_group_dateKey bs dk slot b). rewrite Eg. now left. }
    destruct (part_daySlotKey dk slot Hdk) as (P0 & P1).
    unfold complexAlert, multi_hall.
    rewrite Nat.ltb_antisym.
    destruct (List.length (b :: l) <=? 1)%nat; cbn [negb andb];
      [split; [reflexivity | constructor]|].
    destruct (_ || _); [|split; [reflexivity | constructor]].
    rewrite P0, P1. split; [reflexivity|].
    repeat constructor. now destruct slot.
Qed.

(** ** The per-booking rules that read one booking only *)

Section PerBooking.
Context `{DateHost}.

(** A rule of the per-booking pass that gives the alert [g b] exactly for
    the bookings passing [q] gives, over the whole list, those alerts in
    booking order. *)
Lemma booking_rule_alerts (ty : AlertType) (q : MockBooking.t -> bool)
    (g : MockBooking.t -> AlertDefinition.t) (bs : list MockBooking.t)
    (today : JSDate) :
  is_booking_type ty = true ->
  (forall t0 t15 b,
     filter (has_type ty) (bookingAlerts t0 t15 b) = if q b then [g b] else []) ->
  filter (has_type ty) (buildAlerts bs today) = map g (filter q bs).
Proof.
  intros Hty Hrule. rewrite (filter_type_booking ty) by exact Hty.
  induction bs as [|b bs IH]; [reflexivity|].
  cbn [flat_map filter]. rewrite IH, Hrule.
  now destruct (q b).
Qed.

Lemma blank_trim (s : string) : blank s = String.eqb (trim s) "".
Proof.
  unfold blank. destruct (String.eqb s "") eqn:E; [|reflexivity].
  apply String.eqb_eq in E. now subst s.
Qed.
End PerBooking.

(** X2.  The [MISSING_CONTACT] alerts of the output are, in booking order,
    one for each booking whose phone is empty or blank or whose address is
    absent, empty or blank; each is informational, has the id
    [missing-contact-{id}] and a message that names exactly what is
    lacking.  A booking with both details present adds none. *)
Theorem missing_contact_rule `{DateHost} (bs : list MockBooking.t) (today : JSDate) :
  let hits := filter (has_type MISSING_CONTACT) (buildAlerts bs today) in
  let lacking := filter (fun b => phone_missing b || address_missing b) bs in
  map AlertDefinition.id hits = map (bookingAlertId "missing-contact-") lacking
  /\ map AlertDefinition.message hits
     = map (fun b => MockBooking.eventTitle b ++ " is missing: "
                     ++ lacking_text b ++ ".") lacking
  /\ map AlertDefinition.bookingId hits
     = map (fun b => Some (MockBooking.id b)) lacking
  /\ Forall (fun a => AlertDefinition.severity a = info) hits.
Proof.
  cbv zeta.
  rewrite (booking_rule_alerts MISSING_CONTACT
             (fun b => phone_missing b || address_missing b)
             (fun b => {| AlertDefinition.id :=
                            "missing-contact-" ++ num_str (MockBooking.id b);
                          AlertDefinition.type := MISSING_CONTACT;
                          AlertDefinition.severity := info;
                          AlertDefinition.bookingId := Some (MockBooking.id b);
                          AlertDefinition.dateKey := Some (bookingDateKey b);
                          AlertDefinition.slot := Some (Slot_str (MockBooking.slot b));
                          AlertDefinition.title := "Missing contact details";
                          AlertDefinition.message :=
                            MockBooking.eventTitle b ++ " is missing: "
                            ++ lacking_text b ++ ".";
                          AlertDefinition.sub :=
                            Some ("Customer: " ++ MockBooking.customerName b ++ ". Add "
                                  ++ join " and "
                                       ((if phone_missing b then ["phone"] else [])
                                        ++ (if address_missing b then ["address"] else []))%list
                                  ++ " so it’s easier to reach them and keep records complete.")
                       |})).
  - rewrite !map_map. cbn [AlertDefinition.id AlertDefinition.message
                             AlertDefinition.bookingId].
    split; [reflexivity|]. split; [reflexivity|]. split; [reflexivity|].
    apply Forall_map. apply Forall_forall. reflexivity.
  - reflexivity.
  - intros t0 t15 b. rewrite filter_bookingAlerts.
    unfold missingContact, phone_missing, address_missing, lacking_text.
    rewrite blank_trim.
    unfold phone_missing, address_missing.
    destruct (MockBooking.customerAddress b) as [addr|];
      [rewrite blank_trim|];
      destruct (String.eqb (trim (MockBooking.customerPhone b)) "");
      try destruct (String.eqb (trim addr) ""); reflexivity.
Qed.

(** X3.  The size rules.  The [HIGH_GUEST_COUNT] alerts are, in booking
    order, one for each booking with at least 1500 total guests, with the
    id [high-guests-{id}]; the [HIGH_ADVANCE_VALUE] alerts one for each
    booking with an advance of at least 200000, with the id
    [high-advance-{id}]; both bounds are included, a booking with no
    advance gets no advance alert, and all these alerts are
    informational. *)
Theorem size_threshold_rules `{DateHost} (bs : list MockBooking.t) (today : JSDate) :
  let guests := filter (has_type HIGH_GUEST_COUNT) (buildAlerts bs today) in
  let advances := filter (has_type HIGH_ADVANCE_VALUE) (buildAlerts bs today) in
  map AlertDefinition.id guests
  = map (bookingAlertId "high-guests-")
        (filter (fun b => 1500 <=? MockBooking.totalGuests b) bs)
  /\ map AlertDefinition.id advances
     = map (bookingAlertId "high-advance-") (filter high_advance bs)
  /\ Forall (fun a => AlertDefinition.severity a = info
                      /\ exists b, In b bs
                                   /\ AlertDefinition.bookingId a = Some (MockBooking.id b))
            (guests ++ advances).
Proof.
  cbv zeta.
  rewrite (booking_rule_alerts HIGH_GUEST_COUNT
             (fun b => 1500 <=? MockBooking.totalGuests b)
             (fun b => {| AlertDefinition.id :=
                            "high-guests-" ++ num_str (MockBooking.id b);
                          AlertDefinition.type := HIGH_GUEST_COUNT;
                          AlertDefinition.severity := info;
                          AlertDefinition.bookingId := Some (MockBooking.id b);
                          AlertDefinition.dateKey := Some (bookingDateKey b);
                          AlertDefinition.slot := Some (Slot_str (MockBooking.slot b));
                          AlertDefinition.title := "Very large guest count";
                          AlertDefinition.message :=
                            MockBooking.eventTitle b ++ " has "
                            ++ num_str (MockBooking.totalGuests b) ++ " guests planned.";
                          AlertDefinition.sub :=
                            Some "Large event – double-check staffing, kitchen capacity, parking, and entry/exit flow."
                       |}));
    [| reflexivity
     | intros t0 t15 b; rewrite filter_bookingAlerts; reflexivity].
  rewrite (booking_rule_alerts HIGH_ADVANCE_VALUE high_advance
             (fun b =>
                let amount := from_option AdvanceSummary.amount 0 (MockBooking.advance b) in
                let account :=
                  from_option AdvanceSummary.destinationAccount ""
                              (MockBooking.advance b) in
                {| AlertDefinition.id :=
                     "high-advance-" ++ num_str (MockBooking.id b);
                   AlertDefinition.type := HIGH_ADVANCE_VALUE;
                   AlertDefinition.severity := info;
                   AlertDefinition.bookingId := Some (MockBooking.id b);
                   AlertDefinition.dateKey := Some (bookingDateKey b);
                   AlertDefinition.slot := Some (Slot_str (MockBooking.slot b));
                   AlertDefinition.title := "High-value booking (advance)";
                   AlertDefinition.message :=
                     MockBooking.eventTitle b ++ " has an advance of Rs "
                     ++ toLocaleString_enPK amount ++ ".";
                   AlertDefinition.sub :=
                     Some ("Destination: " ++ account
                           ++ ". Keep an eye on finance follow-up and final payment.")
                |}));
    [| reflexivity
     | intros t0 t15 b; rewrite filter_bookingAlerts;
       unfold highAdvanceValue, high_advance;
       destruct (MockBooking.advance b) as [adv|]; [|reflexivity];
       now destruct (_ <=? _)].
  rewrite !map_map. cbn [AlertDefinition.id].
  split; [reflexivity|]. split; [reflexivity|].
  apply Forall_app. split; apply Forall_map; apply Forall_forall; intros b Hb;
    apply filter_In in Hb as [Hb _]; cbn; eauto.
Qed.

(** ** What a capacity alert says, and about which booking *)

Section BusiestFold.
Context {X : Type} (bk : X -> MockBooking.t) (al : X -> HallAllocation.t).

(** The sample kept by the running usage record is the allocation with the
    most guests, the last of them when several have as many. *)
Lemma busiest_fold (l : list X) :
  l <> [] ->
  Forall (fun x => 0 <= HallAllocation.guestsHere (al x)) l ->
  exists u l1 x l2,
    fold_left (fun o x => Some (nextUsage o (bk x) (al x))) l None = Some u
    /\ l = (l1 ++ x :: l2)%list
    /\ Forall (fun y => HallAllocation.guestsHere (al y)
                        <= HallAllocation.guestsHere (al x)) l1
    /\ Forall (fun y => HallAllocation.guestsHere (al y)
                        < HallAllocation.guestsHere (al x)) l2
    /\ HallSlotUsage.sampleBookingId u = Some (MockBooking.id (bk x))
    /\ HallSlotUsage.sampleDateLabel u = Some (MockBooking.eventDateLabel (bk x))
    /\ HallSlotUsage.sampleGuestsHere u = HallAllocation.guestsHere (al x).
Proof.
  induction l as [|y l IH] using rev_ind; [congruence|].
  intros _ Hpos. apply Forall_app in Hpos as [Hl Hy].
  inversion Hy as [|? ? Hy0 _]; subst. rewrite fold_left_app. cbn [fold_left].
  destruct l as [|z l'].
  - cbn [fold_left]. unfold nextUsage. cbn [from_option].
    destruct (Z.leb_spec 0 (HallAllocation.guestsHere (al y))); [|lia].
    eexists _, [], y, []. cbn. repeat split; constructor.
  - destruct (IH ltac:(discriminate) Hl) as (u & l1 & x & l2 & Eu & El & H1 & H2 & Ei & Ed & Eg).
    rewrite Eu. unfold nextUsage. cbn [from_option mbind option_bind].
    rewrite Eg.
    destruct (Z.leb_spec (HallAllocation.guestsHere (al x))
                         (HallAllocation.guestsHere (al y))) as [Hle|Hlt].
    + eexists _, (z :: l'), y, []. cbn [app].
      split; [reflexivity|]. split; [reflexivity|]. split.
      * rewrite El. apply Forall_app. split; [|constructor].
        -- eapply Forall_impl; [|exact H1]. intros w Hw. cbv beta in Hw. lia.
        -- lia.
        -- eapply Forall_impl; [|exact H2]. intros w Hw. cbv beta in Hw. lia.
      * repeat split. constructor.
    + eexists _, l1, x, (l2 ++ [y])%list.
      split; [reflexivity|]. split.
      * rewrite El, <- app_assoc. reflexivity.
      * split; [exact H1|]. split.
        -- apply Forall_app. split; [exact H2|]. constructor; [lia | constructor].
        -- cbn. rewrite Ei, Ed. repeat split.
Qed.
End BusiestFold.

(** X4.  Guest counts under a (date, slot, hallCode) key being
    non-negative, the [CAPACITY_OVERRIDE] alert of the key is linked to the
    booking of the allocation with the most guests under the key (the last
    such allocation when several have as many), is dated by that booking's
    label, and states the summed guests, the number of allocations and the
    largest capacity of the key. *)
Theorem capacity_alert_names_busiest `{DateHost} (bs : list MockBooking.t)
    (today : JSDate) (dk : string) (slot : Slot) (hall : HallCode) :
  let group := allocations_at bs dk slot hall in
  let guests := fun x : MockBooking.t * HallAllocation.t =>
                  HallAllocation.guestsHere (snd x) in
  let hits :=
    filter (fun a => has_type CAPACITY_OVERRIDE a
                     && String.eqb (AlertDefinition.id a) (capacityId dk slot hall))
           (buildAlerts bs today) in
  Forall (fun x => 0 <= guests x) group ->
  Forall (fun a =>
            exists l1 x l2 capacity,
              group = (l1 ++ x :: l2)%list
              /\ Forall (fun y => guests y <= guests x) l1
              /\ Forall (fun y => guests y < guests x) l2
              /\ max_capacity (map snd group) = Some capacity
              /\ AlertDefinition.bookingId a = Some (MockBooking.id (fst x))
              /\ AlertDefinition.title a
                 = "Capacity override – Hall " ++ HallCode_str hall
              /\ AlertDefinition.message a
                 = MockBooking.eventDateLabel (fst x) ++ " ("
                   ++ formatSlotShort slot ++ "): Hall " ++ HallCode_str hall
                   ++ " has " ++ num_str (guests_sum (map snd group))
                   ++ " guests across "
                   ++ num_str (Z.of_nat (List.length group))
                   ++ " event(s) for " ++ num_str capacity ++ " capacity.")
         hits.
Proof.
  cbv zeta. intros Hpos. rewrite capacity_hits, get_usage.
  destruct (allocations_at bs dk slot hall) as [|x0 l0] eqn:El;
    [constructor|].
  destruct (busiest_fold fst snd (x0 :: l0) ltac:(discriminate) Hpos)
    as (u & l1 & x & l2 & Eu & Edec & H1 & H2 & Ei & Ed & _).
  destruct (usage_fold_None fst snd (x0 :: l0)) as (u' & Eu' & Hused & Hcap & Hcount).
  rewrite Eu in Eu'. injection Eu' as <-. rewrite Eu.
  assert (Hx : In x0 (allocations_at bs dk slot hall)) by (rewrite El; now left).
  apply filter_In in Hx as [_ Hx]. apply at_key_spec in Hx as (E1 & _).
  assert (Hdk : bar_free dk = true)
    by (rewrite <- E1; apply bar_free_bookingDateKey).
  destruct (part_hallKey dk slot hall Hdk) as (P0 & P1 & P2).
  unfold capacityAlert. destruct (_ <=? _); [constructor|].
  constructor; [|constructor].
  exists l1, x, l2, (HallSlotUsage.capacity u).
  cbn [AlertDefinition.bookingId AlertDefinition.title AlertDefinition.message].
  rewrite P1, P2, Ei, Ed, Hused, Hcount. cbn [default].
  repeat split; try assumption; try (symmetry; assumption).
  now destruct slot.
Qed.

(** ** An aggregate alert depends on the bookings of its group only *)

Lemma filter_idem {A : Type} (f : A -> bool) (l : list A) :
  filter f (filter f l) = filter f l.
Proof.
  induction l as [|x l IH]; simpl; [reflexivity|].
  destruct (f x) eqn:E; simpl; [rewrite E|]; now rewrite ?IH.
Qed.

Section Locality.
Context `{DateHost}.

Lemma allocations_at_group (bs : list MockBooking.t) (dk : string) (slot : Slot)
    (hall : HallCode) :
  allocations_at (hall_group bs dk slot hall) dk slot hall
  = allocations_at bs dk slot hall.
Proof.
  unfold allocations_at, hall_group, allocations.
  induction bs as [|b bs IH]; [reflexivity|].
  cbn [filter flat_map]. rewrite filter_app.
  destruct (String.eqb (bookingDateKey b) dk && Slot_eqb (MockBooking.slot b) slot
            && uses_hall hall b) eqn:E.
  - cbn [flat_map]. now rewrite filter_app, IH.
  - rewrite IH.
    rewrite (filter_none (at_key dk slot hall) (map (pair b) (MockBooking.halls b)));
      [reflexivity|].
    apply Forall_forall. intros x Hx. apply in_map_iff in Hx as (h & <- & Hh).
    unfold at_key. cbn [fst snd].
    destruct (String.eqb (bookingDateKey b) dk && Slot_eqb (MockBooking.slot b) slot);
      cbn [andb] in *; [|reflexivity].
    destruct (HallCode_eqb (HallAllocation.hallCode h) hall) eqn:Eh; [|reflexivity].
    assert (Hu : uses_hall hall b = true)
      by (apply existsb_exists; exists h; auto).
    congruence.
Qed.
End Locality.

(** X5.  An aggregate alert is a function of the bookings of its group:
    the capacity and performance alerts of a (date, slot, hallCode) key are
    those the engine gives for the bookings of that date and slot that use
    the hall, and the complex multi-hall alert of a (date, slot) key those
    it gives for the bookings of that date and slot, all other bookings
    left out and whatever the reference time. *)
Theorem aggregate_alerts_depend_on_group `{DateHost} (bs : list MockBooking.t)
    (today today' : JSDate) (dk : string) (slot : Slot) (hall : HallCode) :
  filter (fun a => has_type CAPACITY_OVERRIDE a
                   && String.eqb (AlertDefinition.id a) (capacityId dk slot hall))
         (buildAlerts bs today)
  = filter (fun a => has_type CAPACITY_OVERRIDE a
                     && String.eqb (AlertDefinition.id a) (capacityId dk slot hall))
           (buildAlerts (hall_group bs dk slot hall) today')
  /\ filter (fun a => has_type PERFORMANCE_HALL_CONFLICT a
                      && String.eqb (AlertDefinition.id a) (perfConflictId dk slot hall))
            (buildAlerts bs today)
     = filter (fun a => has_type PERFORMANCE_HALL_CONFLICT a
                        && String.eqb (AlertDefinition.id a)
                             (perfConflictId dk slot hall))
              (buildAlerts (hall_group bs dk slot hall) today')
  /\ filter (fun a => has_type COMPLEX_MULTI_HALL_DAY a
                      && String.eqb (AlertDefinition.id a) (complexId dk slot))
            (buildAlerts bs today)
     = filter (fun a => has_type COMPLEX_MULTI_HALL_DAY a
                        && String.eqb (AlertDefinition.id a) (complexId dk slot))
              (buildAlerts (day_group bs dk slot) today').
Proof.
  split; [|split].
  - now rewrite !capacity_hits, !get_usage, allocations_at_group.
  - now rewrite !performance_hits, allocations_at_group.
  - rewrite !complex_hits. unfold day_group. now rewrite filter_idem.
Qed.

(** ** The two rules that read the date *)

Lemma has_type_refl (a : AlertDefinition.t) : has_type (AlertDefinition.type a) a = true.
Proof. unfold has_type. now destruct (AlertDefinition.type a). Qed.

Lemma NoDup_map_eq {A B : Type} (f : A -> B) (l : list A) (x y : A) :
  List.NoDup (map f l) -> In x l -> In y l -> f x = f y -> x = y.
Proof.
  induction l as [|z l IH]; simpl; [tauto|].
  intros Hnd Hx Hy E. inversion Hnd as [|? ? Hnotin Hnd']; subst.
  destruct Hx as [->|Hx], Hy as [->|Hy]; auto.
  - exfalso. apply Hnotin. rewrite E. now apply in_map.
  - exfalso. apply Hnotin. rewrite <- E. now apply in_map.
Qed.

Section DateRules.
Context `{DateHost}.

(** An alert of a per-booking type comes from a booking of the list. *)
Lemma booking_alert_source (bs : list MockBooking.t) (today : JSDate)
    (a : AlertDefinition.t) :
  is_booking_type (AlertDefinition.type a) = true ->
  In a (buildAlerts bs today) ->
  exists b, In b bs
            /\ In a (filter (has_type (AlertDefinition.type a))
                       (bookingAlerts (startOfDay today)
                          (addDays (startOfDay today) 15) b)).
Proof.
  intros Hty Hin.
  assert (Hf : In a (filter (has_type (AlertDefinition.type a)) (buildAlerts bs today)))
    by (apply filter_In; split; [assumption | apply has_type_refl]).
  rewrite (filter_type_booking _ _ _ Hty) in Hf.
  apply in_flat_map in Hf as (b & Hb & Ha). eauto.
Qed.

Lemma softFollowup_In (d : JSDate) (dk : string) (b : MockBooking.t) (t0 t15 : JSDate)
    (a : AlertDefinition.t) :
  In a (softFollowup d dk b t0 t15) ->
  AlertDefinition.bookingId a = Some (MockBooking.id b) /\ date_le t0 d = true.
Proof.
  unfold softFollowup.
  destruct (isSoftStatus _); cbn [andb]; [|intros []].
  destruct (date_le t0 d); cbn [andb]; [|intros []].
  destruct (date_le d t15); [|intros []].
  intros [<-|[]]. auto.
Qed.

Lemma pastNotClosed_In (d : JSDate) (dk : string) (b : MockBooking.t) (t0 : JSDate)
    (a : AlertDefinition.t) :
  In a (pastNotClosed d dk b t0) ->
  AlertDefinition.bookingId a = Some (MockBooking.id b) /\ date_lt d t0 = true.
Proof.
  unfold pastNotClosed.
  destruct (date_lt d t0); cbn [andb]; [|intros []].
  destruct (isOpenStatus _); [|intros []].
  intros [<-|[]]. auto.
Qed.

Lemma softFollowup_undated (dk : string) (b : MockBooking.t) (t0 t15 : JSDate) :
  softFollowup None dk b t0 t15 = [].
Proof.
  unfold softFollowup. destruct (isSoftStatus _), t0; reflexivity.
Qed.

Lemma pastNotClosed_undated (dk : string) (b : MockBooking.t) (t0 : JSDate) :
  pastNotClosed None dk b t0 = [].
Proof. reflexivity. Qed.

Lemma softFollowup_no_today (d : JSDate) (dk : string) (b : MockBooking.t)
    (t15 : JSDate) :
  softFollowup d dk b None t15 = [].
Proof. unfold softFollowup. now destruct (isSoftStatus _). Qed.

Lemma pastNotClosed_no_today (d : JSDate) (dk : string) (b : MockBooking.t) :
  pastNotClosed d dk b None = [].
Proof. unfold pastNotClosed. now destruct d. Qed.

Lemma date_rule_dated (ty : AlertType) (bs : list MockBooking.t) (today : JSDate) :
  ty = SOFT_BOOKING_FOLLOWUP \/ ty = PAST_NOT_CLOSED ->
  filter (has_type ty) (buildAlerts bs today)
  = filter (has_type ty)
      (buildAlerts (filter (fun b => is_some (bookingDate b)) bs) today).
Proof.
  intros Hty.
  rewrite !(filter_type_booking ty) by (destruct Hty; subst; reflexivity).
  induction bs as [|b bs IH]; [reflexivity|].
  cbn [flat_map filter]. rewrite IH.
  destruct (bookingDate b) eqn:Ed; cbn [is_some]; [reflexivity|].
  rewrite filter_bookingAlerts, Ed.
  destruct Hty; subst ty;
    [rewrite softFollowup_undated | rewrite pastNotClosed_undated]; reflexivity.
Qed.

Lemma date_rule_no_today (ty : AlertType) (bs : list MockBooking.t) :
  ty = SOFT_BOOKING_FOLLOWUP \/ ty = PAST_NOT_CLOSED ->
  filter (has_type ty) (buildAlerts bs None) = [].
Proof.
  intros Hty.
  rewrite (filter_type_booking ty) by (destruct Hty; subst; reflexivity).
  induction bs as [|b bs IH]; [reflexivity|].
  cbn [flat_map]. rewrite IH, filter_bookingAlerts. cbn [startOfDay].
  destruct Hty; subst ty;
    [rewrite softFollowup_no_today | rewrite pastNotClosed_no_today]; reflexivity.
Qed.
End DateRules.

(** X6.  Booking ids being pairwise distinct, no booking gets both a
    [SOFT_BOOKING_FOLLOWUP] and a [PAST_NOT_CLOSED] alert: the first asks
    for a date not before the start of the reference day, the second for a
    date before it. *)
Theorem followup_excludes_past `{DateHost} (bs : list MockBooking.t) (today : JSDate)
    (a a' : AlertDefinition.t) :
  List.NoDup (map MockBooking.id bs) ->
  In a (buildAlerts bs today) ->
  In a' (buildAlerts bs today) ->
  AlertDefinition.type a = SOFT_BOOKING_FOLLOWUP ->
  AlertDefinition.type a' = PAST_NOT_CLOSED ->
  AlertDefinition.bookingId a <> AlertDefinition.bookingId a'.
Proof.
  intros Hnd Ha Ha' Ety Ety' Eid.
  destruct (booking_alert_source bs today a) as (b & Hb & Hab);
    [now rewrite Ety | assumption |].
  destruct (booking_alert_source bs today a') as (b' & Hb' & Hab');
    [now rewrite Ety' | assumption |].
  rewrite Ety, filter_bookingAlerts in Hab.
  rewrite Ety', filter_bookingAlerts in Hab'.
  apply softFollowup_In in Hab as [Ei Hle].
  apply pastNotClosed_In in Hab' as [Ei' Hlt].
  assert (b = b') as <-.
  { apply (NoDup_map_eq MockBooking.id bs); try assumption. congruence. }
  unfold date_le, date_lt in *.
  destruct (startOfDay today), (bookingDate b); try discriminate. lia.
Qed.

(** X7.  Dates that do not parse.  The follow-up and past-not-closed alerts
    are those of the bookings whose date label parses: the others can be
    left out without changing them, whatever their status.  With an
    invalid reference time there is no such alert at all.  The date key of
    a booking whose label does not parse is [NaN-NaN-NaN], so that all
    such bookings share their keys. *)
Theorem undated_bookings_skip_date_rules `{DateHost} (bs : list MockBooking.t)
    (today : JSDate) :
  let dated := filter (fun b => is_some (bookingDate b)) bs in
  let undated := filter (fun b => negb (is_some (bookingDate b))) bs in
  filter (has_type SOFT_BOOKING_FOLLOWUP) (buildAlerts bs today)
  = filter (has_type SOFT_BOOKING_FOLLOWUP) (buildAlerts dated today)
  /\ filter (has_type PAST_NOT_CLOSED) (buildAlerts bs today)
     = filter (has_type PAST_NOT_CLOSED) (buildAlerts dated today)
  /\ filter (has_type SOFT_BOOKING_FOLLOWUP) (buildAlerts bs None) = []
  /\ filter (has_type PAST_NOT_CLOSED) (buildAlerts bs None) = []
  /\ Forall (fun b => bookingDateKey b = "NaN-NaN-NaN") undated.
Proof.
  cbv zeta.
  split; [apply date_rule_dated; now left|].
  split; [apply date_rule_dated; now right|].
  split; [apply date_rule_no_today; now left|].
  split; [apply date_rule_no_today; now right|].
  apply Forall_forall. intros b Hb. apply filter_In in Hb as [_ Hb].
  unfold bookingDateKey, bookingDate in *.
  destruct (parseEventDateLabel _); [discriminate | reflexivity].
Qed.

(** ** The order of the output *)

Lemma StronglySorted_app {A : Type} (R : A -> A -> Prop) (l1 l2 : list A) :
  StronglySorted R l1 -> StronglySorted R l2 ->
  (forall x y, In x l1 -> In y l2 -> R x y) ->
  StronglySorted R (l1 ++ l2).
Proof.
  induction 1 as [|x l1 Hs IH Hx]; intros H2 Hc; [exact H2|].
  cbn [app]. constructor.
  - apply IH; [assumption|]. intros; apply Hc; [now right | assumption].
  - apply Forall_app. split; [assumption|].
    apply Forall_forall. intros y Hy. apply Hc; [now left | assumption].
Qed.

Lemma StronglySorted_level {A : Type} (f : A -> nat) (k : nat) (l : list A) :
  Forall (fun a => f a = k) l ->
  StronglySorted (fun a a' => (f a <= f a')%nat) l.
Proof.
  induction 1 as [|x l Hx Hl IH]; constructor; [assumption|].
  eapply Forall_impl; [|exact Hl]. intros y Hy. cbv beta in Hy. lia.
Qed.

(** X8.  The output lists the alerts rule group by rule group: capacity
    overrides first, then performance conflicts, then the alerts of the
    per-booking rules, then the complex multi-hall alerts. *)
Theorem alerts_in_stage_order `{DateHost} (bs : list MockBooking.t) (today : JSDate) :
  StronglySorted
    (fun a a' => (stage (AlertDefinition.type a) <= stage (AlertDefinition.type a'))%nat)
    (buildAlerts bs today).
Proof.
  assert (H0 : Forall (fun a => stage (AlertDefinition.type a) = 0%nat)
                 (flat_map capacityAlert
                    (JSMap.entries (hallSlotUsage (buildIndex bs))))).
  { apply Forall_flat_map. intros e _.
    eapply Forall_impl; [|apply capacityAlert_type]. intros a Ha.
    cbv beta in Ha. now rewrite Ha. }
  assert (H1 : Forall (fun a => stage (AlertDefinition.type a) = 1%nat)
                 (flat_map performanceAlert
                    (JSMap.entries (slotHallBookings (buildIndex bs))))).
  { apply Forall_flat_map. intros e _.
    eapply Forall_impl; [|apply performanceAlert_type]. intros a Ha.
    cbv beta in Ha. now rewrite Ha. }
  assert (H2 : Forall (fun a => stage (AlertDefinition.type a) = 2%nat)
                 (flat_map (bookingAlerts (startOfDay today)
                              (addDays (startOfDay today) 15)) bs)).
  { apply Forall_flat_map. intros b _.
    eapply Forall_impl; [|apply bookingAlerts_type]. intros a Ha.
    cbv beta in Ha. now destruct (AlertDefinition.type a). }
  assert (H3 : Forall (fun a => stage (AlertDefinition.type a) = 3%nat)
                 (flat_map complexAlert
                    (JSMap.entries (daySlotBookings (buildIndex bs))))).
  { apply Forall_flat_map. intros e _.
    eapply Forall_impl; [|apply complexAlert_type]. intros a Ha.
    cbv beta in Ha. now rewrite Ha. }
  unfold buildAlerts.
  repeat apply StronglySorted_app;
    try (eapply StronglySorted_level; eassumption).
  all: intros x y Hx Hy; rewrite ?in_app_iff in Hy;
    rewrite Forall_forall in H0, H1, H2, H3;
    repeat match goal with
           | Hy : _ \/ _ |- _ => destruct Hy as [Hy|Hy]
           end;
    repeat match goal with
           | Hf : forall a, In a ?l -> _, Hin : In ?z ?l |- _ =>
               rewrite (Hf z Hin); clear Hin
           end; lia.
Qed.

(** ** Date keys and calendar days *)

Lemma two_digit_values_In (n : Z) : 0 <= n < 100 -> In n two_digit_values.
Proof.
  intros Hn. unfold two_digit_values. apply in_map_iff.
  exists (Z.to_nat n). split; [lia|]. apply in_seq. lia.
Qed.

Lemma pad2_two_chars (n : Z) :
  0 <= n < 100 -> exists c1 c2, pad2 n = String c1 (String c2 "").
Proof.
  intros Hn. apply two_digit_values_In in Hn.
  assert (Hall : Forall (fun n => exists c1 c2, pad2 n = String c1 (String c2 ""))
                        two_digit_values)
    by (vm_compute; repeat constructor; eauto).
  rewrite Forall_forall in Hall. now apply Hall.
Qed.

Lemma pad2_inj (a b : Z) :
  0 <= a < 100 -> 0 <= b < 100 -> pad2 a = pad2 b -> a = b.
Proof.
  intros Ha Hb E. apply two_digit_values_In in Ha, Hb.
  assert (Hall : forallb (fun x =>
                            forallb (fun y => implb (String.eqb (pad2 x) (pad2 y))
                                                    (x =? y))
                                    two_digit_values)
                         two_digit_values = true)
    by (vm_compute; reflexivity).
  rewrite forallb_forall in Hall. specialize (Hall a Ha).
  rewrite forallb_forall in Hall. specialize (Hall b Hb).
  apply String.eqb_eq in E. rewrite E in Hall. now apply Z.eqb_eq.
Qed.

(** X9.  On a host whose month index lies in 0..11 and whose day of the
    month lies in 1..31 for the two dates at hand, two valid dates have
    the same date key exactly when they fall on the same local calendar
    day; [toISODateString] gives the same string as [dateKey]. *)
Theorem dateKey_identifies_day `{DateHost} (t t' : Z) (d : JSDate) :
  toISODateString d = dateKey d
  /\ (0 <= local_month t < 12 -> 1 <= local_day t <= 31 ->
      0 <= local_month t' < 12 -> 1 <= local_day t' <= 31 ->
      (dateKey (Some t) = dateKey (Some t')
       <-> local_year t = local_year t' /\ local_month t = local_month t'
           /\ local_day t = local_day t')).
Proof.
  split; [reflexivity|]. intros Hm Hd Hm' Hd'. split.
  - unfold dateKey, getFullYear, getMonth, getDate. cbn [option_map js_String].
    fold (pad2 (local_month t + 1)) (pad2 (local_day t))
         (pad2 (local_month t' + 1)) (pad2 (local_day t')).
    intros E.
    destruct (pad2_two_chars (local_month t + 1)) as (m1 & m2 & Em); [lia|].
    destruct (pad2_two_chars (local_day t)) as (d1 & d2 & Ed); [lia|].
    destruct (pad2_two_chars (local_month t' + 1)) as (m1' & m2' & Em'); [lia|].
    destruct (pad2_two_chars (local_day t')) as (d1' & d2' & Ed'); [lia|].
    rewrite Em, Ed, Em', Ed' in E.
    apply (f_equal rchars) in E. rewrite !rchars_app in E.
    unfold rchars at 1 3 in E. cbn in E.
    injection E as E2 E1 E4 E3 Ey.
    apply rchars_inj, num_str_inj in Ey.
    assert (Emm : pad2 (local_month t + 1) = pad2 (local_month t' + 1))
      by (rewrite Em, Em'; congruence).
    assert (Edd : pad2 (local_day t) = pad2 (local_day t'))
      by (rewrite Ed, Ed'; congruence).
    apply pad2_inj in Emm; [|lia|lia]. apply pad2_inj in Edd; [|lia|lia].
    repeat split; lia.
  - intros (Ey & Em & Ed). unfold dateKey, getFullYear, getMonth, getDate.
    cbn [option_map]. now rewrite Ey, Em, Ed.
Qed.

(** * Further properties of the resolution store *)

(** ** Trimming twice is trimming once *)

Lemma string_of_list_ascii_app (l1 l2 : list ascii) :
  string_of_list_ascii (l1 ++ l2)
  = string_of_list_ascii l1 ++ string_of_list_ascii l2.
Proof. induction l1 as [|c l1 IH]; simpl; [reflexivity | now rewrite IH]. Qed.

Lemma str_rev_involutive (s : string) : str_rev (str_rev s) = s.
Proof.
  unfold str_rev. rewrite list_ascii_of_string_of_list_ascii, rev_involutive.
  apply string_of_list_ascii_of_string.
Qed.

Lemma str_rev_app (a b : string) : str_rev (a ++ b) = str_rev b ++ str_rev a.
Proof.
  unfold str_rev. now rewrite list_ascii_app, rev_app_distr, string_of_list_ascii_app.
Qed.

Lemma trimStart_fixed (s : string) : starts_ws s = false -> trimStart s = s.
Proof.
  destruct s as [|a [|b [|c r]]]; cbn [starts_ws trimStart];
    try reflexivity.
  all: destruct (is_ws1 a); cbn [orb]; intros E; try discriminate E; try reflexivity.
  all: destruct (is_ws2 a b); cbn [orb] in E; try discriminate E; try reflexivity.
  destruct (is_ws3 a b c); [discriminate E | reflexivity].
Qed.

Lemma trimStart_rev_fixed (s : string) : starts_ws_rev s = false -> trimStart_rev s = s.
Proof.
  destruct s as [|a [|b [|c r]]]; cbn [starts_ws_rev trimStart_rev];
    try reflexivity.
  all: destruct (is_ws1 a); cbn [orb]; intros E; try discriminate E; try reflexivity.
  all: destruct (is_ws2 b a); cbn [orb] in E; try discriminate E; try reflexivity.
  destruct (is_ws3 c b a); [discriminate E | reflexivity].
Qed.

Lemma starts_ws_trimStart_le (n : nat) (s : string) :
  (String.length s <= n)%nat -> starts_ws (trimStart s) = false.
Proof.
  revert s. induction n as [|n IH]; intros s Hs.
  - destruct s; [reflexivity | simpl in Hs; lia].
  - destruct s as [|a r]; [reflexivity|]. cbn [String.length] in Hs.
    cbn [trimStart]. destruct (is_ws1 a) eqn:E1; [apply IH; lia|].
    destruct r as [|b r2]; [cbn [starts_ws]; now rewrite E1|].
    cbn [String.length] in Hs.
    destruct (is_ws2 a b) eqn:E2; [apply IH; lia|].
    destruct r2 as [|c r3]; [cbn [starts_ws]; now rewrite E1, E2|].
    cbn [String.length] in Hs.
    destruct (is_ws3 a b c) eqn:E3; [apply IH; lia|].
    cbn [starts_ws]. now rewrite E1, E2, E3.
Qed.

Lemma starts_ws_trimStart (s : string) : starts_ws (trimStart s) = false.
Proof. now apply (starts_ws_trimStart_le (String.length s)). Qed.

Lemma trimStart_rev_le (n : nat) (s : string) :
  (String.length s <= n)%nat ->
  starts_ws_rev (trimStart_rev s) = false
  /\ exists p, s = p ++ trimStart_rev s.
Proof.
  revert s. induction n as [|n IH]; intros s Hs.
  - destruct s; [split; [reflexivity | now exists ""] | simpl in Hs; lia].
  - destruct s as [|a r]; [split; [reflexivity | now exists ""]|].
    cbn [String.length] in Hs. cbn [trimStart_rev].
    destruct (is_ws1 a) eqn:E1.
    { destruct (IH r ltac:(lia)) as (Hw & p & Ep). split; [exact Hw|].
      exists (String a p). rewrite Ep at 1. reflexivity. }
    destruct r as [|b r2];
      [split; [cbn [starts_ws_rev]; now rewrite E1 | now exists ""]|].
    cbn [String.length] in Hs.
    destruct (is_ws2 b a) eqn:E2.
    { destruct (IH r2 ltac:(lia)) as (Hw & p & Ep). split; [exact Hw|].
      exists (String a (String b p)). rewrite Ep at 1. reflexivity. }
    destruct r2 as [|c r3];
      [split; [cbn [starts_ws_rev]; now rewrite E1, E2 | now exists ""]|].
    cbn [String.length] in Hs.
    destruct (is_ws3 c b a) eqn:E3.
    { destruct (IH r3 ltac:(lia)) as (Hw & p & Ep). split; [exact Hw|].
      exists (String a (String b (String c p))). rewrite Ep at 1. reflexivity. }
    split; [cbn [starts_ws_rev]; now rewrite E1, E2, E3 | now exists ""].
Qed.

(** A string that does not start with white space has no prefix that
    does. *)
Lemma starts_ws_prefix (p w : string) : starts_ws (p ++ w) = false -> starts_ws p = false.
Proof.
  destruct p as [|a [|b [|c r]]]; [reflexivity| | |]; cbn [append starts_ws]; intros E.
  - apply orb_false_iff in E as [E1 _]. now rewrite E1.
  - apply orb_false_iff in E as [E1 E]. rewrite E1. cbn [orb].
    destruct w; [exact E|]. apply orb_false_iff in E as [E2 _]. now rewrite E2.
  - exact E.
Qed.

Lemma trim_idempotent (s : string) : trim (trim s) = trim s.
Proof.
  unfold trim at 2 3.
  destruct (trimStart_rev_le _ (str_rev (trimStart s)) (Nat.le_refl _))
    as (Hw & p & Ep).
  set (u := trimStart_rev (str_rev (trimStart s))) in *.
  assert (Et : trimStart s = str_rev u ++ str_rev p).
  { rewrite <- (str_rev_involutive (trimStart s)), Ep. apply str_rev_app. }
  assert (Hr : starts_ws (str_rev u) = false).
  { apply (starts_ws_prefix _ (str_rev p)). rewrite <- Et. apply starts_ws_trimStart. }
  unfold trim. rewrite (trimStart_fixed _ Hr), str_rev_involutive.
  now rewrite (trimStart_rev_fixed _ Hw).
Qed.

Lemma trimmed_note_idempotent (note : option string) :
  trimmed_note (trimmed_note note) = trimmed_note note.
Proof.
  destruct note as [n|]; [|reflexivity]. cbn [trimmed_note].
  destruct (String.eqb (trim n) "") eqn:E; [reflexivity|].
  cbn [trimmed_note]. now rewrite trim_idempotent, E.
Qed.

(** ** The shape of the stored records *)

Lemma normalizeEntry_well_formed (now key : string) (value : json)
    (r : AlertResolution.t) :
  normalizeEntry now key value = Some r ->
  well_formed (AlertResolution.alertId r) r /\ AlertResolution.alertId r <> "".
Proof.
  unfold normalizeEntry. destruct (negb (is_object value)); [discriminate|].
  destruct (String.eqb _ "") eqn:E; [discriminate|].
  intros [= <-]. cbn. apply String.eqb_neq in E.
  split; [split; [reflexivity | symmetry; apply trimmed_note_idempotent] | exact E].
Qed.

Lemma normalizeStep_well_formed (now : string) (out : gmap string AlertResolution.t)
    (e : string * json) :
  map_Forall loadable out -> map_Forall loadable (normalizeStep now out e).
Proof.
  intros Hout. unfold normalizeStep.
  destruct (normalizeEntry now (fst e) (snd e)) as [r|] eqn:E; [|exact Hout].
  apply normalizeEntry_well_formed in E as [Hr Hne].
  unfold object_assign.
  destruct (String.eqb (AlertResolution.alertId r) "__proto__") eqn:Ep; [exact Hout|].
  apply String.eqb_neq in Ep. apply map_Forall_insert_2; [|exact Hout].
  repeat split; try apply Hr; assumption.
Qed.

Lemma normalizeResolutions_loadable (now : string) (input : json) :
  map_Forall loadable (normalizeResolutions now input).
Proof.
  unfold normalizeResolutions.
  destruct (negb (is_object input)); [apply map_Forall_empty|].
  assert (Hfold : forall l out, map_Forall loadable out ->
                                map_Forall loadable (fold_left (normalizeStep now) l out)).
  { induction l as [|e l IH]; intros out Hout; [exact Hout|].
    cbn [fold_left]. apply IH. now apply normalizeStep_well_formed. }
  apply Hfold. apply map_Forall_empty.
Qed.

(** X10.  Every record of the store is filed under its own alert id and
    carries a note that is trimmed and not empty, or none: the store read
    by [normalizeResolutions] is so (and has no record under the empty id
    or under [__proto__]), and [resolveAlert], [dismissAlert] and
    [reopenAlert] keep a store so. *)
Theorem resolutions_well_formed (now alertId : string) (note : option string)
    (input : json) (prev : gmap string AlertResolution.t) :
  map_Forall loadable (normalizeResolutions now input)
  /\ (map_Forall well_formed prev ->
      map_Forall well_formed (resolveAlert now alertId note prev)
      /\ map_Forall well_formed (dismissAlert now alertId note prev)
      /\ map_Forall well_formed (reopenAlert alertId prev)).
Proof.
  split; [apply normalizeResolutions_loadable|].
  intros Hprev. split; [|split].
  - apply map_Forall_insert_2; [|exact Hprev]. split; [reflexivity|].
    cbn [AlertResolution.note].
    destruct (trimmed_note note) as [n|] eqn:En.
    + rewrite <- En. symmetry. apply trimmed_note_idempotent.
    + destruct (prev !! alertId) as [r|] eqn:Er; [|reflexivity].
      cbn. exact (proj2 (Hprev _ _ Er)).
  - apply map_Forall_insert_2; [|exact Hprev]. split; [reflexivity|].
    cbn [AlertResolution.note]. symmetry. apply trimmed_note_idempotent.
  - now apply map_Forall_delete.
Qed.

(** ** The active alerts of a booking *)

Section BookingAlerts.
Variables (base : list AlertDefinition.t) (bookingId : Z).

Lemma booking_alerts_after_write (alertId : string) (r : AlertResolution.t)
    (prev : gmap string AlertResolution.t) :
  AlertResolution.status r <> ACTIVE ->
  getAlertsForBooking (mergeAlerts base (<[ alertId := r ]> prev)) bookingId
  = filter (other_than alertId) (getAlertsForBooking (mergeAlerts base prev) bookingId).
Proof.
  intros Hr. unfold getAlertsForBooking, mergeAlerts.
  induction base as [|d l IH]; [reflexivity|].
  cbn [map filter]. rewrite IH. clear IH.
  unfold linked_to at 1 3, is_active at 1 3, other_than.
  cbn [AlertWithResolution.def AlertWithResolution.effectiveStatus].
  destruct (String.eqb (AlertDefinition.id d) alertId) eqn:E.
  - apply String.eqb_eq in E. subst alertId. rewrite lookup_insert_eq.
    cbn [from_option].
    assert (Hoff : (match AlertResolution.status r with
                    | ACTIVE => true
                    | _ => false
                    end) = false)
      by (destruct (AlertResolution.status r); congruence).
    rewrite Hoff, andb_false_r.
    destruct (_ && _); [|reflexivity].
    cbn [filter AlertWithResolution.def]. now rewrite String.eqb_refl.
  - apply String.eqb_neq in E.
    rewrite lookup_insert_ne by congruence.
    destruct (_ && _); [|reflexivity].
    cbn [filter AlertWithResolution.def].
    apply String.eqb_neq in E. now rewrite E.
Qed.
End BookingAlerts.

(** X11.  [getAlertsForBooking] returns, in engine order, the merged
    alerts that are linked to the booking and active.  Resolving or
    dismissing an alert removes that alert from the answers and leaves
    every other entry as it was; with an empty store the answers are the
    engine's alerts linked to the booking; an aggregate alert with no
    booking id is never among them. *)
Theorem booking_alerts_follow_resolutions (base : list AlertDefinition.t)
    (bookingId : Z) (now alertId : string) (note : option string)
    (prev : gmap string AlertResolution.t) :
  getAlertsForBooking (mergeAlerts base (dismissAlert now alertId note prev)) bookingId
  = filter (other_than alertId) (getAlertsForBooking (mergeAlerts base prev) bookingId)
  /\ getAlertsForBooking (mergeAlerts base (resolveAlert now alertId note prev)) bookingId
     = filter (other_than alertId)
         (getAlertsForBooking (mergeAlerts base prev) bookingId)
  /\ map AlertWithResolution.def (getAlertsForBooking (mergeAlerts base ∅) bookingId)
     = filter (fun d => match AlertDefinition.bookingId d with
                        | Some i => i =? bookingId
                        | None => false
                        end) base
  /\ Forall (fun m =>
               AlertWithResolution.effectiveStatus m = ACTIVE
               /\ AlertDefinition.bookingId (AlertWithResolution.def m) = Some bookingId
               /\ In (AlertWithResolution.def m) base)
            (getAlertsForBooking (mergeAlerts base prev) bookingId).
Proof.
  split; [apply booking_alerts_after_write; discriminate|].
  split; [apply booking_alerts_after_write; discriminate|].
  split.
  - unfold getAlertsForBooking, mergeAlerts.
    induction base as [|d l IH]; [reflexivity|].
    cbn [map filter]. rewrite lookup_empty.
    unfold linked_to at 1, is_active at 1.
    cbn [AlertWithResolution.def AlertWithResolution.effectiveStatus from_option].
    rewrite andb_true_r.
    destruct (AlertDefinition.bookingId d) as [i|]; [|exact IH].
    destruct (i =? bookingId); [|exact IH].
    cbn [map AlertWithResolution.def]. now rewrite IH.
  - apply Forall_forall. intros m Hm.
    apply filter_In in Hm as [Hm Hq]. apply andb_true_iff in Hq as [Hl Ha].
    unfold linked_to in Hl. unfold is_active in Ha.
    split; [now destruct (AlertWithResolution.effectiveStatus m)|].
    split.
    + destruct (AlertDefinition.bookingId _) as [i|]; [|discriminate].
      apply Z.eqb_eq in Hl. now subst i.
    + unfold mergeAlerts in Hm. apply in_map_iff in Hm as (d & <- & Hd). exact Hd.
Qed.

(** ** How the mutations compose *)

(** X12.  A dismissal overwrites what was stored for the id, note
    included; resolving a dismissed alert without a note keeps the note of
    the dismissal; reopening forgets the record whatever was written
    before; any two mutations of two different ids can be exchanged (each
    pairing of dismissing, resolving and reopening); and a note
    that was trimmed before the call, as the alerts page does, is stored
    as the note itself would be. *)
Theorem mutations_compose (now now' : string) (i j : string) (note note' : option string)
    (prev : gmap string AlertResolution.t) :
  dismissAlert now' i note' (dismissAlert now i note prev) = dismissAlert now' i note' prev
  /\ dismissAlert now' i note' (resolveAlert now i note prev)
     = dismissAlert now' i note' prev
  /\ resolveAlert now' i None (dismissAlert now i note prev)
     = resolveAlert now' i note (reopenAlert i prev)
  /\ reopenAlert i (dismissAlert now i note prev) = reopenAlert i prev
  /\ reopenAlert i (resolveAlert now i note prev) = reopenAlert i prev
  /\ dismissAlert now i (trimmed_note note) prev = dismissAlert now i note prev
  /\ resolveAlert now i (trimmed_note note) prev = resolveAlert now i note prev
  /\ (i <> j ->
      dismissAlert now i note (resolveAlert now' j note' prev)
      = resolveAlert now' j note' (dismissAlert now i note prev)
      /\ reopenAlert i (dismissAlert now' j note' prev)
         = dismissAlert now' j note' (reopenAlert i prev)
      /\ dismissAlert now i note (dismissAlert now' j note' prev)
         = dismissAlert now' j note' (dismissAlert now i note prev)
      /\ resolveAlert now i note (resolveAlert now' j note' prev)
         = resolveAlert now' j note' (resolveAlert now i note prev)
      /\ reopenAlert i (resolveAlert now' j note' prev)
         = resolveAlert now' j note' (reopenAlert i prev)
      /\ reopenAlert i (reopenAlert j prev) = reopenAlert j (reopenAlert i prev)).
Proof.
  unfold dismissAlert, resolveAlert, reopenAlert.
  split; [apply insert_insert_eq|].
  split; [apply insert_insert_eq|].
  split.
  { rewrite insert_insert_eq, lookup_insert_eq, lookup_delete_eq.
    rewrite <- (insert_delete_eq prev). f_equal. cbn.
    now destruct (trimmed_note note). }
  split; [apply delete_insert_eq|].
  split; [apply delete_insert_eq|].
  split; [now rewrite trimmed_note_idempotent|].
  split; [now rewrite trimmed_note_idempotent|].
  intros Hij. split.
  - rewrite insert_insert_ne by exact Hij.
    rewrite lookup_insert_ne by exact Hij. reflexivity.
  - split; [apply delete_insert_ne; congruence|].
    split; [apply insert_insert_ne; exact Hij|].
    split.
    { rewrite insert_insert_ne by exact Hij.
      rewrite !lookup_insert_ne by congruence. reflexivity. }
    split.
    { rewrite lookup_delete_ne by exact Hij.
      apply delete_insert_ne. congruence. }
    apply delete_delete.
Qed.

(** ** Saving and loading *)

Lemma entry_loads_back (now k : string) (r : AlertResolution.t) :
  loadable k r -> normalizeEntry now k (resolution_json r) = Some r.
Proof.
  intros ((Eid & Enote) & Hne & _). destruct r as [rid st nt up].
  cbn in Eid, Enote. subst rid.
  unfold normalizeEntry, resolution_json. cbn [AlertResolution.alertId
    AlertResolution.status AlertResolution.note AlertResolution.updatedAt
    is_object negb].
  apply String.eqb_neq in Hne.
  destruct nt as [n|]; cbn -[trimmed_note]; rewrite Hne.
  - rewrite <- Enote. now destruct st.
  - now destruct st.
Qed.

Lemma load_saved_fold (now : string) (es : list (string * AlertResolution.t))
    (out : gmap string AlertResolution.t) :
  Forall (fun e => loadable (fst e) (snd e)) es ->
  fold_left (normalizeStep now)
            (map (fun e => (fst e, resolution_json (snd e))) es) out
  = fold_left (fun m e => <[ fst e := snd e ]> m) es out.
Proof.
  intros Hes. revert out. induction Hes as [|e es He _ IH]; intros out; [reflexivity|].
  cbn [map fold_left]. rewrite <- IH. f_equal.
  unfold normalizeStep. cbn [fst snd]. rewrite (entry_loads_back _ _ _ He).
  destruct He as ((Eid & _) & _ & Hp). rewrite Eid. unfold object_assign.
  apply String.eqb_neq in Hp. now rewrite Hp.
Qed.

Lemma fold_insert_list_to_map (es : list (string * AlertResolution.t)) :
  fold_left (fun m e => <[ fst e := snd e ]> m) es ∅
  = (list_to_map (rev es) : gmap string AlertResolution.t).
Proof.
  induction es as [|e es IH] using rev_ind; [reflexivity|].
  rewrite fold_left_app, rev_app_distr. cbn [fold_left rev app].
  rewrite IH. now destruct e.
Qed.

(** X13.  Loading what was saved gives the store back.  For a store in
    which every record is filed under its own alert id, notes are as the
    store writes them, and no id is empty or [__proto__], the JSON value
    that lists its records, in whatever order, is normalized to the store
    itself. *)
Theorem saved_store_loads_back (now : string) (store : gmap string AlertResolution.t)
    (entries : list (string * AlertResolution.t)) :
  map_Forall loadable store ->
  Permutation entries (map_to_list store) ->
  normalizeResolutions now (persisted entries) = store.
Proof.
  intros Hstore Hperm.
  unfold normalizeResolutions, persisted. cbn [is_object negb object_entries].
  rewrite load_saved_fold, fold_insert_list_to_map.
  - symmetry. apply list_to_map_flip.
    etransitivity; [symmetry; exact Hperm | apply Permutation_rev].
  - apply Forall_forall. intros [k r] Hin.
    apply (Permutation_in _ Hperm) in Hin.
    apply list_elem_of_In, elem_of_map_to_list in Hin.
    exact (Hstore _ _ Hin).
Qed.

(** * Hall allocations and the hall views *)

(** ** [buildHallsFromSplit] and [updateBookingHallSplit] *)

Lemma hall_split_codes (hallAGuests hallBGuests : option Z) :
  map HallRecord.hallCode (buildHallsFromSplit hallAGuests hallBGuests)
  = ((if 0 <? default 0 hallAGuests then [HallA] else [])
     ++ (if 0 <? default 0 hallBGuests then [HallB] else []))%list.
Proof.
  unfold buildHallsFromSplit.
  destruct hallAGuests as [a|], hallBGuests as [b|]; cbn [default from_option id];
    try destruct (0 <? a); try destruct (0 <? b); reflexivity.
Qed.

Lemma hall_split_one_per_hall (hallAGuests hallBGuests : option Z) :
  List.NoDup (map HallRecord.hallCode (buildHallsFromSplit hallAGuests hallBGuests)).
Proof.
  rewrite hall_split_codes.
  destruct (0 <? default 0 hallAGuests), (0 <? default 0 hallBGuests);
    repeat constructor; simpl; intuition discriminate.
Qed.

Lemma withHallSplit_one_per_hall (existing : MockBooking.t)
    (hallAGuests hallBGuests : option Z) :
  one_allocation_per_hall (withHallSplit existing hallAGuests hallBGuests).
Proof.
  unfold one_allocation_per_hall, withHallSplit. cbn [MockBooking.halls].
  rewrite map_map.
  change (fun x => HallAllocation.hallCode (engineAllocation x)) with HallRecord.hallCode.
  apply hall_split_one_per_hall.
Qed.

(** X14.  [buildHallsFromSplit] lists a hall exactly when its guest count
    is given and positive, Hall A before Hall B and each at most once; the
    allocation of a hall has the name of the hall, capacity 1000, the
    guest count of the hall, and names the guests of the other hall when
    that count is positive; the guests of the allocations add up to the
    positive counts. *)
Theorem hall_split_allocations (hallAGuests hallBGuests : option Z) (hall : HallCode) :
  let halls := buildHallsFromSplit hallAGuests hallBGuests in
  let here := default 0 (splitOf hall hallAGuests hallBGuests) in
  let there := default 0 (splitOf (otherHall hall) hallAGuests hallBGuests) in
  map HallRecord.hallCode halls
  = ((if 0 <? default 0 hallAGuests then [HallA] else [])
     ++ (if 0 <? default 0 hallBGuests then [HallB] else []))%list
  /\ List.NoDup (map HallRecord.hallCode halls)
  /\ filter (fun h => HallCode_eqb (HallRecord.hallCode h) hall) halls
     = (if 0 <? here
        then [ {| HallRecord.hallCode := hall;
                  HallRecord.hallName := "Hall " ++ HallCode_str hall;
                  HallRecord.capacity := 1000;
                  HallRecord.guestsHere := here;
                  HallRecord.guestsInOtherHallsText :=
                    if 0 <? there
                    then Some (num_str there ++ " in Hall "
                               ++ HallCode_str (otherHall hall))
                    else None |} ]
        else [])
  /\ guests_sum (map engineAllocation halls)
     = Z.max 0 (default 0 hallAGuests) + Z.max 0 (default 0 hallBGuests).
Proof.
  cbv zeta. split; [apply hall_split_codes|].
  split; [apply hall_split_one_per_hall|]. split.
  - unfold buildHallsFromSplit, otherHallsText.
    destruct hall, hallAGuests as [a|], hallBGuests as [b|];
      cbn [splitOf otherHall default from_option id];
      try destruct (0 <? a); try destruct (0 <? b); reflexivity.
  - unfold buildHallsFromSplit.
    destruct hallAGuests as [a|], hallBGuests as [b|]; cbn [default from_option id];
      try destruct (Z.ltb_spec 0 a); try destruct (Z.ltb_spec 0 b);
      cbn; lia.
Qed.

(** X15.  A hall-split update keeps the bookings in place and their ids as
    they are, leaves every booking with another id untouched, and gives
    each booking with the id the new split and the allocations built from
    it; bookings that list every hall at most once still do so after it. *)
Theorem hall_split_update_keeps_bookings (allBookings prev : list MockBooking.t)
    (id : Z) (hallAGuests hallBGuests : option Z) :
  let next := updateBookingHallSplit allBookings prev id hallAGuests hallBGuests in
  map MockBooking.id next = map MockBooking.id prev
  /\ (Forall one_allocation_per_hall prev -> Forall one_allocation_per_hall next)
  /\ filter (fun b => negb (MockBooking.id b =? id)) next
     = filter (fun b => negb (MockBooking.id b =? id)) prev
  /\ match find (fun b => MockBooking.id b =? id) allBookings with
     | Some existing =>
         Forall (fun b => MockBooking.id b = id ->
                          b = withHallSplit existing hallAGuests hallBGuests) next
     | None => next = prev
     end.
Proof.
  cbv zeta. unfold updateBookingHallSplit.
  destruct (find _ allBookings) as [existing|] eqn:Ef;
    [|repeat split; intros; assumption].
  apply find_some in Ef as [_ Eid]. apply Z.eqb_eq in Eid.
  split; [|split; [|split]].
  - rewrite map_map. apply map_ext. intros b.
    destruct (Z.eqb_spec (MockBooking.id b) id); [cbn; congruence | reflexivity].
  - intros Hprev. apply Forall_map. eapply Forall_impl; [|exact Hprev].
    intros b Hb. cbv beta.
    destruct (MockBooking.id b =? id); [apply withHallSplit_one_per_hall | exact Hb].
  - induction prev as [|b l IH]; [reflexivity|].
    cbn [map filter].
    destruct (Z.eqb_spec (MockBooking.id b) id) as [E|E].
    + cbn [MockBooking.id withHallSplit]. rewrite Eid, Z.eqb_refl. cbn [negb].
      exact IH.
    + apply Z.eqb_neq in E. rewrite E. cbn [negb]. now rewrite IH.
  - apply Forall_map. apply Forall_forall. intros b _.
    destruct (Z.eqb_spec (MockBooking.id b) id); [reflexivity | tauto].
Qed.

(** ** [getHallStatsForBooking], [getHallsUsedText], [getGuestSplitText] *)

Lemma find_hall_split (hallAGuests hallBGuests : option Z) (hall : HallCode) :
  find (fun h => HallCode_eqb (HallAllocation.hallCode h) hall)
       (map engineAllocation (buildHallsFromSplit hallAGuests hallBGuests))
  = if 0 <? default 0 (splitOf hall hallAGuests hallBGuests)
    then Some {| HallAllocation.hallCode := hall;
                 HallAllocation.capacity := 1000;
                 HallAllocation.guestsHere :=
                   default 0 (splitOf hall hallAGuests hallBGuests) |}
    else None.
Proof.
  unfold buildHallsFromSplit.
  destruct hall, hallAGuests as [a|], hallBGuests as [b|]; cbn [splitOf default from_option id];
    try destruct (0 <? a); try destruct (0 <? b); reflexivity.
Qed.

(** X16.  The per-booking hall view.  For every booking and hall the
    over-capacity flag is raised exactly when the remaining room is
    negative, and a hall the booking lists no allocation for is given
    capacity 1000.  After a hall-split update the view of a hall shows the
    guest count entered for it (0 when none), capacity 1000, and the count
    of the other hall. *)
Theorem hall_stats_view (bk existing : MockBooking.t) (hallAGuests hallBGuests : option Z)
    (hall : HallCode) :
  let s := getHallStatsForBooking bk hall in
  let s' := getHallStatsForBooking (withHallSplit existing hallAGuests hallBGuests) hall in
  let here := default 0 (splitOf hall hallAGuests hallBGuests) in
  let there := default 0 (splitOf (otherHall hall) hallAGuests hallBGuests) in
  HallStats.isOverCapacity s = (HallStats.remaining s <? 0)
  /\ HallStats.remaining s + HallStats.guestsHere s = HallStats.capacity s
  /\ (uses_hall hall bk = true \/ HallStats.capacity s = 1000)
  /\ s' = {| HallStats.guestsHere := here;
             HallStats.capacity := 1000;
             HallStats.otherGuests := there;
             HallStats.otherLabel :=
               num_str there ++ " in Hall " ++ HallCode_str (otherHall hall);
             HallStats.remaining := 1000 - here;
             HallStats.isOverCapacity := 1000 <? here |}.
Proof.
  cbv zeta. split; [|split; [|split]].
  - unfold getHallStatsForBooking.
    cbn [HallStats.isOverCapacity HallStats.remaining].
    apply eq_true_iff_eq. rewrite !Z.ltb_lt. lia.
  - unfold getHallStatsForBooking.
    cbn [HallStats.guestsHere HallStats.remaining HallStats.capacity]. lia.
  - unfold getHallStatsForBooking, uses_hall. cbn [HallStats.capacity].
    destruct (find _ (MockBooking.halls bk)) as [h|] eqn:Ef; [left | now right].
    apply find_some in Ef as [Hin Eh]. apply existsb_exists. eauto.
  - unfold getHallStatsForBooking.
    cbn [withHallSplit MockBooking.halls MockBooking.hallAGuests
           MockBooking.hallBGuests].
    rewrite find_hall_split.
    destruct hall, hallAGuests as [a|], hallBGuests as [b|];
      cbn [splitOf otherHall default from_option id HallCode_str];
      try destruct (0 <? a); try destruct (0 <? b); reflexivity.
Qed.

(** X17.  The texts of the detail page.  With non-negative guest counts
    [getHallsUsedText] names exactly the halls [buildHallsFromSplit]
    allocates for the split of the booking.  [getGuestSplitText] gives no
    text exactly when neither hall count was entered, which is when the
    engine skips its guest-split check: a booking with a
    [GUEST_SPLIT_MISMATCH] alert always shows a split text. *)
Theorem hall_texts_follow_split (bk : MockBooking.t) :
  (0 <= default 0 (MockBooking.hallAGuests bk) ->
   0 <= default 0 (MockBooking.hallBGuests bk) ->
   getHallsUsedText bk
   = hallsText (map HallRecord.hallCode
                  (buildHallsFromSplit (MockBooking.hallAGuests bk)
                     (MockBooking.hallBGuests bk))))
  /\ is_some (getGuestSplitText bk)
     = is_some (MockBooking.hallAGuests bk) || is_some (MockBooking.hallBGuests bk)
  /\ implb (split_mismatch bk) (is_some (getGuestSplitText bk)) = true.
Proof.
  assert (Hsome : is_some (getGuestSplitText bk)
                  = is_some (MockBooking.hallAGuests bk)
                    || is_some (MockBooking.hallBGuests bk)).
  { unfold getGuestSplitText.
    destruct (MockBooking.hallAGuests bk), (MockBooking.hallBGuests bk); reflexivity. }
  split; [|split; [exact Hsome|]].
  - intros Ha Hb. rewrite hall_split_codes. unfold getHallsUsedText.
    destruct (Z.ltb_spec 0 (default 0 (MockBooking.hallAGuests bk))) as [Ha'|Ha'],
             (Z.ltb_spec 0 (default 0 (MockBooking.hallBGuests bk))) as [Hb'|Hb'];
      cbn [andb app hallsText]; try reflexivity.
    + replace (default 0 (MockBooking.hallBGuests bk)) with 0 by lia. reflexivity.
    + replace (default 0 (MockBooking.hallAGuests bk)) with 0 by lia. reflexivity.
  - rewrite Hsome. unfold split_mismatch.
    destruct (is_some _ || is_some _), (negb (_ =? 0)), (negb (_ + _ =? _));
      reflexivity.
Qed.

(** ** [compareSlots] *)

(** X18.  [compareSlots] is a consistent comparator: it is 0 exactly on
    equal slots, changes sign when its arguments are exchanged, is
    transitive, and puts Lunch before Dinner; the short codes and the
    labels of the two slots differ. *)
Theorem compareSlots_orders_slots (a b c : Slot) :
  (compareSlots a b = 0 <-> a = b)
  /\ compareSlots a b = - compareSlots b a
  /\ (compareSlots a b <= 0 -> compareSlots b c <= 0 -> compareSlots a c <= 0)
  /\ compareSlots LUNCH DINNER < 0
  /\ (slotCode a = slotCode b <-> a = b)
  /\ (formatSlotShort a = formatSlotShort b <-> a = b)
  /\ (formatSlotHuman a = formatSlotHuman b <-> a = b).
Proof.
  destruct a, b, c; cbn; repeat split; intros; try lia; try congruence;
    try discriminate.
Qed.

(** * The calendar's hall usage and the engine's *)

Lemma guests_sum_app (l1 l2 : list HallAllocation.t) :
  guests_sum (l1 ++ l2) = guests_sum l1 + guests_sum l2.
Proof. induction l1 as [|h l1 IH]; cbn; [reflexivity|]. unfold guests_sum in *. lia. Qed.

Lemma fold_max_app (l1 l2 : list HallAllocation.t) (c : Z) :
  fold_right (fun x acc => Z.max (HallAllocation.capacity x) acc) c (l1 ++ l2)
  = fold_right (fun x acc => Z.max (HallAllocation.capacity x) acc)
      (fold_right (fun x acc => Z.max (HallAllocation.capacity x) acc) c l1) l2.
Proof.
  induction l1 as [|h l1 IH]; [reflexivity|].
  cbn [app fold_right]. rewrite IH.
  rewrite (Z.max_comm (HallAllocation.capacity h) (fold_right _ c l1)).
  now rewrite fold_max_shift.
Qed.

(** The inner loop: what one booking's allocations add to the totals of a
    hall. *)
Lemma usageHall_fold (hall : HallCode) (hs : list HallAllocation.t) (st : UsageLoop) :
  let here := filter (fun h => HallCode_eqb (HallAllocation.hallCode h) hall) hs in
  let st' := fold_left usageHall hs st in
  accUsed hall st' = accUsed hall st + guests_sum here
  /\ accCap hall st'
     = fold_right (fun x acc => Z.max (HallAllocation.capacity x) acc)
         (accCap hall st) here
  /\ accEvents hall st' = accEvents hall st
  /\ usedFlag hall st'
     = usedFlag hall st
       || existsb (fun h => HallCode_eqb (HallAllocation.hallCode h) hall) hs.
Proof.
  cbv zeta. revert st. induction hs as [|h hs IH]; intros st.
  - cbn. rewrite orb_false_r. repeat split; lia.
  - cbn [fold_left filter existsb].
    destruct (IH (usageHall st h)) as (Hu & Hc & He & Hf).
    rewrite Hu, Hc, He, Hf. clear IH Hu Hc He Hf.
    unfold usageHall.
    destruct hall, (HallAllocation.hallCode h);
      cbn [HallCode_eqb accUsed accCap accEvents usedFlag accAUsed accBUsed accACap
             accBCap accAEvents accBEvents usedA usedB guests_sum fold_right orb];
      rewrite ?fold_max_shift, ?orb_true_r;
      repeat split; try lia; try reflexivity.
    all: try (rewrite Z.max_comm; reflexivity).
    all: try (fold (guests_sum (filter (fun h0 => HallCode_eqb
                                          (HallAllocation.hallCode h0) HallA) hs));
              lia).
    all: try (fold (guests_sum (filter (fun h0 => HallCode_eqb
                                          (HallAllocation.hallCode h0) HallB) hs));
              lia).
Qed.

(** The outer loop. *)
Lemma usageBooking_fold (hall : HallCode) (events : list MockBooking.t) (st : UsageLoop) :
  let st' := fold_left usageBooking events st in
  accUsed hall st' = accUsed hall st + guests_sum (hallsOf events hall)
  /\ accCap hall st'
     = fold_right (fun x acc => Z.max (HallAllocation.capacity x) acc)
         (accCap hall st) (hallsOf events hall)
  /\ accEvents hall st'
     = accEvents hall st + Z.of_nat (List.length (filter (uses_hall hall) events)).
Proof.
  cbv zeta. revert st. induction events as [|b events IH]; intros st.
  - cbn. repeat split; lia.
  - cbn [fold_left].
    destruct (IH (usageBooking st b)) as (Hu & Hc & He).
    rewrite Hu, Hc, He. clear IH Hu Hc He.
    unfold hallsOf. cbn [flat_map filter]. rewrite filter_app.
    rewrite guests_sum_app, fold_max_app.
    unfold usageBooking.
    match goal with
    | |- context [fold_left usageHall (MockBooking.halls b) ?s0] =>
        destruct (usageHall_fold hall (MockBooking.halls b) s0) as (Hu & Hc & He & Hf);
        set (st1 := fold_left usageHall (MockBooking.halls b) s0) in *
    end.
    fold (uses_hall hall b) in Hf.
    destruct hall;
      cbn [accUsed accCap accEvents usedFlag accAUsed accBUsed accACap accBCap
             accAEvents accBEvents usedA usedB orb] in *;
      rewrite Hu, Hc, He; rewrite Hf; destruct (uses_hall _ b);
      cbn [List.length]; repeat split; lia.
Qed.

Section Calendar.
Context `{DateHost}.

(** The allocations under a key are those of the bookings of the date and
    slot, in the hall. *)
Lemma allocations_at_hallsOf (bs : list MockBooking.t) (dk : string) (slot : Slot)
    (hall : HallCode) :
  map snd (allocations_at bs dk slot hall) = hallsOf (day_group bs dk slot) hall.
Proof.
  unfold allocations_at, allocations, hallsOf, day_group.
  induction bs as [|b bs IH]; [reflexivity|].
  cbn [flat_map filter]. rewrite filter_app, map_app, IH. clear IH.
  assert (Hb : map snd (filter (at_key dk slot hall) (map (pair b) (MockBooking.halls b)))
               = if String.eqb (bookingDateKey b) dk && Slot_eqb (MockBooking.slot b) slot
                 then filter (fun h => HallCode_eqb (HallAllocation.hallCode h) hall)
                             (MockBooking.halls b)
                 else []).
  { induction (MockBooking.halls b) as [|h hs IHh].
    - now destruct (_ && _).
    - cbn [map filter]. unfold at_key at 1. cbn [fst snd].
      destruct (String.eqb (bookingDateKey b) dk && Slot_eqb (MockBooking.slot b) slot);
        cbn [andb] in *; [|exact IHh].
      destruct (HallCode_eqb _ hall); cbn [map snd]; now rewrite IHh. }
  rewrite Hb.
  destruct (String.eqb (bookingDateKey b) dk && Slot_eqb (MockBooking.slot b) slot);
    [|reflexivity].
  cbn [flat_map]. now rewrite filter_app.
Qed.

Lemma hall_group_day_group (bs : list MockBooking.t) (dk : string) (slot : Slot)
    (hall : HallCode) :
  hall_group bs dk slot hall = filter (uses_hall hall) (day_group bs dk slot).
Proof. unfold hall_group, day_group. apply filter_andb. Qed.

(** The number of capacity alerts of a key. *)
Lemma capacity_hits_length (bs : list MockBooking.t) (today : JSDate)
    (dk : string) (slot : Slot) (hall : HallCode) :
  List.length
    (filter (fun a => has_type CAPACITY_OVERRIDE a
                      && String.eqb (AlertDefinition.id a) (capacityId dk slot hall))
            (buildAlerts bs today))
  = match max_capacity (map snd (allocations_at bs dk slot hall)) with
    | Some capacity =>
        if capacity <? guests_sum (map snd (allocations_at bs dk slot hall))
        then 1%nat else 0%nat
    | None => 0%nat
    end.
Proof.
  rewrite capacity_hits, get_usage.
  pose proof (usage_fold_None fst snd (allocations_at bs dk slot hall)) as Hfold.
  destruct (allocations_at bs dk slot hall) as [|x l].
  - now rewrite Hfold.
  - destruct Hfold as (u & Eu & Hused & Hcap & _). rewrite Eu.
    rewrite <- Hcap, <- Hused. unfold capacityAlert.
    rewrite Z.ltb_antisym. now destruct (_ <=? _).
Qed.
End Calendar.

Lemma max_capacity_positive (l : list HallAllocation.t) :
  Forall (fun h => 0 < HallAllocation.capacity h) l ->
  (let m := fold_right (fun x acc => Z.max (HallAllocation.capacity x) acc) 0 l in
   if m =? 0 then 1000 else m)
  = default 1000 (max_capacity l).
Proof.
  intros Hpos. cbv zeta. destruct l as [|h l]; [reflexivity|].
  inversion Hpos as [|? ? Hh Hl]; subst.
  cbn [max_capacity default from_option id fold_right].
  replace (HallAllocation.capacity h) with (Z.max 0 (HallAllocation.capacity h)) at 3
    by lia.
  rewrite fold_max_shift.
  destruct (Z.eqb_spec (Z.max (HallAllocation.capacity h)
                          (fold_right (fun x acc => Z.max (HallAllocation.capacity x) acc)
                                      0 l)) 0); [lia | reflexivity].
Qed.

(** X19.  The slot panel of the calendar and the engine agree.  For the
    bookings of a date and slot, [computeHallUsage] gives, for each hall,
    the summed guests of the allocations the engine files under the
    (date, slot, hallCode) key and the number of bookings using the hall;
    when every capacity under the key is positive it gives the largest of
    them (1000 when the hall is not used), and the hall then shows as over
    capacity exactly when the engine emits the key's [CAPACITY_OVERRIDE]
    alert. *)
Theorem calendar_usage_matches_engine `{DateHost} (bs : list MockBooking.t)
    (today : JSDate) (dk : string) (slot : Slot) (hall : HallCode) :
  let usage := computeHallUsage (day_group bs dk slot) in
  let group := map snd (allocations_at bs dk slot hall) in
  let hits :=
    filter (fun a => has_type CAPACITY_OVERRIDE a
                     && String.eqb (AlertDefinition.id a) (capacityId dk slot hall))
           (buildAlerts bs today) in
  usedIn hall usage = guests_sum group
  /\ eventsIn hall usage = Z.of_nat (List.length (hall_group bs dk slot hall))
  /\ (Forall (fun h => 0 < HallAllocation.capacity h) group ->
      capacityIn hall usage = default 1000 (max_capacity group)
      /\ List.length hits
         = (if capacityIn hall usage <? usedIn hall usage then 1%nat else 0%nat)).
Proof.
  cbv zeta.
  match goal with
  | |- context [computeHallUsage ?ev] =>
      assert (Hfold := usageBooking_fold hall ev
                {| accAUsed := 0; accBUsed := 0; accACap := 0; accBCap := 0;
                   accAEvents := 0; accBEvents := 0; usedA := false; usedB := false |})
  end.
  cbv zeta in Hfold. destruct Hfold as (Hu & Hc & He).
  rewrite <- allocations_at_hallsOf in Hu, Hc.
  rewrite <- hall_group_day_group in He.
  assert (Eused : usedIn hall (computeHallUsage (day_group bs dk slot))
                  = guests_sum (map snd (allocations_at bs dk slot hall))).
  { unfold computeHallUsage. destruct hall; cbn [usedIn hallAUsed hallBUsed accUsed] in *;
      rewrite Hu; reflexivity. }
  split; [exact Eused|]. split.
  { unfold computeHallUsage.
    destruct hall; cbn [eventsIn hallAEventCount hallBEventCount accEvents] in *;
      rewrite He; reflexivity. }
  intros Hpos.
  assert (Ecap : capacityIn hall (computeHallUsage (day_group bs dk slot))
                 = default 1000 (max_capacity (map snd (allocations_at bs dk slot hall)))).
  { rewrite <- (max_capacity_positive _ Hpos). cbv zeta.
    unfold computeHallUsage.
    destruct hall; cbn [capacityIn hallACapacity hallBCapacity accCap] in *;
      rewrite Hc; reflexivity. }
  split; [exact Ecap|].
  rewrite capacity_hits_length, Ecap, Eused.
  destruct (max_capacity _) as [c|] eqn:Em; [reflexivity|].
  destruct (map snd _); [reflexivity | discriminate].
Qed.

(** * The alerts shown on the dashboard *)

Lemma insertBySeverity_perm (x : AlertWithResolution.t) (l : list AlertWithResolution.t) :
  Permutation (insertBySeverity x l) (x :: l).
Proof.
  induction l as [|y l IH]; cbn [insertBySeverity]; [reflexivity|].
  destruct (_ <=? _); [reflexivity|].
  etransitivity; [apply perm_skip, IH | apply perm_swap].
Qed.

Lemma sortBySeverity_perm (l : list AlertWithResolution.t) :
  Permutation (sortBySeverity l) l.
Proof.
  induction l as [|x l IH]; [reflexivity|]. cbn [sortBySeverity fold_right].
  etransitivity; [apply insertBySeverity_perm | now apply perm_skip].
Qed.

Lemma insertBySeverity_sorted (x : AlertWithResolution.t)
    (l : list AlertWithResolution.t) :
  StronglySorted (fun a a' => alertSeverityRank (severityOf a')
                              <= alertSeverityRank (severityOf a)) l ->
  StronglySorted (fun a a' => alertSeverityRank (severityOf a')
                              <= alertSeverityRank (severityOf a))
                 (insertBySeverity x l).
Proof.
  induction 1 as [|y l Hs IH Hy]; cbn [insertBySeverity].
  - repeat constructor.
  - destruct (Z.leb_spec (alertSeverityRank (severityOf y))
                         (alertSeverityRank (severityOf x))) as [Hle|Hlt].
    + constructor; [now constructor|]. constructor; [exact Hle|].
      eapply Forall_impl; [|exact Hy]. intros z Hz. cbv beta in Hz. lia.
    + constructor; [exact IH|].
      eapply Permutation_Forall; [symmetry; apply insertBySeverity_perm|].
      constructor; [lia | exact Hy].
Qed.

Lemma sortBySeverity_sorted (l : list AlertWithResolution.t) :
  StronglySorted (fun a a' => alertSeverityRank (severityOf a')
                              <= alertSeverityRank (severityOf a))
                 (sortBySeverity l).
Proof.
  induction l as [|x l IH]; [constructor|].
  cbn [sortBySeverity fold_right]. now apply insertBySeverity_sorted.
Qed.

Lemma rank_severity (a b : AlertSeverity) :
  AlertSeverity_eqb a b = true -> alertSeverityRank a = alertSeverityRank b.
Proof. destruct a, b; simpl; congruence. Qed.

(** Alerts of one severity keep their order. *)
Lemma insertBySeverity_stable (s : AlertSeverity) (x : AlertWithResolution.t)
    (l : list AlertWithResolution.t) :
  filter (fun a => AlertSeverity_eqb (severityOf a) s) (insertBySeverity x l)
  = filter (fun a => AlertSeverity_eqb (severityOf a) s) (x :: l).
Proof.
  induction l as [|y l IH]; cbn [insertBySeverity]; [reflexivity|].
  destruct (Z.leb_spec (alertSeverityRank (severityOf y))
                       (alertSeverityRank (severityOf x))) as [Hle|Hlt];
    [reflexivity|].
  cbn [filter] in *. rewrite IH.
  destruct (AlertSeverity_eqb (severityOf y) s) eqn:Ey,
           (AlertSeverity_eqb (severityOf x) s) eqn:Ex; try reflexivity.
  apply rank_severity in Ey, Ex. lia.
Qed.

Lemma sortBySeverity_stable (s : AlertSeverity) (l : list AlertWithResolution.t) :
  filter (fun a => AlertSeverity_eqb (severityOf a) s) (sortBySeverity l)
  = filter (fun a => AlertSeverity_eqb (severityOf a) s) l.
Proof.
  induction l as [|x l IH]; [reflexivity|].
  cbn [sortBySeverity fold_right]. rewrite insertBySeverity_stable.
  cbn [filter]. fold (sortBySeverity l). now rewrite IH.
Qed.

Lemma slice_last_length {A : Type} (n : nat) (l : list A) :
  List.length (slice_last n l) = Nat.min n (List.length l).
Proof. unfold slice_last. rewrite length_skipn. lia. Qed.

Lemma slice_last_In {A : Type} (n : nat) (l : list A) (x : A) :
  In x (slice_last n l) -> In x l.
Proof.
  unfold slice_last. intros Hx.
  rewrite <- (firstn_skipn (List.length l - n) l). apply in_or_app. now right.
Qed.

Lemma slice_last_app {A : Type} (n : nat) (l1 l2 : list A) :
  (n <= List.length l2)%nat -> slice_last n (l1 ++ l2) = slice_last n l2.
Proof.
  intros Hn. unfold slice_last. rewrite skipn_app, length_app.
  rewrite skipn_all2 by lia. cbn [app]. f_equal. lia.
Qed.

(** X20.  The dashboard shows the last five active alerts of the merged
    list (all of them when there are fewer), ordered by decreasing
    severity rank, alerts of one severity in the order of the list. *)
Theorem dashboard_alerts_sorted (alerts : list AlertWithResolution.t)
    (s : AlertSeverity) :
  let shown := dashboardAlerts alerts in
  let lastFive := slice_last 5 (filter is_active alerts) in
  Permutation shown lastFive
  /\ List.length shown = Nat.min 5 (List.length (filter is_active alerts))
  /\ Forall (fun a => AlertWithResolution.effectiveStatus a = ACTIVE /\ In a alerts) shown
  /\ StronglySorted (fun a a' => alertSeverityRank (severityOf a')
                                 <= alertSeverityRank (severityOf a)) shown
  /\ filter (fun a => AlertSeverity_eqb (severityOf a) s) shown
     = filter (fun a => AlertSeverity_eqb (severityOf a) s) lastFive.
Proof.
  cbv zeta. unfold dashboardAlerts.
  pose proof (sortBySeverity_perm (slice_last 5 (filter is_active alerts))) as Hperm.
  split; [exact Hperm|]. split.
  { rewrite (Permutation_length Hperm). apply slice_last_length. }
  split.
  { apply Forall_forall. intros a Ha. apply (Permutation_in _ Hperm) in Ha.
    apply slice_last_In, filter_In in Ha as [Hin Hact]. split; [|exact Hin].
    unfold is_active in Hact. now destruct (AlertWithResolution.effectiveStatus a). }
  split; [apply sortBySeverity_sorted | apply sortBySeverity_stable].
Qed.

Lemma dashboard_last_five (before alerts : list AlertWithResolution.t) :
  (5 <= List.length (filter is_active alerts))%nat ->
  dashboardAlerts (before ++ alerts) = dashboardAlerts alerts.
Proof.
  intros Hfive. unfold dashboardAlerts. rewrite filter_app.
  now rewrite slice_last_app by exact Hfive.
Qed.

(** X21.  With five active alerts or more in a list, whatever precedes the
    list does not reach the dashboard: the five alerts shown are taken
    from the end. *)
Theorem dashboard_drops_older_alerts (before alerts : list AlertWithResolution.t) :
  (5 <= List.length (filter is_active alerts))%nat ->
  dashboardAlerts (before ++ alerts) = dashboardAlerts alerts
  /\ List.length (dashboardAlerts alerts) = 5%nat.
Proof.
  intros Hfive. split; [now apply dashboard_last_five|].
  unfold dashboardAlerts.
  rewrite (Permutation_length (sortBySeverity_perm _)), slice_last_length. lia.
Qed.

(** ** The dashboard and the order of the engine *)

Lemma mergeAlerts_app (l1 l2 : list AlertDefinition.t)
    (resolutions : gmap string AlertResolution.t) :
  mergeAlerts (l1 ++ l2) resolutions
  = (mergeAlerts l1 resolutions ++ mergeAlerts l2 resolutions)%list.
Proof. unfold mergeAlerts. apply map_app. Qed.

Lemma mergeAlerts_empty_active (l : list AlertDefinition.t) :
  filter is_active (mergeAlerts l ∅) = mergeAlerts l ∅.
Proof.
  apply filter_all. unfold mergeAlerts. apply Forall_map. apply Forall_forall.
  intros d _. unfold is_active. cbn. now rewrite lookup_empty.
Qed.

(** X22.  With no resolution stored, as soon as the engine emits five
    alerts that are not capacity overrides, no capacity override is shown
    on the dashboard: capacity overrides come first in the engine's output
    and the dashboard keeps the last five alerts before it sorts them by
    severity. *)
Theorem dashboard_hides_capacity_alerts `{DateHost} (bs : list MockBooking.t)
    (today : JSDate) :
  (5 <= List.length (filter (fun a => negb (has_type CAPACITY_OVERRIDE a))
                            (buildAlerts bs today)))%nat ->
  Forall (fun m => AlertDefinition.type (AlertWithResolution.def m) <> CAPACITY_OVERRIDE)
         (dashboardAlerts (mergeAlerts (buildAlerts bs today) ∅)).
Proof.
  intros Hfive.
  set (caps := flat_map capacityAlert (JSMap.entries (hallSlotUsage (buildIndex bs)))).
  set (rest := (flat_map performanceAlert
                  (JSMap.entries (slotHallBookings (buildIndex bs)))
                ++ flat_map (bookingAlerts (startOfDay today)
                               (addDays (startOfDay today) 15)) bs
                ++ flat_map complexAlert
                     (JSMap.entries (daySlotBookings (buildIndex bs))))%list).
  assert (Hsplit : buildAlerts bs today = (caps ++ rest)%list) by reflexivity.
  assert (Hcaps : Forall (fun a => AlertDefinition.type a = CAPACITY_OVERRIDE) caps).
  { apply Forall_flat_map. intros e _. apply capacityAlert_type. }
  assert (Hrest : Forall (fun a => AlertDefinition.type a <> CAPACITY_OVERRIDE) rest).
  { unfold rest. rewrite !Forall_app. repeat split.
    - apply Forall_flat_map. intros e _.
      eapply Forall_impl; [|apply performanceAlert_type]. intros a Ha.
      cbv beta in Ha. rewrite Ha. discriminate.
    - apply Forall_flat_map. intros b _.
      eapply Forall_impl; [|apply bookingAlerts_type]. intros a Ha E.
      cbv beta in Ha. rewrite E in Ha. discriminate.
    - apply Forall_flat_map. intros e _.
      eapply Forall_impl; [|apply complexAlert_type]. intros a Ha.
      cbv beta in Ha. rewrite Ha. discriminate. }
  assert (Hlen : (5 <= List.length rest)%nat).
  { rewrite Hsplit, filter_app in Hfive.
    rewrite (filter_none _ caps) in Hfive.
    - cbn [app] in Hfive. etransitivity; [exact Hfive | apply filter_length_le].
    - eapply Forall_impl; [|exact Hcaps]. intros a Ha. cbv beta in Ha.
      unfold has_type. now rewrite Ha. }
  rewrite Hsplit, mergeAlerts_app.
  rewrite dashboard_last_five
    by (rewrite mergeAlerts_empty_active; unfold mergeAlerts; now rewrite length_map). apply Forall_forall. intros m Hm.
  unfold dashboardAlerts in Hm.
  apply (Permutation_in _ (sortBySeverity_perm _)) in Hm.
  apply slice_last_In, filter_In in Hm as [Hm _].
  unfold mergeAlerts in Hm. apply in_map_iff in Hm as (d & <- & Hd).
  rewrite Forall_forall in Hrest. now apply Hrest.
Qed.

(** * Further links between the engine and the pages *)

(** ** What a performance alert says *)

Lemma existsb_find {A : Type} (f : A -> bool) (l : list A) :
  existsb f l = true -> exists x, find f l = Some x.
Proof.
  induction l as [|y l IH]; cbn; [discriminate|].
  destruct (f y); eauto.
Qed.

(** X23.  When no booking lists a hall twice, the
    [PERFORMANCE_HALL_CONFLICT] alert of a (date, slot, hallCode) key is
    linked to the first booking of the group, in list order, that has a
    performance, is dated by that booking's label, and counts the bookings
    of the group. *)
Theorem performance_alert_names_first_performer `{DateHost} (bs : list MockBooking.t)
    (today : JSDate) (dk : string) (slot : Slot) (hall : HallCode) :
  let group := hall_group bs dk slot hall in
  let hits :=
    filter (fun a => has_type PERFORMANCE_HALL_CONFLICT a
                     && String.eqb (AlertDefinition.id a) (perfConflictId dk slot hall))
           (buildAlerts bs today) in
  Forall one_allocation_per_hall bs ->
  Forall (fun a =>
            exists first,
              find MockBooking.hasPerformance group = Some first
              /\ AlertDefinition.bookingId a = Some (MockBooking.id first)
              /\ AlertDefinition.message a
                 = "There are " ++ num_str (Z.of_nat (List.length group))
                   ++ " event(s) in Hall " ++ HallCode_str hall ++ " during "
                   ++ formatSlotShort slot ++ " on "
                   ++ MockBooking.eventDateLabel first
                   ++ ", and at least one has a performance.")
         hits.
Proof.
  cbv zeta. intros Hone. rewrite performance_hits.
  pose proof (group_one_allocation bs dk slot hall Hone) as Hgroup.
  destruct (allocations_at bs dk slot hall) as [|x0 l0] eqn:El; [constructor|].
  rewrite Hgroup.
  assert (Hx : In x0 (allocations_at bs dk slot hall)) by (rewrite El; now left).
  apply filter_In in Hx as [_ Hx]. apply at_key_spec in Hx as (E1 & _).
  assert (Hdk : bar_free dk = true)
    by (rewrite <- E1; apply bar_free_bookingDateKey).
  destruct (part_hallKey dk slot hall Hdk) as (P0 & P1 & P2).
  unfold performanceAlert.
  destruct (_ <=? _)%nat; [constructor|].
  destruct (existsb MockBooking.hasPerformance (hall_group bs dk slot hall)) eqn:Ex;
    cbn [negb]; [|constructor].
  destruct (existsb_find _ _ Ex) as (first & Ef).
  constructor; [|constructor]. exists first.
  cbn [AlertDefinition.bookingId AlertDefinition.message].
  rewrite Ef, P1, P2. cbn [option_map from_option].
  split; [reflexivity|]. split; [reflexivity|]. now destruct slot.
Qed.

(** ** The id of a new booking *)

Lemma max_id_fold (l : list MockBooking.t) (m : Z) :
  let r := fold_left (fun max b => if max <? MockBooking.id b then MockBooking.id b else max)
                     l m in
  m <= r /\ Forall (fun b => MockBooking.id b <= r) l.
Proof.
  cbv zeta. revert m. induction l as [|b l IH]; intros m; cbn [fold_left].
  - split; [lia | constructor].
  - destruct (IH (if m <? MockBooking.id b then MockBooking.id b else m)) as [Hm Hl].
    destruct (Z.ltb_spec m (MockBooking.id b)); split; try lia;
      constructor; solve [lia | assumption].
Qed.

(** X24.  The booking form numbers a new booking above every listed
    booking: its id is at least 1 and exceeds all their ids, so that
    adding the booking keeps booking ids pairwise distinct. *)
Theorem new_booking_id_is_fresh (bookings : list MockBooking.t) (nb : MockBooking.t) :
  1 <= newBookingId bookings
  /\ Forall (fun b => MockBooking.id b < newBookingId bookings) bookings
  /\ (List.NoDup (map MockBooking.id bookings) ->
      MockBooking.id nb = newBookingId bookings ->
      List.NoDup (map MockBooking.id (addBooking bookings nb))).
Proof.
  assert (Hfresh : 1 <= newBookingId bookings
                   /\ Forall (fun b => MockBooking.id b < newBookingId bookings) bookings).
  { unfold newBookingId. destruct bookings as [|b l]; [split; [lia | constructor]|].
    destruct (max_id_fold (b :: l) 0) as [Hm Hl]. split; [lia|].
    eapply Forall_impl; [|exact Hl]. intros x Hx. cbv beta in Hx. lia. }
  destruct Hfresh as [H1 Hall]. split; [exact H1|]. split; [exact Hall|].
  intros Hnd Eid. unfold addBooking. rewrite map_app. cbn [map].
  apply NoDup_app; [exact Hnd | repeat constructor; intros [] |].
  intros i Hi [<-|[]]. apply in_map_iff in Hi as (b & Eb & Hb).
  rewrite Forall_forall in Hall. specialize (Hall b Hb). lia.
Qed.

(** ** The counters of the alerts page *)

Lemma totalActive_cons (d : AlertDefinition.t) (l : list AlertDefinition.t)
    (m : gmap string AlertResolution.t) :
  totalActive (mergeAlerts (d :: l) m)
  = ((match statusOf m (AlertDefinition.id d) with ACTIVE => 1 | _ => 0 end)
     + totalActive (mergeAlerts l m))%nat.
Proof.
  unfold totalActive, mergeAlerts, statusOf. cbn [map filter].
  unfold is_active at 1. cbn [AlertWithResolution.effectiveStatus].
  now destruct (from_option AlertResolution.status ACTIVE _).
Qed.

Lemma totalActive_ext (l : list AlertDefinition.t) (m m' : gmap string AlertResolution.t) :
  (forall d, In d l -> statusOf m (AlertDefinition.id d) = statusOf m' (AlertDefinition.id d)) ->
  totalActive (mergeAlerts l m) = totalActive (mergeAlerts l m').
Proof.
  induction l as [|d l IH]; intros Hst; [reflexivity|].
  rewrite !totalActive_cons, (Hst d) by now left.
  rewrite IH; [reflexivity|]. intros; apply Hst; now right.
Qed.

Lemma totalActive_write (l : list AlertDefinition.t) (i : string)
    (r : AlertResolution.t) (m : gmap string AlertResolution.t) :
  List.NoDup (map AlertDefinition.id l) ->
  In i (map AlertDefinition.id l) ->
  statusOf m i = ACTIVE ->
  AlertResolution.status r <> ACTIVE ->
  S (totalActive (mergeAlerts l (<[ i := r ]> m))) = totalActive (mergeAlerts l m).
Proof.
  intros Hnd Hin Hact Hr. induction l as [|d l IH]; [destruct Hin|].
  inversion Hnd as [|? ? Hnotin Hnd']; subst.
  rewrite !totalActive_cons.
  destruct (String.eqb (AlertDefinition.id d) i) eqn:E.
  - apply String.eqb_eq in E. rewrite E in *.
    rewrite Hact. unfold statusOf at 1. rewrite lookup_insert_eq. cbn [from_option].
    rewrite (totalActive_ext l (<[ i := r ]> m) m).
    + now destruct (AlertResolution.status r).
    + intros d' Hd'. unfold statusOf. rewrite lookup_insert_ne; [reflexivity|].
      intros ->. apply Hnotin. now apply in_map.
  - apply String.eqb_neq in E. destruct Hin as [Hin|Hin]; [contradiction|].
    unfold statusOf at 1. rewrite lookup_insert_ne by congruence.
    fold (statusOf m (AlertDefinition.id d)).
    rewrite <- (IH Hnd' Hin). lia.
Qed.

(** X25.  The counter of active alerts follows the actions.  Alert ids
    being pairwise distinct, dismissing or resolving an alert of the list
    that is active lowers the number of active alerts by exactly one, and
    reopening it brings the number back; the critical active alerts are
    never more than the active ones. *)
Theorem active_count_follows_actions (base : list AlertDefinition.t)
    (now alertId : string) (note : option string)
    (prev : gmap string AlertResolution.t) :
  (totalCriticalActive (mergeAlerts base prev)
   <= totalActive (mergeAlerts base prev))%nat
  /\ (List.NoDup (map AlertDefinition.id base) ->
      In alertId (map AlertDefinition.id base) ->
      statusOf prev alertId = ACTIVE ->
      S (totalActive (mergeAlerts base (dismissAlert now alertId note prev)))
      = totalActive (mergeAlerts base prev)
      /\ S (totalActive (mergeAlerts base (resolveAlert now alertId note prev)))
         = totalActive (mergeAlerts base prev)
      /\ totalActive (mergeAlerts base
                        (reopenAlert alertId (dismissAlert now alertId note prev)))
         = totalActive (mergeAlerts base prev)).
Proof.
  split.
  { unfold totalCriticalActive, totalActive. rewrite filter_andb.
    apply filter_length_le. }
  intros Hnd Hin Hact.
  split; [apply totalActive_write; try assumption; discriminate|].
  split; [apply totalActive_write; try assumption; discriminate|].
  apply totalActive_ext. intros d _. unfold reopenAlert, dismissAlert.
  rewrite delete_insert_eq. unfold statusOf in *.
  destruct (String.eqb alertId (AlertDefinition.id d)) eqn:E.
  - apply String.eqb_eq in E. subst alertId.
    now rewrite lookup_delete_eq, Hact.
  - apply String.eqb_neq in E. now rewrite lookup_delete_ne.
Qed.

(** * Soft delete and restore *)

Lemma replace_by_id_ids (id : Z) (updated : StoredBooking.t) (l : list StoredBooking.t) :
  storedId updated = id ->
  map storedId (map (fun b => if storedId b =? id then updated else b) l)
  = map storedId l.
Proof.
  intros Eu. rewrite map_map. apply map_ext. intros b.
  destruct (Z.eqb_spec (storedId b) id); congruence.
Qed.

Lemma find_replace_by_id (id : Z) (updated existing : StoredBooking.t)
    (l : list StoredBooking.t) :
  storedId updated = id ->
  find (fun b => storedId b =? id) l = Some existing ->
  find (fun b => storedId b =? id)
       (map (fun b => if storedId b =? id then updated else b) l)
  = Some updated.
Proof.
  intros Eu. induction l as [|b l IH]; cbn [find map]; [discriminate|].
  destruct (Z.eqb_spec (storedId b) id) as [E|E].
  - intros _. now rewrite Eu, Z.eqb_refl.
  - apply Z.eqb_neq in E. rewrite E. exact IH.
Qed.

Lemma bookings_without (id : Z) (updated : StoredBooking.t) (l : list StoredBooking.t) :
  deleted updated = true ->
  engineBookings (map (fun b => if storedId b =? id then updated else b) l)
  = filter (fun b => negb (MockBooking.id b =? id)) (engineBookings l).
Proof.
  intros Hu. unfold engineBookings, bookings.
  induction l as [|b l IH]; [reflexivity|]. cbn [map filter].
  destruct (Z.eqb_spec (storedId b) id) as [E|E].
  - rewrite Hu. cbn [negb]. rewrite IH.
    destruct (deleted b); cbn [negb map filter]; [reflexivity|].
    fold (storedId b). rewrite E, Z.eqb_refl. reflexivity.
  - destruct (deleted b); cbn [negb map filter]; [exact IH|].
    fold (storedId b). apply Z.eqb_neq in E. rewrite E. cbn [negb]. now rewrite IH.
Qed.

Lemma bookings_restored (id : Z) (existing updated : StoredBooking.t)
    (l : list StoredBooking.t) :
  deleted updated = false ->
  StoredBooking.booking updated = StoredBooking.booking existing ->
  (forall b, In b l -> storedId b = id -> b = existing) ->
  deleted existing = false ->
  engineBookings (map (fun b => if storedId b =? id then updated else b) l)
  = engineBookings l.
Proof.
  intros Hu Eb Hex Hnd. unfold engineBookings, bookings.
  induction l as [|b l IH]; [reflexivity|]. cbn [map filter].
  assert (IH' := IH (fun x Hx => Hex x (or_intror Hx))). clear IH.
  destruct (Z.eqb_spec (storedId b) id) as [E|E].
  - rewrite (Hex b (or_introl eq_refl) E), Hu, Hnd. cbn [negb map].
    now rewrite Eb, IH'.
  - destruct (deleted b); cbn [negb map]; now rewrite IH'.
Qed.

Lemma replace_twice (id : Z) (first second : StoredBooking.t) (l : list StoredBooking.t) :
  storedId first = id ->
  map (fun b => if storedId b =? id then second else b)
      (map (fun b => if storedId b =? id then first else b) l)
  = map (fun b => if storedId b =? id then second else b) l.
Proof.
  intros Ef. rewrite map_map. apply map_ext. intros b.
  destruct (Z.eqb_spec (storedId b) id) as [E|E].
  - now rewrite Ef, Z.eqb_refl.
  - apply Z.eqb_neq in E. now rewrite E.
Qed.

Lemma bookings_partition (l : list StoredBooking.t) :
  (List.length (bookings l) + List.length (deletedBookings l) = List.length l)%nat.
Proof.
  unfold bookings, deletedBookings.
  induction l as [|b l IH]; [reflexivity|]. cbn [filter].
  destruct (deleted b); cbn [negb List.length]; lia.
Qed.

(** X26.  Soft delete and restore.  Deleting a booking takes exactly the
    bookings with that id out of the list the engine reads and leaves the
    others in place; the ids of the stored bookings stay as they are, and
    listed and deleted bookings together are the stored ones.  With
    pairwise distinct ids, restoring a booking right after deleting it
    gives the engine the list it had before the deletion. *)
Theorem soft_delete_round_trip (now : string) (allBookings : list StoredBooking.t)
    (id : Z) (reason : option string) :
  let afterDelete := deleteBooking now allBookings allBookings id reason in
  let afterRestore := restoreBooking afterDelete afterDelete id in
  engineBookings afterDelete
  = filter (fun b => negb (MockBooking.id b =? id)) (engineBookings allBookings)
  /\ map storedId afterDelete = map storedId allBookings
  /\ (List.length (bookings afterDelete) + List.length (deletedBookings afterDelete)
      = List.length allBookings)%nat
  /\ (List.NoDup (map storedId allBookings) ->
      Forall (fun b => storedId b = id -> deleted b = false) allBookings ->
      engineBookings afterRestore = engineBookings allBookings).
Proof.
  cbv zeta. unfold deleteBooking.
  destruct (find (fun b => storedId b =? id) allBookings) as [existing|] eqn:Ef.
  - pose proof Ef as Hex. apply find_some in Hex as [Hin Eid]. apply Z.eqb_eq in Eid.
    split; [now apply bookings_without|].
    split; [now apply replace_by_id_ids|].
    split; [rewrite bookings_partition; apply length_map|].
    intros Hnd Hlive. unfold restoreBooking.
    rewrite (find_replace_by_id id _ existing) by assumption.
    cbn [StoredBooking.booking].
    rewrite replace_twice by exact Eid.
    apply (bookings_restored id existing).
    + reflexivity.
    + reflexivity.
    + intros b Hb Eb. apply (NoDup_map_eq storedId allBookings); congruence.
    + rewrite Forall_forall in Hlive. now apply Hlive.
  - assert (Hnone : forall b, In b (engineBookings allBookings) ->
                              negb (MockBooking.id b =? id) = true).
    { intros b Hb. unfold engineBookings in Hb.
      apply in_map_iff in Hb as (sb & <- & Hsb). apply filter_In in Hsb as [Hsb _].
      apply (find_none _ _ Ef) in Hsb. unfold storedId in Hsb. now rewrite Hsb. }
    split; [symmetry; apply filter_all, Forall_forall; exact Hnone|].
    split; [reflexivity|]. split; [apply bookings_partition|].
    intros _ _. unfold restoreBooking. now rewrite Ef.
Qed.

(** * The two hall views *)

(** X27.  The detail page's own [getHallStatsForBooking] and the one of
    [hallUtils] give the same guests, capacity, remaining room and
    over-capacity flag for every booking and hall; they give the same
    record altogether when the guest count of the other hall is entered
    or the booking lists no allocation for the other hall (the page falls
    back on that allocation for the other hall's guests, [hallUtils] on
    0). *)
Theorem hall_views_agree (bk : MockBooking.t) (hall : HallCode) :
  let page := BookingDetailPage.getHallStatsForBooking bk hall in
  let shared := getHallStatsForBooking bk hall in
  HallStats.guestsHere page = HallStats.guestsHere shared
  /\ HallStats.capacity page = HallStats.capacity shared
  /\ HallStats.remaining page = HallStats.remaining shared
  /\ HallStats.isOverCapacity page = HallStats.isOverCapacity shared
  /\ (is_some (splitOf (otherHall hall) (MockBooking.hallAGuests bk)
                       (MockBooking.hallBGuests bk))
      || negb (uses_hall (otherHall hall) bk) = true ->
      page = shared).
Proof.
  cbv zeta.
  assert (Hfind : forall h, uses_hall h bk = false ->
                            find (fun a => HallCode_eqb (HallAllocation.hallCode a) h)
                                 (MockBooking.halls bk) = None).
  { intros h Hu. destruct (find _ _) as [a|] eqn:Ef; [|reflexivity].
    apply find_some in Ef as [Hin Ea].
    assert (uses_hall h bk = true) by (apply existsb_exists; eauto). congruence. }
  unfold BookingDetailPage.getHallStatsForBooking, getHallStatsForBooking.
  destruct hall; cbn [otherHall splitOf HallStats.guestsHere HallStats.capacity
                        HallStats.remaining HallStats.isOverCapacity] in *;
    (split; [reflexivity|]); (split; [reflexivity|]); (split; [reflexivity|]);
    (split; [reflexivity|]); intros Hother.
  - destruct (MockBooking.hallBGuests bk) as [n|]; [reflexivity|].
    cbn [is_some orb] in Hother. apply negb_true_iff in Hother.
    now rewrite (Hfind HallB Hother).
  - destruct (MockBooking.hallAGuests bk) as [n|]; [reflexivity|].
    cbn [is_some orb] in Hother. apply negb_true_iff in Hother.
    now rewrite (Hfind HallA Hother).
Qed.

(** *** The further theorems at concrete bookings *)

Lemma overbooked_group_nonneg :
  Forall (fun x : MockBooking.t * HallAllocation.t =>
            0 <= HallAllocation.guestsHere (snd x))
         (allocations_at overbooked_day "2025-11-15" DINNER HallA).
Proof. vm_compute. repeat constructor; discriminate. Qed.

Lemma capacity_alert_names_busiest_witness :
  let group := allocations_at overbooked_day "2025-11-15" DINNER HallA in
  let guests := fun x : MockBooking.t * HallAllocation.t =>
                  HallAllocation.guestsHere (snd x) in
  Forall (fun x => 0 <= guests x) group
  /\ Forall (fun a =>
               exists l1 x l2 capacity,
                 group = (l1 ++ x :: l2)%list
                 /\ Forall (fun y => guests y <= guests x) l1
                 /\ Forall (fun y => guests y < guests x) l2
                 /\ max_capacity (map snd group) = Some capacity
                 /\ AlertDefinition.bookingId a = Some (MockBooking.id (fst x))
                 /\ AlertDefinition.title a
                    = "Capacity override – Hall " ++ HallCode_str HallA
                 /\ AlertDefinition.message a
                    = MockBooking.eventDateLabel (fst x) ++ " ("
                      ++ formatSlotShort DINNER ++ "): Hall " ++ HallCode_str HallA
                      ++ " has " ++ num_str (guests_sum (map snd group))
                      ++ " guests across "
                      ++ num_str (Z.of_nat (List.length group))
                      ++ " event(s) for " ++ num_str capacity ++ " capacity.")
            (filter (fun a => has_type CAPACITY_OVERRIDE a
                              && String.eqb (AlertDefinition.id a)
                                   (capacityId "2025-11-15" DINNER HallA))
                    (buildAlerts overbooked_day ref_today)).
Proof.
  split; [exact overbooked_group_nonneg|].
  exact (capacity_alert_names_busiest overbooked_day ref_today "2025-11-15" DINNER
           HallA overbooked_group_nonneg).
Defined.

Lemma soft_bookings_ids_distinct : List.NoDup (map MockBooking.id soft_bookings).
Proof. repeat constructor; simpl; intuition discriminate. Qed.

Lemma followup_excludes_past_witness :
  let a := nth 1 (buildAlerts soft_bookings ref_today) overbooked_alert in
  let a' := nth 0 (buildAlerts soft_bookings ref_today) overbooked_alert in
  List.NoDup (map MockBooking.id soft_bookings)
  /\ In a (buildAlerts soft_bookings ref_today)
  /\ In a' (buildAlerts soft_bookings ref_today)
  /\ AlertDefinition.type a = SOFT_BOOKING_FOLLOWUP
  /\ AlertDefinition.type a' = PAST_NOT_CLOSED
  /\ AlertDefinition.bookingId a <> AlertDefinition.bookingId a'.
Proof.
  intros a a'.
  assert (Ha : In a (buildAlerts soft_bookings ref_today))
    by (vm_compute; tauto).
  assert (Ha' : In a' (buildAlerts soft_bookings ref_today))
    by (vm_compute; tauto).
  split; [exact soft_bookings_ids_distinct|].
  split; [exact Ha|]. split; [exact Ha'|].
  split; [reflexivity|]. split; [reflexivity|].
  exact (followup_excludes_past soft_bookings ref_today a a'
           soft_bookings_ids_distinct Ha Ha' eq_refl eq_refl).
Defined.

Lemma dateKey_identifies_day_witness :
  let t := 1763000000000 in
  let t' := 1763000060000 in
  (0 <= local_month t < 12) /\ (1 <= local_day t <= 31)
  /\ (0 <= local_month t' < 12) /\ (1 <= local_day t' <= 31)
  /\ (dateKey (Some t) = dateKey (Some t')
      <-> local_year t = local_year t' /\ local_month t = local_month t'
          /\ local_day t = local_day t').
Proof.
  intros t t'.
  assert (Hm : 0 <= local_month t < 12)
    by (vm_compute; split; [discriminate | reflexivity]).
  assert (Hd : 1 <= local_day t <= 31) by (vm_compute; split; discriminate).
  assert (Hm' : 0 <= local_month t' < 12)
    by (vm_compute; split; [discriminate | reflexivity]).
  assert (Hd' : 1 <= local_day t' <= 31) by (vm_compute; split; discriminate).
  split; [exact Hm|]. split; [exact Hd|]. split; [exact Hm'|]. split; [exact Hd'|].
  exact (proj2 (dateKey_identifies_day t t' None) Hm Hd Hm' Hd').
Defined.

Lemma one_record_store_loadable : map_Forall loadable one_record_store.
Proof.
  apply map_Forall_insert_2; [|apply map_Forall_empty].
  repeat split; discriminate.
Qed.

Lemma one_record_store_well_formed : map_Forall well_formed one_record_store.
Proof.
  apply map_Forall_insert_2; [|apply map_Forall_empty]. now split.
Qed.

Lemma resolutions_well_formed_witness :
  map_Forall well_formed one_record_store
  /\ map_Forall well_formed
       (resolveAlert "2025-11-13T02:13:20.000Z" "soft-follow-3" None one_record_store)
  /\ map_Forall well_formed
       (dismissAlert "2025-11-13T02:13:20.000Z" "soft-follow-3" None one_record_store)
  /\ map_Forall well_formed (reopenAlert "soft-follow-3" one_record_store).
Proof.
  split; [exact one_record_store_well_formed|].
  exact (proj2 (resolutions_well_formed "2025-11-13T02:13:20.000Z" "soft-follow-3"
                  None JNull one_record_store)
               one_record_store_well_formed).
Defined.

Lemma mutations_compose_witness :
  "soft-follow-3" <> "cap-2025-11-15-DINNER-A"
  /\ dismissAlert "t1" "soft-follow-3" (Some " later ")
       (resolveAlert "t2" "cap-2025-11-15-DINNER-A" None one_record_store)
     = resolveAlert "t2" "cap-2025-11-15-DINNER-A" None
         (dismissAlert "t1" "soft-follow-3" (Some " later ") one_record_store).
Proof.
  assert (Hne : "soft-follow-3" <> "cap-2025-11-15-DINNER-A") by discriminate.
  split; [exact Hne|].
  exact (proj1 (proj2 (proj2 (proj2 (proj2 (proj2 (proj2 (proj2
           (mutations_compose "t1" "t2" "soft-follow-3" "cap-2025-11-15-DINNER-A"
              (Some " later ") None one_record_store))))))) Hne)).
Defined.

Lemma saved_store_loads_back_witness :
  map_Forall loadable one_record_store
  /\ Permutation (map_to_list one_record_store) (map_to_list one_record_store)
  /\ normalizeResolutions "2025-11-13T02:13:20.000Z"
       (persisted (map_to_list one_record_store))
     = one_record_store.
Proof.
  split; [exact one_record_store_loadable|].
  split; [apply Permutation_refl|].
  exact (saved_store_loads_back "2025-11-13T02:13:20.000Z" one_record_store
           (map_to_list one_record_store) one_record_store_loadable
           (Permutation_refl _)).
Defined.

Lemma hall_split_update_keeps_bookings_witness :
  let next := updateBookingHallSplit shared_performance shared_performance 2
                (Some 150) (Some 50) in
  Forall one_allocation_per_hall shared_performance
  /\ map MockBooking.id next = map MockBooking.id shared_performance
  /\ Forall one_allocation_per_hall next.
Proof.
  intros next. split; [exact shared_performance_one_per_hall|].
  destruct (hall_split_update_keeps_bookings shared_performance shared_performance 2
              (Some 150) (Some 50))
    as (Hids & Hone & _).
  split; [exact Hids | exact (Hone shared_performance_one_per_hall)].
Defined.

Lemma hall_texts_follow_split_witness :
  let bk := booking 2 "15 Nov 2025" CONFIRMED false 500 (Some 200) None [] in
  0 <= default 0 (MockBooking.hallAGuests bk)
  /\ 0 <= default 0 (MockBooking.hallBGuests bk)
  /\ getHallsUsedText bk = "Hall A only"
  /\ implb (split_mismatch bk) (is_some (getGuestSplitText bk)) = true.
Proof.
  intros bk.
  assert (Ha : 0 <= default 0 (MockBooking.hallAGuests bk)) by (cbn; lia).
  assert (Hb : 0 <= default 0 (MockBooking.hallBGuests bk)) by (cbn; lia).
  split; [exact Ha|]. split; [exact Hb|].
  destruct (hall_texts_follow_split bk) as (Htext & _ & Hshown).
  split; [exact (Htext Ha Hb) | exact Hshown].
Defined.

Lemma overbooked_capacities_positive :
  Forall (fun h => 0 < HallAllocation.capacity h)
         (map snd (allocations_at overbooked_day "2025-11-15" DINNER HallA)).
Proof. vm_compute. repeat constructor. Qed.

Lemma calendar_usage_matches_engine_witness :
  let usage := computeHallUsage (day_group overbooked_day "2025-11-15" DINNER) in
  Forall (fun h => 0 < HallAllocation.capacity h)
         (map snd (allocations_at overbooked_day "2025-11-15" DINNER HallA))
  /\ List.length
       (filter (fun a => has_type CAPACITY_OVERRIDE a
                         && String.eqb (AlertDefinition.id a)
                              (capacityId "2025-11-15" DINNER HallA))
               (buildAlerts overbooked_day ref_today))
     = (if capacityIn HallA usage <? usedIn HallA usage then 1%nat else 0%nat).
Proof.
  intros usage. split; [exact overbooked_capacities_positive|].
  exact (proj2 (proj2 (proj2
           (calendar_usage_matches_engine overbooked_day ref_today "2025-11-15" DINNER
              HallA)) overbooked_capacities_positive)).
Defined.

Lemma six_active_five : (5 <= List.length (filter is_active six_active))%nat.
Proof. vm_compute. repeat constructor. Qed.

Lemma dashboard_drops_older_alerts_witness :
  (5 <= List.length (filter is_active six_active))%nat
  /\ dashboardAlerts ([active_alert "z" critical] ++ six_active)
     = dashboardAlerts six_active.
Proof.
  split; [exact six_active_five|].
  exact (proj1 (dashboard_drops_older_alerts [active_alert "z" critical] six_active
                  six_active_five)).
Defined.

Lemma crowded_day_other_alerts :
  (5 <= List.length (filter (fun a => negb (has_type CAPACITY_OVERRIDE a))
                            (buildAlerts crowded_day ref_today)))%nat.
Proof. vm_compute. repeat constructor. Qed.

Lemma dashboard_hides_capacity_alerts_witness :
  (5 <= List.length (filter (fun a => negb (has_type CAPACITY_OVERRIDE a))
                            (buildAlerts crowded_day ref_today)))%nat
  /\ Forall (fun m => AlertDefinition.type (AlertWithResolution.def m)
                      <> CAPACITY_OVERRIDE)
            (dashboardAlerts (mergeAlerts (buildAlerts crowded_day ref_today) ∅)).
Proof.
  split; [exact crowded_day_other_alerts|].
  exact (dashboard_hides_capacity_alerts crowded_day ref_today crowded_day_other_alerts).
Defined.

Lemma performance_alert_names_first_performer_witness :
  Forall one_allocation_per_hall shared_performance
  /\ Forall (fun a =>
               exists first,
                 find MockBooking.hasPerformance
                      (hall_group shared_performance "2025-11-15" DINNER HallA)
                 = Some first
                 /\ AlertDefinition.bookingId a = Some (MockBooking.id first)
                 /\ AlertDefinition.message a
                    = "There are "
                      ++ num_str (Z.of_nat (List.length
                                    (hall_group shared_performance "2025-11-15"
                                       DINNER HallA)))
                      ++ " event(s) in Hall " ++ HallCode_str HallA ++ " during "
                      ++ formatSlotShort DINNER ++ " on "
                      ++ MockBooking.eventDateLabel first
                      ++ ", and at least one has a performance.")
            (filter (fun a => has_type PERFORMANCE_HALL_CONFLICT a
                              && String.eqb (AlertDefinition.id a)
                                   (perfConflictId "2025-11-15" DINNER HallA))
                    (buildAlerts shared_performance ref_today)).
Proof.
  split; [exact shared_performance_one_per_hall|].
  exact (performance_alert_names_first_performer shared_performance ref_today
           "2025-11-15" DINNER HallA shared_performance_one_per_hall).
Defined.

Lemma new_booking_id_is_fresh_witness :
  let nb := booking 4 "20 Nov 2025" INQUIRY false 100 None None [] in
  List.NoDup (map MockBooking.id overbooked_day)
  /\ MockBooking.id nb = newBookingId overbooked_day
  /\ List.NoDup (map MockBooking.id (addBooking overbooked_day nb)).
Proof.
  intros nb. split; [exact overbooked_day_ids_distinct|]. split; [reflexivity|].
  exact (proj2 (proj2 (new_booking_id_is_fresh overbooked_day nb))
               overbooked_day_ids_distinct eq_refl).
Defined.

Lemma overbooked_alert_ids_distinct :
  List.NoDup (map AlertDefinition.id (buildAlerts overbooked_day ref_today)).
Proof. vm_compute. repeat constructor; simpl; intuition discriminate. Qed.

Lemma overbooked_alert_listed :
  In "cap-2025-11-15-DINNER-A"
     (map AlertDefinition.id (buildAlerts overbooked_day ref_today)).
Proof. vm_compute. now left. Qed.

Lemma active_count_follows_actions_witness :
  let base := buildAlerts overbooked_day ref_today in
  List.NoDup (map AlertDefinition.id base)
  /\ In "cap-2025-11-15-DINNER-A" (map AlertDefinition.id base)
  /\ statusOf one_record_store "cap-2025-11-15-DINNER-A" = ACTIVE
  /\ S (totalActive
          (mergeAlerts base
             (dismissAlert "2025-11-13T02:13:20.000Z" "cap-2025-11-15-DINNER-A"
                (Some "approved") one_record_store)))
     = totalActive (mergeAlerts base one_record_store).
Proof.
  intros base.
  assert (Hact : statusOf one_record_store "cap-2025-11-15-DINNER-A" = ACTIVE).
  { unfold statusOf, one_record_store. now rewrite lookup_insert_ne. }
  split; [exact overbooked_alert_ids_distinct|].
  split; [exact overbooked_alert_listed|]. split; [exact Hact|].
  exact (proj1 (proj2 (active_count_follows_actions base "2025-11-13T02:13:20.000Z"
                         "cap-2025-11-15-DINNER-A" (Some "approved") one_record_store)
                      overbooked_alert_ids_distinct overbooked_alert_listed Hact)).
Defined.

Lemma stored_overbooked_ids_distinct :
  List.NoDup (map storedId (map stored overbooked_day)).
Proof. vm_compute. repeat constructor; simpl; intuition discriminate. Qed.

Lemma stored_overbooked_live :
  Forall (fun b => storedId b = 2 -> deleted b = false) (map stored overbooked_day).
Proof. repeat constructor. Qed.

Lemma soft_delete_round_trip_witness :
  let allBookings := map stored overbooked_day in
  let afterDelete := deleteBooking "2025-11-13T02:13:20.000Z" allBookings allBookings 2
                       (Some "client cancelled") in
  List.NoDup (map storedId allBookings)
  /\ Forall (fun b => storedId b = 2 -> deleted b = false) allBookings
  /\ engineBookings afterDelete
     = filter (fun b => negb (MockBooking.id b =? 2)) (engineBookings allBookings)
  /\ engineBookings (restoreBooking afterDelete afterDelete 2)
     = engineBookings allBookings.
Proof.
  intros allBookings afterDelete.
  split; [exact stored_overbooked_ids_distinct|].
  split; [exact stored_overbooked_live|].
  destruct (soft_delete_round_trip "2025-11-13T02:13:20.000Z" allBookings 2
              (Some "client cancelled")) as (Hdel & _ & _ & Hres).
  split; [exact Hdel|].
  exact (Hres stored_overbooked_ids_distinct stored_overbooked_live).
Defined.

Lemma hall_views_agree_witness :
  let bk := booking 2 "15 Nov 2025" CONFIRMED false 500 (Some 200) None
              [hallAlloc HallA 1000 200] in
  is_some (splitOf (otherHall HallA) (MockBooking.hallAGuests bk)
                   (MockBooking.hallBGuests bk))
  || negb (uses_hall (otherHall HallA) bk) = true
  /\ BookingDetailPage.getHallStatsForBooking bk HallA = getHallStatsForBooking bk HallA.
Proof.
  intros bk. split; [reflexivity|].
  exact (proj2 (proj2 (proj2 (proj2 (hall_views_agree bk HallA)))) eq_refl).
Defined.
